(** * FastMCP server validator (scripts/validate_fastmcp.py)

    A shallow embedding of [FastMCPValidator] and of the part of Python's
    [ast] module it relies on, followed by the properties of the validation
    run: verdict, parser gate, rule inventory, strict mode.

    Conventions.
    - The syntax tree is the one [ast.parse] builds: typed node classes with
      the fields of CPython's [ast] module, in their [_fields] order.
    - The validator object is a record; its methods live in a state and
      exception monad [M], because they mutate [self.issues] and because
      nothing in [validate] catches what a check raises.
    - What the interpreter and its library supply (the file system, the
      parser, [ast.unparse], [inspect.cleandoc]) is an instance of the class
      [Env]; theorems quantify over it.
    - [print] writes to standard output only and is left out of the methods:
      writing is taken to succeed.  The texts [print_results] prints are a
      function of the validator, modelled apart. *)

From Stdlib Require Import List String Ascii ZArith Lia Bool Arith PeanoNat.
From Stdlib Require Import DecimalString.
Import ListNotations.
Local Open Scope list_scope.
Local Open Scope string_scope.

Set Implicit Arguments.
Set Warnings "-register-all".

(** ** Python's [ast] node classes *)

Module ast.

Local Open Scope list_scope.

Inductive expr_context : Type := Load | Store | Del.

Inductive cmpop : Type :=
| Eq | NotEq | Lt | LtE | Gt | GtE | Is | IsNot | In | NotIn.

(** The value carried by a [Constant] node. *)
Inductive constant : Type :=
| Str (s : string)
| Int (z : Z)
| Bool (b : bool)
| NoneConst
| Ellipsis.

(** Expressions.  [keyword] nodes of a call are pairs (argument name,
    value).  [OtherExpr] stands for every expression class no rule looks at
    (BinOp, List, Lambda, ...), with its child expressions in field order. *)
Inductive expr : Type :=
| Name (id : string) (ctx : expr_context)
| Attribute (value : expr) (attr : string) (ctx : expr_context)
| Call (func : expr) (args : list expr) (keywords : list (option string * expr))
| Compare (left : expr) (ops : list cmpop) (comparators : list expr)
| Constant (value : constant)
| Await (value : expr)
| Subscript (value : expr) (slice : expr) (ctx : expr_context)
| OtherExpr (children : list expr).

Definition keyword : Type := (option string * expr)%type.

Record arg : Type := mk_arg {
  arg_name : string;                 (* the field [arg] *)
  annotation : option expr
}.

Record arguments : Type := mk_arguments {
  posonlyargs : list arg;
  args : list arg;
  vararg : option arg;
  kwonlyargs : list arg;
  kw_defaults : list (option expr);
  kwarg : option arg;
  defaults : list expr
}.

Record alias : Type := mk_alias {
  name : string;
  asname : option string
}.

(** Statements.  [lineno] is kept where a rule reads it.  [OtherStmt] stands
    for every statement class no rule looks at (For, While, With, Try, ...),
    with its child expressions and child statements. *)
Inductive stmt : Type :=
| FunctionDef (name : string) (args : arguments) (body : list stmt)
    (decorator_list : list expr) (returns : option expr) (lineno : Z)
| AsyncFunctionDef (name : string) (args : arguments) (body : list stmt)
    (decorator_list : list expr) (returns : option expr) (lineno : Z)
| ClassDef (name : string) (bases : list expr) (keywords : list keyword)
    (body : list stmt) (decorator_list : list expr)
| Return (value : option expr)
| Assign (targets : list expr) (value : expr) (lineno : Z)
| If (test : expr) (body : list stmt) (orelse : list stmt)
| ImportFrom (module : option string) (names : list alias) (level : Z) (lineno : Z)
| Import (names : list alias)
| Expr (value : expr)
| Pass
| OtherStmt (exprs : list expr) (body : list stmt).

Inductive Mod : Type :=
| Module (body : list stmt).

(** [ast.AST]: what [ast.walk] yields. *)
Inductive AST : Type :=
| of_mod (m : Mod)
| of_stmt (s : stmt)
| of_expr (e : expr)
| of_arguments (a : arguments)
| of_arg (a : arg)
| of_keyword (k : keyword)
| of_alias (a : alias)
| of_cmpop (o : cmpop)
| of_expr_context (c : expr_context).

Definition of_option {A} (f : A -> AST) (o : option A) : list AST :=
  match o with
  | Some a => [f a]
  | None => []
  end.

(** [ast.iter_child_nodes]: the node-valued fields, in [_fields] order;
    a list field contributes its node items, a [None] field nothing. *)
Definition iter_child_nodes (node : AST) : list AST :=
  match node with
  | of_mod (Module body) => map of_stmt body
  | of_stmt (FunctionDef _ a body decorator_list returns _)
  | of_stmt (AsyncFunctionDef _ a body decorator_list returns _) =>
      of_arguments a :: map of_stmt body ++ map of_expr decorator_list
        ++ of_option of_expr returns
  | of_stmt (ClassDef _ bases keywords body decorator_list) =>
      map of_expr bases ++ map of_keyword keywords ++ map of_stmt body
        ++ map of_expr decorator_list
  | of_stmt (Return value) => of_option of_expr value
  | of_stmt (Assign targets value _) => map of_expr targets ++ [of_expr value]
  | of_stmt (If test body orelse) =>
      of_expr test :: map of_stmt body ++ map of_stmt orelse
  | of_stmt (ImportFrom _ names _ _) => map of_alias names
  | of_stmt (Import names) => map of_alias names
  | of_stmt (Expr value) => [of_expr value]
  | of_stmt Pass => []
  | of_stmt (OtherStmt exprs body) => map of_expr exprs ++ map of_stmt body
  | of_expr (Name _ ctx) => [of_expr_context ctx]
  | of_expr (Attribute value _ ctx) => [of_expr value; of_expr_context ctx]
  | of_expr (Call func a keywords) =>
      of_expr func :: map of_expr a ++ map of_keyword keywords
  | of_expr (Compare lhs ops comparators) =>
      of_expr lhs :: map of_cmpop ops ++ map of_expr comparators
  | of_expr (Constant _) => []
  | of_expr (Await value) => [of_expr value]
  | of_expr (Subscript value slice ctx) =>
      [of_expr value; of_expr slice; of_expr_context ctx]
  | of_expr (OtherExpr children) => map of_expr children
  | of_arguments a =>
      map of_arg (posonlyargs a) ++ map of_arg (args a)
        ++ of_option of_arg (vararg a) ++ map of_arg (kwonlyargs a)
        ++ flat_map (of_option of_expr) (kw_defaults a)
        ++ of_option of_arg (kwarg a) ++ map of_expr (defaults a)
  | of_arg a => of_option of_expr (annotation a)
  | of_keyword (_, value) => [of_expr value]
  | of_alias _ => []
  | of_cmpop _ => []
  | of_expr_context _ => []
  end.

(** Number of nodes of a subtree; the fuel of [walk]. *)
Fixpoint expr_size (e : expr) : nat :=
  match e with
  | Name _ _ => 2
  | Attribute value _ _ => 2 + expr_size value
  | Call func a keywords =>
      1 + expr_size func + list_sum (map expr_size a)
        + list_sum (map (fun k : keyword => 1 + expr_size (snd k)) keywords)
  | Compare lhs ops comparators =>
      1 + expr_size lhs + List.length ops + list_sum (map expr_size comparators)
  | Constant _ => 1
  | Await value => 1 + expr_size value
  | Subscript value slice _ => 2 + expr_size value + expr_size slice
  | OtherExpr children => 1 + list_sum (map expr_size children)
  end.

Definition option_size {A} (f : A -> nat) (o : option A) : nat :=
  match o with
  | Some a => f a
  | None => 0
  end.

Definition keyword_size (k : keyword) : nat := 1 + expr_size (snd k).

Definition arg_size (a : arg) : nat := 1 + option_size expr_size (annotation a).

Definition arguments_size (a : arguments) : nat :=
  1 + list_sum (map arg_size (posonlyargs a)) + list_sum (map arg_size (args a))
    + option_size arg_size (vararg a) + list_sum (map arg_size (kwonlyargs a))
    + list_sum (map (option_size expr_size) (kw_defaults a))
    + option_size arg_size (kwarg a) + list_sum (map expr_size (defaults a)).

Fixpoint stmt_size (s : stmt) : nat :=
  match s with
  | FunctionDef _ a body decorator_list returns _
  | AsyncFunctionDef _ a body decorator_list returns _ =>
      1 + arguments_size a + list_sum (map stmt_size body)
        + list_sum (map expr_size decorator_list) + option_size expr_size returns
  | ClassDef _ bases keywords body decorator_list =>
      1 + list_sum (map expr_size bases) + list_sum (map keyword_size keywords)
        + list_sum (map stmt_size body) + list_sum (map expr_size decorator_list)
  | Return value => 1 + option_size expr_size value
  | Assign targets value _ => 1 + list_sum (map expr_size targets) + expr_size value
  | If test body orelse =>
      1 + expr_size test + list_sum (map stmt_size body)
        + list_sum (map stmt_size orelse)
  | ImportFrom _ names _ _ => 1 + List.length names
  | Import names => 1 + List.length names
  | Expr value => 1 + expr_size value
  | Pass => 1
  | OtherStmt exprs body =>
      1 + list_sum (map expr_size exprs) + list_sum (map stmt_size body)
  end.

Definition size (node : AST) : nat :=
  match node with
  | of_mod (Module body) => 1 + list_sum (map stmt_size body)
  | of_stmt s => stmt_size s
  | of_expr e => expr_size e
  | of_arguments a => arguments_size a
  | of_arg a => arg_size a
  | of_keyword k => keyword_size k
  | of_alias _ => 1
  | of_cmpop _ => 1
  | of_expr_context _ => 1
  end.

(** [ast.walk]: breadth-first, driven by a queue.

      todo = deque([node])
      while todo:
          node = todo.popleft()
          todo.extend(iter_child_nodes(node))
          yield node                                                   *)
Fixpoint walk_queue (fuel : nat) (todo : list AST) : list AST :=
  match fuel with
  | O => []
  | S fuel' =>
      match todo with
      | [] => []
      | node :: rest => node :: walk_queue fuel' (rest ++ iter_child_nodes node)
      end
  end.

Definition walk (node : AST) : list AST := walk_queue (size node) [node].

(** [ast.get_docstring(node, clean=True)] for a node that has a body;
    [cleandoc] is [inspect.cleandoc]. *)
Definition get_docstring (cleandoc : string -> string) (body : list stmt)
  : option string :=
  match body with
  | Expr (Constant (Str text)) :: _ => Some (cleandoc text)
  | _ => None
  end.

End ast.

(** ** Findings and the validator object *)

(** [class ValidationIssue(NamedTuple)]; [severity] is one of the strings
    "error", "warning", "info". *)
Record ValidationIssue : Type := mk_issue {
  severity : string;
  line : option Z;
  message : string;
  suggestion : option string
}.

(** [class FastMCPValidator]: the attributes [__init__] sets. *)
Record FastMCPValidator : Type := mk_validator {
  filepath : string;
  strict : bool;
  issues : list ValidationIssue;
  tree : option ast.Mod
}.

(** [FastMCPValidator(filepath, strict)]. *)
Definition init (path : string) (strict_flag : bool) : FastMCPValidator :=
  {| filepath := path; strict := strict_flag; issues := []; tree := None |}.

Definition set_issues (l : list ValidationIssue) (self : FastMCPValidator)
  : FastMCPValidator :=
  {| filepath := filepath self; strict := strict self; issues := l;
     tree := tree self |}.

Definition set_tree (t : ast.Mod) (self : FastMCPValidator) : FastMCPValidator :=
  {| filepath := filepath self; strict := strict self; issues := issues self;
     tree := Some t |}.

(** ** Exceptions and what the interpreter supplies *)

(** An exception object: its class name and [str(e)]. *)
Record Exception : Type := mk_exception {
  exc_class : string;
  exc_str : string
}.

(** The attributes of a [SyntaxError] that [validate] reads. *)
Record SyntaxError : Type := mk_syntax_error {
  se_lineno : option Z;
  se_msg : string
}.

Inductive parse_result : Type :=
| Parsed (t : ast.Mod)
| ParseSyntaxError (e : SyntaxError)
| ParseRaised (e : Exception).        (* anything that is not a SyntaxError *)

(** Of these calls [validate] guards the reading and, for [SyntaxError]
    only, the parsing; [Path.exists()] (which raises [OSError] on a name
    too long or a directory that may not be searched), [ast.parse] on any
    other exception and [ast.unparse] are called outside a [try]. *)
Class Env : Type := {
  path_exists : string -> Exception + bool;         (* Path.exists() *)
  read_file : string -> Exception + string;         (* open(path).read() *)
  ast_parse : string -> string -> parse_result;     (* ast.parse(content, filename) *)
  ast_unparse : ast.expr -> Exception + string;     (* ast.unparse(node) *)
  inspect_cleandoc : string -> string               (* inspect.cleandoc(text) *)
}.

(** ** The monad of methods: state [self], exceptions propagate *)

Inductive outcome (A : Type) : Type :=
| Returned (a : A) (self : FastMCPValidator)
| Raised (e : Exception) (self : FastMCPValidator).

Arguments Returned {A} a self.
Arguments Raised {A} e self.

Definition M (A : Type) : Type := FastMCPValidator -> outcome A.

Definition ret {A} (a : A) : M A := fun self => Returned a self.

Definition bind {A B} (m : M A) (k : A -> M B) : M B :=
  fun self =>
    match m self with
    | Returned a self' => k a self'
    | Raised e self' => Raised e self'
    end.

Definition raise {A} (e : Exception) : M A := fun self => Raised e self.

Definition get_self : M FastMCPValidator := fun self => Returned self self.

Definition lift {A} (r : Exception + A) : M A :=
  match r with
  | inl e => raise e
  | inr a => ret a
  end.

Declare Scope py_scope.
Delimit Scope py_scope with py.
Notation "x <- c1 ;; c2" := (bind c1 (fun x => c2))
  (at level 61, c1 at next level, right associativity) : py_scope.
Notation "' pat <- c1 ;; c2" := (bind c1 (fun x => match x with pat => c2 end))
  (at level 61, pat pattern, c1 at next level, right associativity) : py_scope.
Notation "c1 ;; c2" := (bind c1 (fun _ => c2))
  (at level 61, right associativity) : py_scope.
Local Open Scope py_scope.

(** [for x in l: acc = body(acc, x)], the loop variables threaded as [acc]. *)
Fixpoint for_each {A B} (l : list B) (body : A -> B -> M A) (acc : A) : M A :=
  match l with
  | [] => ret acc
  | x :: rest => acc' <- body acc x ;; for_each rest body acc'
  end.

(** A list comprehension [[f(x) for x in l]], evaluated left to right. *)
Fixpoint comprehension {A B} (f : A -> M B) (l : list A) : M (list B) :=
  match l with
  | [] => ret []
  | x :: rest => y <- f x ;; ys <- comprehension f rest ;; ret (y :: ys)
  end.

Definition when (b : bool) (m : M unit) : M unit := if b then m else ret tt.

(** ** String helpers *)

(** [needle in haystack] on strings. *)
Definition contains (needle haystack : string) : bool :=
  match String.index 0 needle haystack with
  | Some _ => true
  | None => false
  end.

(** [s.startswith(p)]. *)
Definition startswith (p s : string) : bool := String.prefix p s.

(** [x in l] on a list of strings. *)
Definition mem (x : string) (l : list string) : bool := existsb (String.eqb x) l.

(** The one-character string holding a double quote. *)
Definition dquote : string := String (ascii_of_nat 34) EmptyString.

(** [str(n)] for a count. *)
Definition str_of_nat (n : nat) : string := NilEmpty.string_of_uint (Nat.to_uint n).

(** ** The methods of [FastMCPValidator] *)

Section Methods.

Context {env : Env}.

Definition append_issue (i : ValidationIssue) : M unit :=
  fun self => Returned tt (set_issues (issues self ++ [i])%list self).

Definition add_error (line : option Z) (message : string)
    (suggestion : option string) : M unit :=
  append_issue (mk_issue "error" line message suggestion).

Definition add_warning (line : option Z) (message : string)
    (suggestion : option string) : M unit :=
  append_issue (mk_issue "warning" line message suggestion).

Definition add_info (line : option Z) (message : string)
    (suggestion : option string) : M unit :=
  self <- get_self ;;
  when (strict self) (append_issue (mk_issue "info" line message suggestion)).

(** [get_decorator_name]. *)
Fixpoint get_decorator_name (decorator : ast.expr) : M string :=
  match decorator with
  | ast.Name id _ => ret id
  | ast.Attribute value attr _ =>
      v <- lift (ast_unparse value) ;; ret (v ++ "." ++ attr)
  | ast.Call func _ _ => get_decorator_name func
  | _ => ret ""
  end.

Definition is_Await (node : ast.AST) : bool :=
  match node with
  | ast.of_expr (ast.Await _) => true
  | _ => false
  end.

(** [has_await]: the loop returns at the first [Await] the walk yields. *)
Definition has_await (node : ast.AST) : bool := existsb is_Await (ast.walk node).

(** [isinstance(node, ast.AsyncFunctionDef)]. *)
Definition isinstance_AsyncFunctionDef (node : ast.stmt) : bool :=
  match node with
  | ast.AsyncFunctionDef _ _ _ _ _ _ => true
  | _ => false
  end.

(** The body of the loop of [check_imports]; the loop variable is
    [has_fastmcp_import]. *)
Definition check_imports_visit (has_fastmcp_import : bool) (node : ast.AST)
  : M bool :=
  match node with
  | ast.of_stmt (ast.ImportFrom module names _ lineno) =>
      match module with
      | Some m =>
          if m =? "fastmcp" then
            let imported_names := map ast.name names in
            when (negb (mem "FastMCP" imported_names))
              (add_warning (Some lineno)
                 "FastMCP class not imported from fastmcp"
                 (Some "Add: from fastmcp import FastMCP")) ;;
            ret true
          else ret has_fastmcp_import
      | None => ret has_fastmcp_import
      end
  | _ => ret has_fastmcp_import
  end.

Definition check_imports (t : ast.Mod) : M unit :=
  has_fastmcp_import <-
    for_each (ast.walk (ast.of_mod t)) check_imports_visit false ;;
  when (negb has_fastmcp_import)
    (add_error None "Missing FastMCP import"
       (Some "Add: from fastmcp import FastMCP")).

Definition check_server_init_visit (has_server_init : bool) (node : ast.AST)
  : M bool :=
  match node with
  | ast.of_stmt (ast.Assign _ (ast.Call (ast.Name id _) a _) lineno) =>
      if id =? "FastMCP" then
        when (match a with [] => true | _ => false end)
          (add_error (Some lineno)
             "FastMCP initialized without server name"
             (Some ("Use: mcp = FastMCP(" ++ dquote ++ "server-name" ++ dquote ++ ")"))) ;;
        ret true
      else ret has_server_init
  | _ => ret has_server_init
  end.

Definition check_server_init (t : ast.Mod) : M unit :=
  has_server_init <-
    for_each (ast.walk (ast.of_mod t)) check_server_init_visit false ;;
  when (negb has_server_init)
    (add_error None "No FastMCP server initialization found"
       (Some ("Add: mcp = FastMCP(" ++ dquote ++ "server-name" ++ dquote ++ ")"))).

Definition check_tool_function (name : string) (body : list ast.stmt)
    (lineno : Z) : M unit :=
  let docstring := ast.get_docstring inspect_cleandoc body in
  when (match docstring with None => true | Some text => text =? "" end)
    (add_warning (Some lineno)
       ("Tool '" ++ name ++ "' missing docstring")
       (Some "Add comprehensive docstring with Args and Returns sections")).

Definition check_resource_function (name : string)
    (decorator_list : list ast.expr) (lineno : Z) : M unit :=
  for_each decorator_list
    (fun _ decorator =>
       match decorator with
       | ast.Call (ast.Attribute _ attr _) a _ =>
           when ((attr =? "resource") && match a with [] => true | _ => false end)
             (add_error (Some lineno)
                ("Resource '" ++ name ++ "' missing URI")
                (Some ("Use: @mcp.resource(" ++ dquote ++ "resource://path"
                         ++ dquote ++ ")")))
       | _ => ret tt
       end)
    tt.

Definition check_prompt_function (name : string) (returns : option ast.expr)
    (lineno : Z) : M unit :=
  match returns with
  | Some r =>
      return_type <- lift (ast_unparse r) ;;
      when (negb (mem return_type ["str"; "list[PromptMessage]"]))
        (add_warning (Some lineno)
           ("Prompt '" ++ name ++ "' has unusual return type: " ++ return_type)
           (Some "Prompts typically return str or list[PromptMessage]"))
  | None => ret tt
  end.

(** The body of the loop of [check_decorators]; the loop variables are
    [(tool_count, resource_count, prompt_count)]. *)
Definition check_decorators_visit (counts : nat * nat * nat) (node : ast.AST)
  : M (nat * nat * nat) :=
  let '(tool_count, resource_count, prompt_count) := counts in
  match node with
  | ast.of_stmt (ast.FunctionDef name _ body decorator_list returns lineno) =>
      decorators <- comprehension get_decorator_name decorator_list ;;
      tool_count <-
        (if mem "mcp.tool" decorators
         then check_tool_function name body lineno ;; ret (tool_count + 1)
         else ret tool_count) ;;
      resource_count <-
        (if mem "mcp.resource" decorators
         then check_resource_function name decorator_list lineno ;;
              ret (resource_count + 1)
         else ret resource_count) ;;
      prompt_count <-
        (if mem "mcp.prompt" decorators
         then check_prompt_function name returns lineno ;;
              ret (prompt_count + 1)
         else ret prompt_count) ;;
      ret (tool_count, resource_count, prompt_count)
  | _ => ret (tool_count, resource_count, prompt_count)
  end.

(** The loop of [check_decorators]. *)
Definition count_decorated (t : ast.Mod) : M (nat * nat * nat) :=
  for_each (ast.walk (ast.of_mod t)) check_decorators_visit (0, 0, 0).

Definition check_decorators (t : ast.Mod) : M unit :=
  '(tool_count, resource_count, prompt_count) <- count_decorated t ;;
  if (tool_count =? 0)%nat && (resource_count =? 0)%nat && (prompt_count =? 0)%nat
  then add_warning None "No tools, resources, or prompts defined"
         (Some "Add @mcp.tool(), @mcp.resource(), or @mcp.prompt() decorators")
  else add_info None
         ("Found: " ++ str_of_nat tool_count ++ " tools, "
            ++ str_of_nat resource_count ++ " resources, "
            ++ str_of_nat prompt_count ++ " prompts")
         None.

Definition check_type_hints_visit (_ : unit) (node : ast.AST) : M unit :=
  match node with
  | ast.of_stmt (ast.FunctionDef name a _ decorator_list returns lineno) =>
      match decorator_list with
      | [] => ret tt
      | _ =>
          decorators <- comprehension get_decorator_name decorator_list ;;
          if negb (existsb (startswith "mcp.") decorators) then ret tt
          else
            for_each (ast.args a)
              (fun _ p =>
                 if ast.arg_name p =? "self" then ret tt
                 else
                   match ast.annotation p with
                   | None =>
                       add_warning (Some lineno)
                         ("Parameter '" ++ ast.arg_name p ++ "' in '" ++ name
                            ++ "' missing type hint")
                         (Some ("Add type hint: " ++ ast.arg_name p ++ ": str"))
                   | Some _ => ret tt
                   end)
              tt ;;
            match returns with
            | None =>
                add_warning (Some lineno)
                  ("Function '" ++ name ++ "' missing return type hint")
                  (Some "Add return type hint: -> str")
            | Some _ => ret tt
            end
      end
  | _ => ret tt
  end.

Definition check_type_hints (t : ast.Mod) : M unit :=
  for_each (ast.walk (ast.of_mod t)) check_type_hints_visit tt.

Definition check_async_patterns_visit (_ : unit) (node : ast.AST) : M unit :=
  match node with
  | ast.of_stmt (ast.FunctionDef name _ _ decorator_list _ lineno as fn) =>
      decorators <- comprehension get_decorator_name decorator_list ;;
      if negb (existsb (startswith "mcp.") decorators) then ret tt
      else
        let has_await := has_await node in
        let is_async := isinstance_AsyncFunctionDef fn in
        when (has_await && negb is_async)
          (add_error (Some lineno)
             ("Function '" ++ name ++ "' uses await but is not async")
             (Some ("Change to: async def " ++ name ++ "(...)")))
  | _ => ret tt
  end.

Definition check_async_patterns (t : ast.Mod) : M unit :=
  for_each (ast.walk (ast.of_mod t)) check_async_patterns_visit tt.

(** The loop over [node.args.args] in [check_context_usage]; the loop
    variables are [(has_context_param, context_has_type_hint)]. *)
Definition context_param_visit (flags : bool * bool) (p : ast.arg)
  : M (bool * bool) :=
  let '(has_context_param, context_has_type_hint) := flags in
  if mem (ast.arg_name p) ["ctx"; "context"] then
    match ast.annotation p with
    | Some ann =>
        type_hint <- lift (ast_unparse ann) ;;
        if contains "Context" type_hint then ret (true, true)
        else ret (true, context_has_type_hint)
    | None => ret (true, context_has_type_hint)
    end
  else ret (has_context_param, context_has_type_hint).

Definition check_context_usage_visit (_ : unit) (node : ast.AST) : M unit :=
  match node with
  | ast.of_stmt (ast.FunctionDef name a _ decorator_list _ lineno as fn) =>
      decorators <- comprehension get_decorator_name decorator_list ;;
      if negb (existsb (startswith "mcp.") decorators) then ret tt
      else
        '(has_context_param, context_has_type_hint) <-
          for_each (ast.args a) context_param_visit (false, false) ;;
        when (has_context_param && negb context_has_type_hint)
          (add_error (Some lineno)
             ("Context parameter in '" ++ name ++ "' missing type hint")
             (Some "Add type hint: ctx: Context")) ;;
        when (has_context_param && negb (isinstance_AsyncFunctionDef fn))
          (add_warning (Some lineno)
             ("Function '" ++ name ++ "' has Context parameter but is not async")
             (Some "Context methods are async - make function async"))
  | _ => ret tt
  end.

Definition check_context_usage (t : ast.Mod) : M unit :=
  for_each (ast.walk (ast.of_mod t)) check_context_usage_visit tt.

(** The test of the loop of [check_best_practices]: an [If] whose test is a
    comparison with the name [__name__] on the left. *)
Definition is_main_block (node : ast.AST) : bool :=
  match node with
  | ast.of_stmt (ast.If (ast.Compare (ast.Name id _) _ _) _ _) => id =? "__name__"
  | _ => false
  end.

Definition check_best_practices_visit (has_main_block : bool) (node : ast.AST)
  : M bool :=
  if is_main_block node then ret true else ret has_main_block.

Definition check_best_practices (t : ast.Mod) : M unit :=
  has_main_block <-
    for_each (ast.walk (ast.of_mod t)) check_best_practices_visit false ;;
  when (negb has_main_block)
    (add_info None "Missing if __name__ == '__main__' block"
       (Some "Add: if __name__ == '__main__': mcp.run()")).

(** The seven calls under "Run all checks", in order. *)
Definition all_checks : list (ast.Mod -> M unit) :=
  [check_imports; check_server_init; check_decorators; check_type_hints;
   check_async_patterns; check_context_usage; check_best_practices].

(** The calls one after the other; the first that raises ends the run. *)
Definition run_checks (t : ast.Mod) : M unit :=
  for_each all_checks (fun _ check => check t) tt.

Definition is_error (issue : ValidationIssue) : bool := severity issue =? "error".

(** [validate]. *)
Definition validate : M bool :=
  self <- get_self ;;
  match path_exists (filepath self) with
  | inl e => raise e
  | inr found =>
      if negb found then
        add_error None ("File not found: " ++ filepath self) None ;;
        ret false
      else
        match read_file (filepath self) with
        | inl e =>
            add_error None ("Failed to read file: " ++ exc_str e) None ;;
            ret false
        | inr content =>
            match ast_parse content (filepath self) with
            | ParseSyntaxError e =>
                add_error (se_lineno e) ("Python syntax error: " ++ se_msg e) None ;;
                ret false
            | ParseRaised e => raise e
            | Parsed t =>
                (fun self => Returned tt (set_tree t self)) ;;
                check_imports t ;;
                check_server_init t ;;
                check_decorators t ;;
                check_type_hints t ;;
                check_async_patterns t ;;
                check_context_usage t ;;
                check_best_practices t ;;
                self <- get_self ;;
                let has_errors := existsb is_error (issues self) in
                ret (negb has_errors)
            end
        end
  end.

(** [main], after argument parsing: the value is the status handed to
    [sys.exit]. *)
Definition main (file : string) (strict_flag : bool) : outcome Z :=
  (success <- validate ;; ret (if success then 0%Z else 1%Z))
    (init file strict_flag).

End Methods.

(** ** Reference environments

    [render] follows [ast.unparse] on dotted names, subscripts and calls of
    such, which is what decorators and annotations are made of. *)

Fixpoint render (e : ast.expr) : string :=
  match e with
  | ast.Name id _ => id
  | ast.Attribute value attr _ => render value ++ "." ++ attr
  | ast.Subscript value slice _ => render value ++ "[" ++ render slice ++ "]"
  | ast.Call func a _ =>
      render func ++ "(" ++ String.concat ", " (map render a) ++ ")"
  | ast.Constant (ast.Str text) => "'" ++ text ++ "'"
  | ast.Await value => "await " ++ render value
  | _ => ""
  end.

(** Nesting depth of an expression along the fields [ast.unparse] descends. *)
Fixpoint depth (e : ast.expr) : nat :=
  match e with
  | ast.Attribute value _ _ => S (depth value)
  | ast.Subscript value slice _ => S (Nat.max (depth value) (depth slice))
  | ast.Call func a _ => S (fold_right (fun x d => Nat.max (depth x) d) (depth func) a)
  | ast.Await value => S (depth value)
  | _ => 1
  end.

Definition RecursionError : Exception :=
  mk_exception "RecursionError" "maximum recursion depth exceeded".

(** One readable file whose text parses to [t]; [ast.unparse] is the
    recursive visitor: it raises [RecursionError] on an expression nested
    deeper than [limit] and renders every other one. *)
Definition file_env (limit : nat) (outcome_of_parse : parse_result) : Env :=
  {| path_exists := fun _ => inr true;
     read_file := fun _ => inr "";
     ast_parse := fun _ _ => outcome_of_parse;
     ast_unparse := fun e =>
       if (limit <? depth e)%nat then inl RecursionError else inr (render e);
     inspect_cleandoc := fun text => text |}.

(** The same with no bound on the nesting: [ast.unparse] never raises. *)
Definition total_env (outcome_of_parse : parse_result) : Env :=
  {| path_exists := fun _ => inr true;
     read_file := fun _ => inr "";
     ast_parse := fun _ _ => outcome_of_parse;
     ast_unparse := fun e => inr (render e);
     inspect_cleandoc := fun text => text |}.

(** ** Reading the tree *)

(** [descendant n t]: [n] is [t] or lies below it. *)
Inductive descendant : ast.AST -> ast.AST -> Prop :=
| descendant_self : forall t, descendant t t
| descendant_child : forall n c t,
    List.In c (ast.iter_child_nodes t) -> descendant n c -> descendant n t.

(** A synchronous function definition somewhere in the module. *)
Definition defines (t : ast.Mod) (fn : ast.stmt) : Prop :=
  descendant (ast.of_stmt fn) (ast.of_mod t).

(** The name [get_decorator_name] resolves a decorator to, when
    [ast.unparse] renders as [u]. *)
Fixpoint decorator_name (u : ast.expr -> string) (decorator : ast.expr) : string :=
  match decorator with
  | ast.Name id _ => id
  | ast.Attribute value attr _ => u value ++ "." ++ attr
  | ast.Call func _ _ => decorator_name u func
  | _ => ""
  end.

(** The test the per-handler loops apply: some resolved decorator name
    starts with "mcp.". *)
Definition handler_decorated (u : ast.expr -> string) (decorator_list : list ast.expr)
  : bool :=
  existsb (startswith "mcp.") (map (decorator_name u) decorator_list).

Definition is_FunctionDef (node : ast.AST) : bool :=
  match node with
  | ast.of_stmt (ast.FunctionDef _ _ _ _ _ _) => true
  | _ => false
  end.

Definition is_AsyncFunctionDef (node : ast.AST) : bool :=
  match node with
  | ast.of_stmt s => isinstance_AsyncFunctionDef s
  | _ => false
  end.

Definition errors (l : list ValidationIssue) : list ValidationIssue :=
  filter is_error l.

Definition is_info (issue : ValidationIssue) : bool := severity issue =? "info".

(** ** Vocabulary of the statements *)

(** A synchronous function definition one of whose resolved decorator names
    is exactly [qualified]. *)
Definition has_decorator (u : ast.expr -> string) (qualified : string)
    (node : ast.AST) : bool :=
  match node with
  | ast.of_stmt (ast.FunctionDef _ _ _ decorator_list _ _) =>
      mem qualified (map (decorator_name u) decorator_list)
  | _ => false
  end.

Definition count (p : ast.AST -> bool) (l : list ast.AST) : nat :=
  List.length (filter p l).

(** The three counts of a node sequence, by exact decorator name. *)
Definition inventory (u : ast.expr -> string) (l : list ast.AST) : nat * nat * nat :=
  (count (has_decorator u "mcp.tool") l,
   count (has_decorator u "mcp.resource") l,
   count (has_decorator u "mcp.prompt") l).

(** The findings the statements name. *)
Definition await_finding (name : string) (lineno : Z) : ValidationIssue :=
  mk_issue "error" (Some lineno)
    ("Function '" ++ name ++ "' uses await but is not async")
    (Some ("Change to: async def " ++ name ++ "(...)")).

Definition no_handlers_finding : ValidationIssue :=
  mk_issue "warning" None "No tools, resources, or prompts defined"
    (Some "Add @mcp.tool(), @mcp.resource(), or @mcp.prompt() decorators").

Definition main_block_finding : ValidationIssue :=
  mk_issue "info" None "Missing if __name__ == '__main__' block"
    (Some "Add: if __name__ == '__main__': mcp.run()").

Definition context_hint_finding (name : string) (lineno : Z) : ValidationIssue :=
  mk_issue "error" (Some lineno)
    ("Context parameter in '" ++ name ++ "' missing type hint")
    (Some "Add type hint: ctx: Context").

Definition context_async_finding (name : string) (lineno : Z) : ValidationIssue :=
  mk_issue "warning" (Some lineno)
    ("Function '" ++ name ++ "' has Context parameter but is not async")
    (Some "Context methods are async - make function async").

(** What [check_imports] and [check_server_init] look for. *)
Definition is_fastmcp_import (node : ast.AST) : bool :=
  match node with
  | ast.of_stmt (ast.ImportFrom (Some m) _ _ _) => m =? "fastmcp"
  | _ => false
  end.

Definition is_server_init (node : ast.AST) : bool :=
  match node with
  | ast.of_stmt (ast.Assign _ (ast.Call (ast.Name id _) _ _) _) => id =? "FastMCP"
  | _ => false
  end.

Definition is_unnamed_server_init (node : ast.AST) : bool :=
  match node with
  | ast.of_stmt (ast.Assign _ (ast.Call (ast.Name id _) [] _) _) => id =? "FastMCP"
  | _ => false
  end.

(** A decorator written [x.resource()] with no positional argument. *)
Definition is_bare_resource_call (decorator : ast.expr) : bool :=
  match decorator with
  | ast.Call (ast.Attribute _ attr _) [] _ => attr =? "resource"
  | _ => false
  end.

Definition is_context_param (p : ast.arg) : bool :=
  mem (ast.arg_name p) ["ctx"; "context"].

(** The parameter is annotated and the rendered annotation mentions
    [Context]. *)
Definition has_context_hint (u : ast.expr -> string) (p : ast.arg) : bool :=
  match ast.annotation p with
  | Some ann => contains "Context" (u ann)
  | None => false
  end.

(** A file in which nothing but [fn] can draw an error: it imports from
    [fastmcp], constructs a named server and no unnamed one, defines no
    synchronous function but [fn], and [fn] has a URI on every resource
    decorator and the context type on every context parameter. *)
Definition otherwise_sound (u : ast.expr -> string) (t : ast.Mod) (fn : ast.stmt)
  : Prop :=
  let nodes := ast.walk (ast.of_mod t) in
  existsb is_fastmcp_import nodes = true /\
  existsb is_server_init nodes = true /\
  existsb is_unnamed_server_init nodes = false /\
  filter is_FunctionDef nodes = [ast.of_stmt fn] /\
  match fn with
  | ast.FunctionDef _ a _ decorator_list _ _ =>
      existsb is_bare_resource_call decorator_list = false /\
      forallb (fun p => implb (is_context_param p) (has_context_hint u p))
        (ast.args a) = true
  | _ => False
  end.

(** The entry-point guard as the specification words it: a top-level
    conditional whose test is [__name__ == "__main__"]. *)
Definition is_entry_point_guard (s : ast.stmt) : bool :=
  match s with
  | ast.If (ast.Compare (ast.Name id _) [ast.Eq] [ast.Constant (ast.Str sentinel)]) _ _ =>
      (id =? "__name__") && (sentinel =? "__main__")
  | _ => false
  end.

Definition has_entry_point_guard (t : ast.Mod) : bool :=
  match t with
  | ast.Module body => existsb is_entry_point_guard body
  end.

(** ** Specifications of runs *)

(** [emits s m a w]: from every validator whose strict flag is [s], the
    method [m] returns [a] and appends the findings [w], touching nothing
    else. *)
Definition emits (s : bool) {A} (m : M A) (a : A) (w : list ValidationIssue) : Prop :=
  forall self, strict self = s ->
    m self = Returned a (set_issues (issues self ++ w)%list self).

Definition wp (s : bool) {A} (m : M A) (Q : A -> list ValidationIssue -> Prop)
  : Prop :=
  exists a w, emits s m a w /\ Q a w.

(** Two validators that differ in the strict flag only, the strict one
    holding the info findings the other one never stored. *)
Definition strict_pair (plain strict_one : FastMCPValidator) : Prop :=
  filepath plain = filepath strict_one /\
  tree plain = tree strict_one /\
  strict plain = false /\
  strict strict_one = true /\
  issues plain = filter (fun i => negb (is_info i)) (issues strict_one).

Definition agree {A} (plain strict_one : outcome A) : Prop :=
  match plain, strict_one with
  | Returned a v, Returned b v' => a = b /\ strict_pair v v'
  | Raised e v, Raised e' v' => e = e' /\ strict_pair v v'
  | _, _ => False
  end.

(** A method that behaves alike on such a pair. *)
Definition strict_invariant {A} (m : M A) : Prop :=
  forall plain strict_one,
    strict_pair plain strict_one -> agree (m plain) (m strict_one).

(** ** Sample server files *)

Definition no_arguments : ast.arguments := ast.mk_arguments [] [] None [] [] None [].

Definition one_argument (p : ast.arg) : ast.arguments :=
  ast.mk_arguments [] [p] None [] [] None [].

Definition dotted (object attr : string) : ast.expr :=
  ast.Attribute (ast.Name object ast.Load) attr ast.Load.

Definition str_type : ast.expr := ast.Name "str" ast.Load.

Definition docstring (text : string) : ast.stmt := ast.Expr (ast.Constant (ast.Str text)).

(** [from fastmcp import FastMCP] *)
Definition import_fastmcp : ast.stmt :=
  ast.ImportFrom (Some "fastmcp") [ast.mk_alias "FastMCP" None] 0 1.

(** [target = FastMCP("demo")] *)
Definition server_assign (target : string) : ast.stmt :=
  ast.Assign [ast.Name target ast.Store]
    (ast.Call (ast.Name "FastMCP" ast.Load) [ast.Constant (ast.Str "demo")] []) 3.

(** [if __name__ == sentinel: mcp.run()] *)
Definition name_guard (sentinel : string) : ast.stmt :=
  ast.If
    (ast.Compare (ast.Name "__name__" ast.Load) [ast.Eq]
       [ast.Constant (ast.Str sentinel)])
    [ast.Expr (ast.Call (dotted "mcp" "run") [] [])] [].

(** Scenario B:

      from fastmcp import FastMCP
      mcp = FastMCP("demo")
      @mcp.tool()
      async def greet(name: str) -> str:
          '''Greet someone.'''
          return name
      if __name__ == "__main__":
          mcp.run()                                                      *)
Definition greet : ast.stmt :=
  ast.AsyncFunctionDef "greet"
    (one_argument (ast.mk_arg "name" (Some str_type)))
    [docstring "Greet someone."; ast.Return (Some (ast.Name "name" ast.Load))]
    [ast.Call (dotted "mcp" "tool") [] []] (Some str_type) 6.

Definition scenario_B : ast.Mod :=
  ast.Module [import_fastmcp; server_assign "mcp"; greet; name_guard "__main__"].

(** The same file with [def greet] in place of [async def greet]. *)
Definition greet_sync : ast.stmt :=
  ast.FunctionDef "greet"
    (one_argument (ast.mk_arg "name" (Some str_type)))
    [docstring "Greet someone."; ast.Return (Some (ast.Name "name" ast.Load))]
    [ast.Call (dotted "mcp" "tool") [] []] (Some str_type) 6.

Definition scenario_B_sync : ast.Mod :=
  ast.Module [import_fastmcp; server_assign "mcp"; greet_sync; name_guard "__main__"].

(** Scenario C: the same file with the handler

      @mcp.tool()
      def fetch(url: str) -> str:
          '''Fetch a page.'''
          return await client.get(url)                                    *)
Definition fetch : ast.stmt :=
  ast.FunctionDef "fetch"
    (one_argument (ast.mk_arg "url" (Some str_type)))
    [docstring "Fetch a page.";
     ast.Return (Some (ast.Await
       (ast.Call (dotted "client" "get") [ast.Name "url" ast.Load] [])))]
    [ast.Call (dotted "mcp" "tool") [] []] (Some str_type) 6.

Definition scenario_C : ast.Mod :=
  ast.Module [import_fastmcp; server_assign "mcp"; fetch; name_guard "__main__"].

(** A server object called [server]:

      @server.tool()
      def ping() -> str:
          '''Ping.'''
          return "pong"                                                   *)
Definition ping : ast.stmt :=
  ast.FunctionDef "ping" no_arguments
    [docstring "Ping."; ast.Return (Some (ast.Constant (ast.Str "pong")))]
    [ast.Call (dotted "server" "tool") [] []] (Some str_type) 6.

Definition server_tool_file : ast.Mod :=
  ast.Module [import_fastmcp; server_assign "server"; ping; name_guard "__main__"].

(** An asynchronous handler with an unannotated context parameter:

      @mcp.tool()
      async def report(ctx) -> str:
          '''Report.'''
          await ctx.info("working")
          return "done"                                                   *)
Definition report : ast.stmt :=
  ast.AsyncFunctionDef "report"
    (one_argument (ast.mk_arg "ctx" None))
    [docstring "Report.";
     ast.Expr (ast.Await
       (ast.Call (dotted "ctx" "info") [ast.Constant (ast.Str "working")] []));
     ast.Return (Some (ast.Constant (ast.Str "done")))]
    [ast.Call (dotted "mcp" "tool") [] []] (Some str_type) 6.

Definition async_context_file : ast.Mod :=
  ast.Module [import_fastmcp; server_assign "mcp"; report; name_guard "__main__"].

(** The handler of [async_context_file] written with [def]:

      @mcp.tool()
      def report(ctx) -> str:
          '''Report.'''
          return "done"                                                   *)
Definition report_sync : ast.stmt :=
  ast.FunctionDef "report"
    (one_argument (ast.mk_arg "ctx" None))
    [docstring "Report."; ast.Return (Some (ast.Constant (ast.Str "done")))]
    [ast.Call (dotted "mcp" "tool") [] []] (Some str_type) 6.

Definition sync_context_file : ast.Mod :=
  ast.Module [import_fastmcp; server_assign "mcp"; report_sync; name_guard "__main__"].

(** The guard buried in a function, and a top-level test of [__name__]
    against another string:

      def start():                     if __name__ == "worker":
          if __name__ == "__main__":       mcp.run()
              mcp.run()                                                   *)
Definition start : ast.stmt :=
  ast.FunctionDef "start" no_arguments [name_guard "__main__"] [] None 5.

Definition nested_guard_file : ast.Mod :=
  ast.Module [import_fastmcp; server_assign "mcp"; start].

Definition other_sentinel_file : ast.Mod :=
  ast.Module [import_fastmcp; server_assign "mcp"; name_guard "worker"].

(** A decorator reached through a long attribute chain,
    [@mcp.a.a. ... .a.tool], on an otherwise plain handler. *)
Fixpoint attribute_chain (n : nat) : ast.expr :=
  match n with
  | O => ast.Name "mcp" ast.Load
  | S k => ast.Attribute (attribute_chain k) "a" ast.Load
  end.

Definition deep (n : nat) : ast.stmt :=
  ast.FunctionDef "deep" no_arguments [docstring "Deep."]
    [ast.Attribute (attribute_chain n) "tool" ast.Load] (Some str_type) 6.

Definition deep_decorator_file (n : nat) : ast.Mod :=
  ast.Module [import_fastmcp; server_assign "mcp"; deep n].

(** The interpreter's default recursion limit is 1000 frames and the
    visitor of [ast.unparse] takes at least one frame per nesting level:
    that file with a chain as long. *)
Definition deep_file : ast.Mod := deep_decorator_file 1000.

Definition limited_env : Env := file_env 1000 (Parsed deep_file).

(** An unreadable source text and what the parser says of it. *)
Definition unbalanced : SyntaxError := mk_syntax_error (Some 1%Z) "invalid syntax".

(** ** The reporter

    [print_results] and [print_issue] write to standard output only; each is
    modelled by the texts of its [print] calls, in order ([print()] writes
    the empty text).  Strings are byte strings: the pictograms are their
    UTF-8 bytes. *)

Definition newline : string := String (ascii_of_nat 10) EmptyString.

(** [str(n)] for an integer. *)
Definition str_of_Z (z : Z) : string := NilZero.string_of_int (Z.to_int z).

(** [f"Line {issue.line}" if issue.line else "General"]: [None] and [0]
    are both false. *)
Definition location (issue : ValidationIssue) : string :=
  match line issue with
  | Some l => if (l =? 0)%Z then "General" else "Line " ++ str_of_Z l
  | None => "General"
  end.

(** [print_issue]. *)
Definition print_issue (issue : ValidationIssue) : list string :=
  ("  [" ++ location issue ++ "] " ++ message issue)
  :: match suggestion issue with
     | Some text => if text =? "" then [] else ["    💡 " ++ text]
     | None => []
     end.

(** One section of the report: nothing for an empty group. *)
Definition print_group (label : string) (group : list ValidationIssue)
  : list string :=
  match group with
  | [] => []
  | _ =>
      (label ++ " (" ++ str_of_nat (List.length group) ++ "):")
        :: (flat_map print_issue group ++ [""])%list
  end.

Definition summary_line (n_errors n_warnings n_infos : nat) : string :=
  "Summary: " ++ str_of_nat n_errors ++ " errors, " ++ str_of_nat n_warnings
    ++ " warnings, " ++ str_of_nat n_infos ++ " info".

(** [print_results]. *)
Definition print_results (self : FastMCPValidator) : list string :=
  match issues self with
  | [] => ["✅ No issues found!" ++ newline]
  | _ =>
      let errors := filter (fun i => severity i =? "error") (issues self) in
      let warnings := filter (fun i => severity i =? "warning") (issues self) in
      let infos := filter (fun i => severity i =? "info") (issues self) in
      (print_group "❌ Errors" errors
         ++ print_group "⚠️  Warnings" warnings
         ++ print_group "ℹ️  Info" infos
         ++ [summary_line (List.length errors) (List.length warnings)
               (List.length infos)])%list
  end.

(** ** The other findings of the checks *)

Definition missing_file_finding (path : string) : ValidationIssue :=
  mk_issue "error" None ("File not found: " ++ path) None.

Definition unreadable_finding (e : Exception) : ValidationIssue :=
  mk_issue "error" None ("Failed to read file: " ++ exc_str e) None.

Definition missing_import_finding : ValidationIssue :=
  mk_issue "error" None "Missing FastMCP import"
    (Some "Add: from fastmcp import FastMCP").

Definition class_not_imported_finding (lineno : Z) : ValidationIssue :=
  mk_issue "warning" (Some lineno) "FastMCP class not imported from fastmcp"
    (Some "Add: from fastmcp import FastMCP").

Definition missing_init_finding : ValidationIssue :=
  mk_issue "error" None "No FastMCP server initialization found"
    (Some ("Add: mcp = FastMCP(" ++ dquote ++ "server-name" ++ dquote ++ ")")).

Definition unnamed_init_finding (lineno : Z) : ValidationIssue :=
  mk_issue "error" (Some lineno) "FastMCP initialized without server name"
    (Some ("Use: mcp = FastMCP(" ++ dquote ++ "server-name" ++ dquote ++ ")")).

Definition missing_uri_finding (name : string) (lineno : Z) : ValidationIssue :=
  mk_issue "error" (Some lineno) ("Resource '" ++ name ++ "' missing URI")
    (Some ("Use: @mcp.resource(" ++ dquote ++ "resource://path" ++ dquote ++ ")")).

Definition param_hint_finding (name : string) (lineno : Z) (p : ast.arg)
  : ValidationIssue :=
  mk_issue "warning" (Some lineno)
    ("Parameter '" ++ ast.arg_name p ++ "' in '" ++ name ++ "' missing type hint")
    (Some ("Add type hint: " ++ ast.arg_name p ++ ": str")).

Definition return_hint_finding (name : string) (lineno : Z) : ValidationIssue :=
  mk_issue "warning" (Some lineno)
    ("Function '" ++ name ++ "' missing return type hint")
    (Some "Add return type hint: -> str").

Definition found_finding (counts : nat * nat * nat) : ValidationIssue :=
  let '(tool_count, resource_count, prompt_count) := counts in
  mk_issue "info" None
    ("Found: " ++ str_of_nat tool_count ++ " tools, "
       ++ str_of_nat resource_count ++ " resources, "
       ++ str_of_nat prompt_count ++ " prompts")
    None.

(** ** What each loop stores for one node *)

(** [check_imports]: the warning for a [from fastmcp import ...] that does
    not name [FastMCP]. *)
Definition import_findings (node : ast.AST) : list ValidationIssue :=
  match node with
  | ast.of_stmt (ast.ImportFrom (Some m) names _ lineno) =>
      if (m =? "fastmcp") && negb (mem "FastMCP" (map ast.name names))
      then [class_not_imported_finding lineno]
      else []
  | _ => []
  end.

(** [check_server_init]: the error for [x = FastMCP()] without a positional
    argument. *)
Definition init_findings (node : ast.AST) : list ValidationIssue :=
  match node with
  | ast.of_stmt (ast.Assign _ (ast.Call (ast.Name id _) [] _) lineno) =>
      if id =? "FastMCP" then [unnamed_init_finding lineno] else []
  | _ => []
  end.

(** A parameter [check_type_hints] warns about. *)
Definition lacks_hint (p : ast.arg) : bool :=
  negb (ast.arg_name p =? "self")
  && match ast.annotation p with None => true | Some _ => false end.

Definition type_hint_findings (u : ast.expr -> string) (node : ast.AST)
  : list ValidationIssue :=
  match node with
  | ast.of_stmt (ast.FunctionDef name a _ decorator_list returns lineno) =>
      if handler_decorated u decorator_list then
        (map (param_hint_finding name lineno) (filter lacks_hint (ast.args a))
           ++ match returns with
              | None => [return_hint_finding name lineno]
              | Some _ => []
              end)%list
      else []
  | _ => []
  end.

Definition await_findings (u : ast.expr -> string) (node : ast.AST)
  : list ValidationIssue :=
  match node with
  | ast.of_stmt (ast.FunctionDef name _ _ decorator_list _ lineno) =>
      if handler_decorated u decorator_list && has_await node
      then [await_finding name lineno]
      else []
  | _ => []
  end.

Definition context_findings (u : ast.expr -> string) (node : ast.AST)
  : list ValidationIssue :=
  match node with
  | ast.of_stmt (ast.FunctionDef name a _ decorator_list _ lineno) =>
      if handler_decorated u decorator_list && existsb is_context_param (ast.args a)
      then
        ((if existsb (fun p => is_context_param p && has_context_hint u p) (ast.args a)
          then []
          else [context_hint_finding name lineno])
           ++ [context_async_finding name lineno])%list
      else []
  | _ => []
  end.

(** ** Invariants of a run *)

Definition valid_severity (issue : ValidationIssue) : bool :=
  mem (severity issue) ["error"; "warning"; "info"].

(** What a method may do to the validator: keep the path and the flag, and
    append findings of a known severity, info ones under the strict flag
    only. *)
Definition extends (self self' : FastMCPValidator) : Prop :=
  filepath self' = filepath self /\
  strict self' = strict self /\
  exists w, issues self' = (issues self ++ w)%list /\
            Forall (fun i => valid_severity i = true /\
                             (is_info i = true -> strict self = true)) w.

(** A finding tied to a line of the file. *)
Definition located (i : ValidationIssue) : Prop := line i <> None.

Definition state_of {A} (o : outcome A) : FastMCPValidator :=
  match o with
  | Returned _ self => self
  | Raised _ self => self
  end.

Definition append_only {A} (m : M A) : Prop :=
  forall self, extends self (state_of (m self)).

(** The findings a check stores when run alone on a fresh validator. *)
Definition alone (check : ast.Mod -> M unit) (t : ast.Mod) (strict_flag : bool)
  : list ValidationIssue :=
  issues (state_of (check t (init "" strict_flag))).

(** ** More sample files and environments *)

Definition absent_env : Env :=
  {| path_exists := fun _ => inr false;
     read_file := fun _ => inr "";
     ast_parse := fun _ _ => Parsed (ast.Module []);
     ast_unparse := fun e => inr (render e);
     inspect_cleandoc := fun text => text |}.

Definition PermissionError : Exception :=
  mk_exception "PermissionError" "[Errno 13] Permission denied: 'server.py'".

Definition unreadable_env : Env :=
  {| path_exists := fun _ => inr true;
     read_file := fun _ => inl PermissionError;
     ast_parse := fun _ _ => Parsed (ast.Module []);
     ast_unparse := fun e => inr (render e);
     inspect_cleandoc := fun text => text |}.

(** [import fastmcp] and [mcp = fastmcp.FastMCP("demo")]: neither is what
    the first two checks look for. *)
Definition qualified_file : ast.Mod :=
  ast.Module
    [ast.Import [ast.mk_alias "fastmcp" None];
     ast.Assign [ast.Name "mcp" ast.Store]
       (ast.Call (dotted "fastmcp" "FastMCP") [ast.Constant (ast.Str "demo")] []) 3].

(** [from fastmcp import Context] and [mcp = FastMCP()]. *)
Definition unnamed_file : ast.Mod :=
  ast.Module
    [ast.ImportFrom (Some "fastmcp") [ast.mk_alias "Context" None] 0 1;
     ast.Assign [ast.Name "mcp" ast.Store]
       (ast.Call (ast.Name "FastMCP" ast.Load) [] []) 3].

(** A handler that draws from most checks:

      @mcp.resource()
      def lookup(self, key, ctx: Context, context, *, limit):
          return await helper(key)                                        *)
Definition lookup : ast.stmt :=
  ast.FunctionDef "lookup"
    (ast.mk_arguments []
       [ast.mk_arg "self" None; ast.mk_arg "key" None;
        ast.mk_arg "ctx" (Some (ast.Name "Context" ast.Load));
        ast.mk_arg "context" None]
       None [ast.mk_arg "limit" None] [None] None [])
    [ast.Return (Some (ast.Await
       (ast.Call (ast.Name "helper" ast.Load) [ast.Name "key" ast.Load] [])))]
    [ast.Call (dotted "mcp" "resource") [] []] None 6.

Definition lookup_file : ast.Mod :=
  ast.Module [import_fastmcp; server_assign "mcp"; lookup].

(** A synchronous handler around an asynchronous helper:

      @mcp.tool()
      def outer() -> str:
          async def inner():
              await job()
          return "ok"                                                     *)
Definition inner : ast.stmt :=
  ast.AsyncFunctionDef "inner" no_arguments
    [ast.Expr (ast.Await (ast.Call (ast.Name "job" ast.Load) [] []))] [] None 8.

Definition outer : ast.stmt :=
  ast.FunctionDef "outer" no_arguments
    [inner; ast.Return (Some (ast.Constant (ast.Str "ok")))]
    [ast.Call (dotted "mcp" "tool") [] []] (Some str_type) 7.

(** ** The process and the renderer *)

(** The status the process ends with: the argument of [sys.exit], or 1 when
    the exception reaches the top level ([main] catches nothing; the
    interpreter prints the traceback and exits with 1). *)
Definition exit_status (o : outcome Z) : Z :=
  match o with
  | Returned status _ => status
  | Raised _ _ => 1%Z
  end.

(** [ast.unparse] renders, as [u], every expression of the tree [t]. *)
Definition renders `{env : Env} (u : ast.expr -> string) (t : ast.Mod) : Prop :=
  forall e, descendant (ast.of_expr e) (ast.of_mod t) -> ast_unparse e = inr (u e).

(** What [ast.unparse] gives where it returns. *)
Definition rendered `{env : Env} (e : ast.expr) : string :=
  match ast_unparse e with
  | inr text => text
  | inl _ => EmptyString
  end.

(** The environment that differs from [env] in [ast.unparse] only, which
    renders every expression as [u]. *)
Definition rendering (env : Env) (u : ast.expr -> string) : Env :=
  {| path_exists := @path_exists env;
     read_file := @read_file env;
     ast_parse := @ast_parse env;
     ast_unparse := fun e => inr (u e);
     inspect_cleandoc := @inspect_cleandoc env |}.

(** No expression of the tree is nested deeper than [limit]. *)
Definition shallow (limit : nat) (t : ast.Mod) : bool :=
  forallb (fun node =>
             match node with
             | ast.of_expr e => (depth e <=? limit)%nat
             | _ => true
             end)
    (ast.walk (ast.of_mod t)).

(** The handler of Scenario C registered on a server object called
    [server]:

      @server.tool()
      def fetch(url: str) -> str:
          '''Fetch a page.'''
          return await client.get(url)                                    *)
Definition fetch_served : ast.stmt :=
  ast.FunctionDef "fetch"
    (one_argument (ast.mk_arg "url" (Some str_type)))
    [docstring "Fetch a page.";
     ast.Return (Some (ast.Await
       (ast.Call (dotted "client" "get") [ast.Name "url" ast.Load] [])))]
    [ast.Call (dotted "server" "tool") [] []] (Some str_type) 6.

Definition served_await_file : ast.Mod :=
  ast.Module [import_fastmcp; server_assign "server"; fetch_served;
              name_guard "__main__"].

(** Scenario C with the deeply decorated handler of [deep_file] before
    [fetch]. *)
Definition deep_await_file : ast.Mod :=
  ast.Module [import_fastmcp; server_assign "mcp"; deep 1000; fetch;
              name_guard "__main__"].

(** * Facts about the tree walk *)

Section WalkFacts.

Lemma list_sum_map_map {A} (f : A -> ast.AST) (g : A -> nat) (l : list A) :
  (forall a, ast.size (f a) = g a) ->
  list_sum (map ast.size (map f l)) = list_sum (map g l).
Proof.
  intros Hfg. induction l as [|a l IH]; simpl; [reflexivity|].
  now rewrite Hfg, IH.
Qed.

Lemma list_sum_of_option {A} (f : A -> ast.AST) (g : A -> nat) (o : option A) :
  (forall a, ast.size (f a) = g a) ->
  list_sum (map ast.size (ast.of_option f o)) = ast.option_size g o.
Proof.
  intros Hfg. destruct o; simpl; [rewrite Hfg; lia | reflexivity].
Qed.

Lemma list_sum_kw_defaults (l : list (option ast.expr)) :
  list_sum (map ast.size (flat_map (ast.of_option ast.of_expr) l))
  = list_sum (map (ast.option_size ast.expr_size) l).
Proof.
  induction l as [|o l IH]; simpl; [reflexivity|].
  rewrite map_app, list_sum_app, IH. destruct o; simpl; lia.
Qed.

Lemma list_sum_ones {A} (f : A -> ast.AST) (l : list A) :
  (forall a, ast.size (f a) = 1) ->
  list_sum (map ast.size (map f l)) = List.length l.
Proof.
  intros Hf. induction l as [|a l IH]; simpl; [reflexivity|].
  now rewrite Hf, IH.
Qed.

(** A node counts for one more than its children together. *)
Lemma size_children (node : ast.AST) :
  ast.size node = S (list_sum (map ast.size (ast.iter_child_nodes node))).
Proof.
  destruct node as [[body]|s|e|a|a|[k v]|a|o|c]; simpl;
    try reflexivity.
  - now rewrite (list_sum_map_map ast.of_stmt ast.stmt_size).
  - destruct s; simpl;
      repeat rewrite ?map_app, ?list_sum_app;
      rewrite ?(list_sum_map_map ast.of_stmt ast.stmt_size),
        ?(list_sum_map_map ast.of_expr ast.expr_size),
        ?(list_sum_map_map ast.of_keyword ast.keyword_size),
        ?(list_sum_of_option ast.of_expr ast.expr_size),
        ?(list_sum_ones ast.of_alias) by reflexivity;
      simpl; try lia.
  - destruct e; simpl;
      repeat rewrite ?map_app, ?list_sum_app;
      rewrite ?(list_sum_map_map ast.of_expr ast.expr_size),
        ?(list_sum_map_map ast.of_keyword ast.keyword_size),
        ?(list_sum_ones ast.of_cmpop) by reflexivity;
      unfold ast.keyword_size; simpl; try lia.
  - unfold ast.arguments_size.
    repeat rewrite ?map_app, ?list_sum_app.
    rewrite list_sum_kw_defaults.
    rewrite !(list_sum_map_map ast.of_arg ast.arg_size),
      !(list_sum_of_option ast.of_arg ast.arg_size),
      (list_sum_map_map ast.of_expr ast.expr_size) by reflexivity.
    lia.
  - unfold ast.arg_size.
    now rewrite (list_sum_of_option ast.of_expr ast.expr_size).
  - unfold ast.keyword_size. simpl. lia.
Qed.

Lemma size_pos (node : ast.AST) : 0 < ast.size node.
Proof. rewrite size_children. lia. Qed.

Lemma walk_queue_spec (fuel : nat) :
  forall todo, list_sum (map ast.size todo) <= fuel ->
  forall n, List.In n (ast.walk_queue fuel todo)
            <-> exists t, List.In t todo /\ descendant n t.
Proof.
  induction fuel as [|fuel IH]; intros todo Hfuel n.
  - destruct todo as [|x rest].
    + simpl. split; [tauto | intros (t & [] & _)].
    + simpl in Hfuel. pose proof (size_pos x). lia.
  - destruct todo as [|x rest]; simpl.
    + split; [tauto | intros (t & [] & _)].
    + assert (Hrest : list_sum (map ast.size (rest ++ ast.iter_child_nodes x)) <= fuel).
      { rewrite map_app, list_sum_app. simpl in Hfuel.
        rewrite (size_children x) in Hfuel. lia. }
      rewrite (IH _ Hrest n). split.
      * intros [<- | (t & Ht & Hd)].
        -- exists x. split; [now left | constructor].
        -- apply in_app_or in Ht as [Ht | Ht].
           ++ exists t. split; [now right | assumption].
           ++ exists x. split; [now left | econstructor; eassumption].
      * intros (t & [<- | Ht] & Hd).
        -- inversion Hd; subst.
           ++ now left.
           ++ right. eexists. split; [apply in_or_app; right|]; eassumption.
        -- right. exists t. split; [apply in_or_app; now left | assumption].
Qed.

(** [ast.walk] yields exactly the nodes of the subtree. *)
Lemma walk_spec (t n : ast.AST) : List.In n (ast.walk t) <-> descendant n t.
Proof.
  unfold ast.walk. rewrite walk_queue_spec by (simpl; lia).
  split.
  - intros (t' & [<- | []] & Hd). exact Hd.
  - intros Hd. exists t. split; [now left | exact Hd].
Qed.

End WalkFacts.

Lemma descendant_trans (a b c : ast.AST) :
  descendant a b -> descendant b c -> descendant a c.
Proof.
  intros Hab Hbc. induction Hbc as [c | b c' c Hchild Hbc IH].
  - exact Hab.
  - econstructor; [exact Hchild | now apply IH].
Qed.

(** * The monad *)

Section MonadFacts.

Lemma set_issues_same (self : FastMCPValidator) :
  set_issues (issues self ++ [])%list self = self.
Proof. destruct self. unfold set_issues. simpl. now rewrite app_nil_r. Qed.

Lemma bind_Returned {A B} (m : M A) (k : A -> M B) self b self' :
  bind m k self = Returned b self' ->
  exists a self1, m self = Returned a self1 /\ k a self1 = Returned b self'.
Proof.
  unfold bind. destruct (m self) as [a self1 | e self1]; [|discriminate].
  intros H. now exists a, self1.
Qed.

Lemma for_each_app {A B} (body : A -> B -> M A) (l1 l2 : list B) (acc : A) self :
  for_each (l1 ++ l2)%list body acc self
  = bind (for_each l1 body acc) (for_each l2 body) self.
Proof.
  revert acc self. induction l1 as [|x l1 IH]; intros acc self; simpl.
  - reflexivity.
  - unfold bind in *.
    destruct (body acc x self) as [a self1 | e self1]; [apply IH | reflexivity].
Qed.

(** Items on which the body does nothing can be dropped from a loop. *)
Lemma for_each_filter {A B} (keep : B -> bool) (body : A -> B -> M A) :
  (forall acc x, keep x = false -> body acc x = ret acc) ->
  forall l acc self,
    for_each l body acc self = for_each (filter keep l) body acc self.
Proof.
  intros Hskip. induction l as [|x l IH]; intros acc self; simpl; [reflexivity|].
  destruct (keep x) eqn:Hx; simpl.
  - unfold bind. destruct (body acc x self); [apply IH | reflexivity].
  - rewrite (Hskip acc x Hx). unfold bind, ret. apply IH.
Qed.

End MonadFacts.

(** * Runs in which [ast.unparse] renders every expression

    A small weakest-precondition calculus for [emits]. *)

Section Renders.

Context {env : Env}.
Variable u : ast.expr -> string.
Hypothesis Hu : forall e, ast_unparse e = inr (u e).
Variable s : bool.

Lemma emits_inj {A} (m : M A) a w a' w' :
  emits s m a w -> emits s m a' w' -> a = a' /\ w = w'.
Proof.
  intros H H'.
  specialize (H (init "" s) eq_refl). specialize (H' (init "" s) eq_refl).
  rewrite H in H'. injection H' as -> Hw. simpl in Hw. auto.
Qed.

Lemma wp_conseq {A} (m : M A) (Q Q' : A -> list ValidationIssue -> Prop) :
  wp s m Q -> (forall a w, Q a w -> Q' a w) -> wp s m Q'.
Proof. intros (a & w & Hm & HQ) HQQ'. exists a, w. auto. Qed.

Lemma wp_ret {A} (a : A) Q : Q a [] -> wp s (ret a) Q.
Proof.
  intros HQ. exists a, []. split; [|exact HQ].
  intros self _. unfold ret. now rewrite set_issues_same.
Qed.

Lemma wp_bind {A B} (m : M A) (k : A -> M B) Q :
  wp s m (fun a w1 => wp s (k a) (fun b w2 => Q b (w1 ++ w2)%list)) ->
  wp s (bind m k) Q.
Proof.
  intros (a & w1 & Hm & b & w2 & Hk & HQ). exists b, (w1 ++ w2)%list.
  split; [|exact HQ].
  intros self Hs. unfold bind. rewrite (Hm self Hs).
  rewrite Hk by exact Hs. simpl. unfold set_issues. simpl.
  now rewrite app_assoc.
Qed.

Lemma wp_append_issue (i : ValidationIssue) Q : Q tt [i] -> wp s (append_issue i) Q.
Proof. intros HQ. exists tt, [i]. split; [|exact HQ]. now intros self _. Qed.

Lemma wp_add_error l msg sg Q :
  Q tt [mk_issue "error" l msg sg] -> wp s (add_error l msg sg) Q.
Proof. apply wp_append_issue. Qed.

Lemma wp_add_warning l msg sg Q :
  Q tt [mk_issue "warning" l msg sg] -> wp s (add_warning l msg sg) Q.
Proof. apply wp_append_issue. Qed.

Lemma wp_add_info l msg sg Q :
  Q tt (if s then [mk_issue "info" l msg sg] else []) -> wp s (add_info l msg sg) Q.
Proof.
  intros HQ. eexists tt, _. split; [|exact HQ].
  intros self Hs. unfold add_info, bind, get_self, when. rewrite Hs.
  destruct s; [reflexivity|]. unfold ret. now rewrite set_issues_same.
Qed.

Lemma wp_when (b : bool) (m : M unit) Q :
  (b = true -> wp s m Q) -> (b = false -> Q tt []) -> wp s (when b m) Q.
Proof.
  intros Ht Hf. destruct b; simpl; [auto | apply wp_ret; auto].
Qed.

Lemma wp_unparse (e : ast.expr) Q : Q (u e) [] -> wp s (lift (ast_unparse e)) Q.
Proof. intros HQ. rewrite Hu. simpl. now apply wp_ret. Qed.

(** The loop rule: [Inv done acc w] relates the items already visited, the
    loop variables and the findings emitted so far. *)
Lemma wp_for_each {A B} (body : A -> B -> M A)
    (Inv : list B -> A -> list ValidationIssue -> Prop) (l : list B) (acc0 : A) Q :
  Inv [] acc0 [] ->
  (forall done x rest acc w, l = (done ++ x :: rest)%list -> Inv done acc w ->
     wp s (body acc x) (fun acc' w' => Inv (done ++ [x])%list acc' (w ++ w')%list)) ->
  (forall acc w, Inv l acc w -> Q acc w) ->
  wp s (for_each l body acc0) Q.
Proof.
  intros H0 Hstep Hend.
  assert (Hgen : forall rest done acc w, l = (done ++ rest)%list -> Inv done acc w ->
            wp s (for_each rest body acc) (fun a' w' => Q a' (w ++ w')%list)).
  { induction rest as [|x rest IH]; intros done acc w Hl HI; simpl.
    - apply wp_ret. rewrite app_nil_r in *. subst. auto.
    - apply wp_bind. eapply wp_conseq; [eapply Hstep; eassumption|].
      intros acc' w' HI'. simpl.
      eapply wp_conseq.
      + apply (IH (done ++ [x])%list acc' (w ++ w')%list); [|exact HI'].
        now rewrite <- app_assoc.
      + intros a'' w'' HQ. simpl in HQ. now rewrite app_assoc. }
  eapply wp_conseq; [apply (Hgen l [] acc0 []); auto|].
  intros a w HQ. exact HQ.
Qed.

(** Under [Hu], [get_decorator_name] resolves to [decorator_name u]. *)
Lemma wp_get_decorator_name (d : ast.expr) Q :
  Q (decorator_name u d) [] -> wp s (get_decorator_name d) Q.
Proof.
  revert Q. induction d; intros Q HQ; simpl in *; try (now apply wp_ret).
  - apply wp_bind, wp_unparse. now apply wp_ret.
  - now apply IHd.
Qed.

Lemma wp_decorators (l : list ast.expr) Q :
  Q (map (decorator_name u) l) [] -> wp s (comprehension get_decorator_name l) Q.
Proof.
  revert Q. induction l as [|d l IH]; intros Q HQ; simpl.
  - now apply wp_ret.
  - apply wp_bind, wp_get_decorator_name. simpl.
    apply wp_bind, IH. simpl. now apply wp_ret.
Qed.

End Renders.

Ltac wp_step Hu :=
  match goal with
  | |- wp _ (ret _) _ => apply wp_ret
  | |- wp _ (bind _ _) _ => apply wp_bind
  | |- wp _ (when _ _) _ => apply wp_when; intros
  | |- wp _ (add_error _ _ _) _ => apply wp_add_error
  | |- wp _ (add_warning _ _ _) _ => apply wp_add_warning
  | |- wp _ (add_info _ _ _) _ => apply wp_add_info
  | |- wp _ (lift (ast_unparse _)) _ => apply (wp_unparse _ Hu)
  | |- wp _ (comprehension get_decorator_name _) _ => apply (wp_decorators _ Hu)
  | |- wp _ (get_decorator_name _) _ => apply (wp_get_decorator_name _ Hu)
  | |- wp _ (if ?b then _ else _) _ => destruct b eqn:?
  | |- wp _ (match ?x with _ => _ end) _ => destruct x eqn:?
  | |- wp _ (match ?x with _ => _ end _) _ => destruct x eqn:?
  end.

(** Loops that only need to come to an end. *)
Ltac wp_loop :=
  match goal with
  | |- wp _ (for_each _ _ _) _ =>
      apply wp_for_each with (Inv := fun _ _ _ => True); [exact I | intros | intros]
  end.

Ltac wp_total Hu := repeat (first [wp_step Hu | wp_loop]; simpl); auto.

Section Totality.

Context {env : Env}.
Variable u : ast.expr -> string.
Hypothesis Hu : forall e, ast_unparse e = inr (u e).
Variable s : bool.

Lemma check_imports_total t : wp s (check_imports t) (fun _ _ => True).
Proof. unfold check_imports, check_imports_visit. wp_total Hu. Qed.

Lemma check_server_init_total t : wp s (check_server_init t) (fun _ _ => True).
Proof. unfold check_server_init, check_server_init_visit. wp_total Hu. Qed.

Lemma check_decorators_total t : wp s (check_decorators t) (fun _ _ => True).
Proof.
  unfold check_decorators, count_decorated, check_decorators_visit,
    check_tool_function, check_resource_function, check_prompt_function.
  wp_total Hu.
Qed.

Lemma check_type_hints_total t : wp s (check_type_hints t) (fun _ _ => True).
Proof. unfold check_type_hints, check_type_hints_visit. wp_total Hu. Qed.

Lemma check_async_patterns_total t : wp s (check_async_patterns t) (fun _ _ => True).
Proof. unfold check_async_patterns, check_async_patterns_visit. wp_total Hu. Qed.

Lemma check_context_usage_total t : wp s (check_context_usage t) (fun _ _ => True).
Proof.
  unfold check_context_usage, check_context_usage_visit, context_param_visit.
  wp_total Hu.
Qed.

Lemma check_best_practices_total t : wp s (check_best_practices t) (fun _ _ => True).
Proof. unfold check_best_practices, check_best_practices_visit. wp_total Hu. Qed.

End Totality.

(** * The run as a whole *)

Section Run.

Context {env : Env}.

(** Past the parser, [validate] is the seven checks followed by the verdict. *)
Lemma validate_parsed (self : FastMCPValidator) content t :
  path_exists (filepath self) = inr true ->
  read_file (filepath self) = inr content ->
  ast_parse content (filepath self) = Parsed t ->
  validate self
  = bind (run_checks t)
      (fun _ => bind get_self
         (fun self' => ret (negb (existsb is_error (issues self')))))
      (set_tree t self).
Proof.
  intros Hexists Hread Hparse.
  unfold validate. unfold bind at 1. unfold get_self at 1.
  rewrite Hexists, Hread, Hparse. simpl.
  unfold run_checks, all_checks. simpl. unfold bind, ret.
  repeat match goal with
         | |- context [match ?c t ?v with _ => _ end] =>
             destruct (c t v); try reflexivity
         end.
Qed.

Lemma no_error_count (l : list ValidationIssue) :
  negb (existsb is_error l) = (List.length (errors l) =? 0)%nat.
Proof.
  induction l as [|i l IH]; simpl; [reflexivity|].
  unfold errors in *. simpl. destruct (is_error i); simpl; [reflexivity | exact IH].
Qed.

(** Whenever [validate] returns, it returns the verdict of the findings. *)
Lemma validate_verdict (self : FastMCPValidator) success self' :
  validate self = Returned success self' ->
  success = negb (existsb is_error (issues self')).
Proof.
  unfold validate. unfold bind at 1. unfold get_self at 1.
  destruct (path_exists (filepath self)) as [e | []]; simpl; [discriminate | |].
  - destruct (read_file (filepath self)) as [e | content].
    + unfold bind, add_error, append_issue, ret. intros [= <- <-]. simpl.
      rewrite existsb_app. simpl. rewrite orb_true_r. reflexivity.
    + destruct (ast_parse content (filepath self)) as [t | e | e].
      * intros H.
        do 8 (apply bind_Returned in H as (? & ? & _ & H)).
        unfold bind, get_self, ret in H. now injection H as <- <-.
      * unfold bind, add_error, append_issue, ret. intros [= <- <-]. simpl.
        rewrite existsb_app. simpl. rewrite orb_true_r. reflexivity.
      * discriminate.
  - unfold bind, add_error, append_issue, ret. intros [= <- <-]. simpl.
    rewrite existsb_app. simpl. rewrite orb_true_r. reflexivity.
Qed.

Variable u : ast.expr -> string.
Hypothesis Hu : forall e, ast_unparse e = inr (u e).

Lemma wp_run_checks (s : bool) t
    (Q1 Q2 Q3 Q4 Q5 Q6 Q7 Q : unit -> list ValidationIssue -> Prop) :
  wp s (check_imports t) Q1 ->
  wp s (check_server_init t) Q2 ->
  wp s (check_decorators t) Q3 ->
  wp s (check_type_hints t) Q4 ->
  wp s (check_async_patterns t) Q5 ->
  wp s (check_context_usage t) Q6 ->
  wp s (check_best_practices t) Q7 ->
  (forall w1 w2 w3 w4 w5 w6 w7,
     Q1 tt w1 -> Q2 tt w2 -> Q3 tt w3 -> Q4 tt w4 -> Q5 tt w5 -> Q6 tt w6 ->
     Q7 tt w7 -> Q tt (w1 ++ w2 ++ w3 ++ w4 ++ w5 ++ w6 ++ w7)%list) ->
  wp s (run_checks t) Q.
Proof.
  intros H1 H2 H3 H4 H5 H6 H7 HQ.
  unfold run_checks, all_checks. simpl.
  apply wp_bind. eapply wp_conseq; [exact H1|]. intros [] w1 HQ1.
  apply wp_bind. eapply wp_conseq; [exact H2|]. intros [] w2 HQ2.
  apply wp_bind. eapply wp_conseq; [exact H3|]. intros [] w3 HQ3.
  apply wp_bind. eapply wp_conseq; [exact H4|]. intros [] w4 HQ4.
  apply wp_bind. eapply wp_conseq; [exact H5|]. intros [] w5 HQ5.
  apply wp_bind. eapply wp_conseq; [exact H6|]. intros [] w6 HQ6.
  apply wp_bind. eapply wp_conseq; [exact H7|]. intros [] w7 HQ7.
  apply wp_ret. rewrite app_nil_r. auto.
Qed.

(** The findings of a run past the parser are those the checks emit. *)
Lemma validate_emits (self : FastMCPValidator) content t w :
  path_exists (filepath self) = inr true ->
  read_file (filepath self) = inr content ->
  ast_parse content (filepath self) = Parsed t ->
  emits (strict self) (run_checks t) tt w ->
  validate self
  = Returned (negb (existsb is_error (issues self ++ w)))
      (set_issues (issues self ++ w)%list (set_tree t self)).
Proof.
  intros Hexists Hread Hparse Hw.
  rewrite (validate_parsed _ Hexists Hread Hparse).
  unfold bind. rewrite (Hw (set_tree t self) eq_refl). reflexivity.
Qed.

Lemma run_checks_total (s : bool) t : wp s (run_checks t) (fun _ _ => True).
Proof.
  eapply wp_run_checks;
    [ apply check_imports_total | apply check_server_init_total
    | eapply check_decorators_total, Hu | eapply check_type_hints_total, Hu
    | eapply check_async_patterns_total, Hu | eapply check_context_usage_total, Hu
    | apply check_best_practices_total | auto ].
Qed.

End Run.

(** * Runs in which [ast.unparse] renders the expressions of the file

    The checks hand [ast.unparse] expressions of the tree only, so a run in
    which these are rendered is the run of the environment that renders
    every expression. *)

Lemma bind_ext {A B} (m m' : M A) (k k' : A -> M B) (self : FastMCPValidator) :
  m self = m' self -> (forall a self1, k a self1 = k' a self1) ->
  bind m k self = bind m' k' self.
Proof.
  intros Hm Hk. unfold bind. rewrite Hm. destruct (m' self); [apply Hk | reflexivity].
Qed.

Lemma for_each_ext {A B} (l : list B) (body body' : A -> B -> M A) :
  (forall acc x self, List.In x l -> body acc x self = body' acc x self) ->
  forall acc self, for_each l body acc self = for_each l body' acc self.
Proof.
  induction l as [|x l IH]; intros H acc self; simpl; [reflexivity|].
  apply bind_ext; [apply H; now left|].
  intros acc1 self1. apply IH. intros acc2 y self2 Hy. apply H. now right.
Qed.

Lemma comprehension_ext {A B} (f f' : A -> M B) (l : list A) :
  (forall x self, List.In x l -> f x self = f' x self) ->
  forall self, comprehension f l self = comprehension f' l self.
Proof.
  induction l as [|x l IH]; intros H self; simpl; [reflexivity|].
  apply bind_ext; [apply H; now left|].
  intros y self1. apply bind_ext; [|reflexivity].
  apply IH. intros z self2 Hz. apply H. now right.
Qed.

Lemma descendant_of_child (n c t : ast.AST) :
  List.In c (ast.iter_child_nodes t) -> descendant n c -> descendant n t.
Proof. intros Hc Hn. econstructor; eassumption. Qed.

Section Local.

Context {env : Env}.
Variable u : ast.expr -> string.

(** [ast.unparse] renders the expressions at and below [node]. *)
Let renders_below (node : ast.AST) : Prop :=
  forall e, descendant (ast.of_expr e) node -> ast_unparse e = inr (u e).

Lemma renders_below_child (c node : ast.AST) :
  renders_below node -> List.In c (ast.iter_child_nodes node) -> renders_below c.
Proof. intros H Hc e He. apply H. eapply descendant_of_child; eassumption. Qed.

Lemma unparse_local (e : ast.expr) (self : FastMCPValidator) :
  renders_below (ast.of_expr e) ->
  lift (@ast_unparse env e) self = lift (@ast_unparse (rendering env u) e) self.
Proof. intros H. rewrite (H e) by constructor. reflexivity. Qed.

Lemma get_decorator_name_local (d : ast.expr) :
  renders_below (ast.of_expr d) ->
  forall self,
    @get_decorator_name env d self = @get_decorator_name (rendering env u) d self.
Proof.
  induction d; intros H self; simpl; try reflexivity.
  - apply bind_ext; [|reflexivity]. apply unparse_local.
    apply (renders_below_child H). simpl. now left.
  - apply IHd. apply (renders_below_child H). simpl. now left.
Qed.

Lemma check_prompt_function_below name returns lineno (self : FastMCPValidator) :
  (forall r, returns = Some r -> renders_below (ast.of_expr r)) ->
  @check_prompt_function env name returns lineno self
  = @check_prompt_function (rendering env u) name returns lineno self.
Proof.
  intros H. unfold check_prompt_function. destruct returns as [r|]; [|reflexivity].
  apply bind_ext; [|reflexivity]. now apply unparse_local, H.
Qed.

Lemma check_type_hints_visit_below name a body decorator_list returns lineno acc
    (self : FastMCPValidator) :
  (forall self1,
     comprehension (@get_decorator_name env) decorator_list self1
     = comprehension (@get_decorator_name (rendering env u)) decorator_list self1) ->
  @check_type_hints_visit env acc
     (ast.of_stmt (ast.FunctionDef name a body decorator_list returns lineno)) self
  = @check_type_hints_visit (rendering env u) acc
      (ast.of_stmt (ast.FunctionDef name a body decorator_list returns lineno)) self.
Proof.
  intros Hd. unfold check_type_hints_visit.
  destruct decorator_list; [reflexivity|].
  apply bind_ext; [apply Hd | reflexivity].
Qed.

Section Node.

Variables (name : string) (a : ast.arguments) (body : list ast.stmt)
  (decorator_list : list ast.expr) (returns : option ast.expr) (lineno : Z).

Let fn : ast.stmt := ast.FunctionDef name a body decorator_list returns lineno.

Hypothesis Hfn : renders_below (ast.of_stmt fn).

Lemma decorators_local (self : FastMCPValidator) :
  comprehension (@get_decorator_name env) decorator_list self
  = comprehension (@get_decorator_name (rendering env u)) decorator_list self.
Proof.
  apply comprehension_ext. intros d self1 Hd. apply get_decorator_name_local.
  apply (renders_below_child Hfn). simpl. right.
  apply in_or_app. right. apply in_or_app. left. now apply in_map.
Qed.

Lemma returns_local (r : ast.expr) :
  returns = Some r -> renders_below (ast.of_expr r).
Proof.
  intros Hr. apply (renders_below_child Hfn). simpl. right.
  apply in_or_app. right. apply in_or_app. right. rewrite Hr. now left.
Qed.

Lemma annotation_local (p : ast.arg) (ann : ast.expr) :
  List.In p (ast.args a) -> ast.annotation p = Some ann ->
  renders_below (ast.of_expr ann).
Proof.
  intros Hp Hann.
  assert (Harguments : renders_below (ast.of_arguments a))
    by (apply (renders_below_child Hfn); simpl; now left).
  assert (Harg : renders_below (ast.of_arg p)).
  { apply (renders_below_child Harguments). simpl.
    apply in_or_app. right. apply in_or_app. left. now apply in_map. }
  apply (renders_below_child Harg). simpl. rewrite Hann. now left.
Qed.

Lemma check_prompt_function_local (self : FastMCPValidator) :
  @check_prompt_function env name returns lineno self
  = @check_prompt_function (rendering env u) name returns lineno self.
Proof. apply check_prompt_function_below, returns_local. Qed.

Lemma check_decorators_visit_local counts (self : FastMCPValidator) :
  @check_decorators_visit env counts (ast.of_stmt fn) self
  = @check_decorators_visit (rendering env u) counts (ast.of_stmt fn) self.
Proof.
  destruct counts as [[tool_count resource_count] prompt_count].
  unfold check_decorators_visit, fn.
  apply bind_ext; [apply decorators_local|]. intros decorators self1.
  apply bind_ext; [reflexivity|]. intros tool_count' self2.
  apply bind_ext; [reflexivity|]. intros resource_count' self3.
  apply bind_ext; [|reflexivity].
  destruct (mem "mcp.prompt" decorators); [|reflexivity].
  apply bind_ext; [apply check_prompt_function_local | reflexivity].
Qed.

Lemma check_type_hints_visit_local acc (self : FastMCPValidator) :
  @check_type_hints_visit env acc (ast.of_stmt fn) self
  = @check_type_hints_visit (rendering env u) acc (ast.of_stmt fn) self.
Proof.
  apply check_type_hints_visit_below, decorators_local.
Qed.

Lemma check_async_patterns_visit_local acc (self : FastMCPValidator) :
  @check_async_patterns_visit env acc (ast.of_stmt fn) self
  = @check_async_patterns_visit (rendering env u) acc (ast.of_stmt fn) self.
Proof.
  unfold check_async_patterns_visit, fn.
  apply bind_ext; [apply decorators_local | reflexivity].
Qed.

Lemma context_param_visit_local flags (p : ast.arg) (self : FastMCPValidator) :
  List.In p (ast.args a) ->
  @context_param_visit env flags p self
  = @context_param_visit (rendering env u) flags p self.
Proof.
  intros Hp. destruct flags as [has hint]. unfold context_param_visit.
  destruct (mem (ast.arg_name p) ["ctx"; "context"]); [|reflexivity].
  pose proof (annotation_local p) as Hbelow.
  destruct (ast.annotation p) as [ann|]; [|reflexivity].
  apply bind_ext; [|reflexivity]. apply unparse_local. now apply Hbelow.
Qed.

Lemma check_context_usage_visit_local acc (self : FastMCPValidator) :
  @check_context_usage_visit env acc (ast.of_stmt fn) self
  = @check_context_usage_visit (rendering env u) acc (ast.of_stmt fn) self.
Proof.
  unfold check_context_usage_visit, fn.
  apply bind_ext; [apply decorators_local|]. intros decorators self1.
  destruct (negb (existsb (startswith "mcp.") decorators)); [reflexivity|].
  apply bind_ext; [|reflexivity].
  apply for_each_ext. intros flags p self2 Hp. now apply context_param_visit_local.
Qed.

End Node.

Variable t : ast.Mod.
Hypothesis Ht : renders u t.

Lemma renders_node (node : ast.AST) :
  List.In node (ast.walk (ast.of_mod t)) -> renders_below node.
Proof.
  intros Hnode e He. apply Ht. apply walk_spec in Hnode.
  eapply descendant_trans; eassumption.
Qed.

Ltac local_loop visit_local :=
  apply for_each_ext; intros acc node self1 Hnode;
  apply renders_node in Hnode;
  destruct node as [| stmt | | | | | | |]; try reflexivity;
  destruct stmt; try reflexivity;
  now apply visit_local.

Lemma check_decorators_local (self : FastMCPValidator) :
  @check_decorators env t self = @check_decorators (rendering env u) t self.
Proof.
  unfold check_decorators. apply bind_ext; [|reflexivity].
  unfold count_decorated. local_loop check_decorators_visit_local.
Qed.

Lemma check_type_hints_local (self : FastMCPValidator) :
  @check_type_hints env t self = @check_type_hints (rendering env u) t self.
Proof. unfold check_type_hints. local_loop check_type_hints_visit_local. Qed.

Lemma check_async_patterns_local (self : FastMCPValidator) :
  @check_async_patterns env t self = @check_async_patterns (rendering env u) t self.
Proof. unfold check_async_patterns. local_loop check_async_patterns_visit_local. Qed.

Lemma check_context_usage_local (self : FastMCPValidator) :
  @check_context_usage env t self = @check_context_usage (rendering env u) t self.
Proof. unfold check_context_usage. local_loop check_context_usage_visit_local. Qed.

Lemma run_checks_local (self : FastMCPValidator) :
  @run_checks env t self = @run_checks (rendering env u) t self.
Proof.
  unfold run_checks, all_checks. simpl.
  apply bind_ext; [reflexivity|]. intros [] self1.
  apply bind_ext; [reflexivity|]. intros [] self2.
  apply bind_ext; [apply check_decorators_local|]. intros [] self3.
  apply bind_ext; [apply check_type_hints_local|]. intros [] self4.
  apply bind_ext; [apply check_async_patterns_local|]. intros [] self5.
  apply bind_ext; [apply check_context_usage_local|]. intros [] self6.
  reflexivity.
Qed.

Lemma validate_local (self : FastMCPValidator) (content : string) :
  path_exists (filepath self) = inr true ->
  read_file (filepath self) = inr content ->
  ast_parse content (filepath self) = Parsed t ->
  @validate env self = @validate (rendering env u) self.
Proof.
  intros Hexists Hread Hparse.
  rewrite (@validate_parsed env self content t Hexists Hread Hparse).
  rewrite (@validate_parsed (rendering env u) self content t Hexists Hread Hparse).
  apply bind_ext; [apply run_checks_local | reflexivity].
Qed.

Lemma main_local (file : string) (strict_flag : bool) (content : string) :
  path_exists file = inr true ->
  read_file file = inr content ->
  ast_parse content file = Parsed t ->
  @main env file strict_flag = @main (rendering env u) file strict_flag.
Proof.
  intros Hexists Hread Hparse. unfold main.
  apply bind_ext; [|reflexivity]. now apply validate_local with (content := content).
Qed.

End Local.

(** Under a recursion limit, the expressions of a shallow tree are
    rendered. *)
Lemma file_env_renders (limit : nat) (p : parse_result) (t : ast.Mod) :
  shallow limit t = true -> @renders (file_env limit p) render t.
Proof.
  intros Hshallow e He. apply walk_spec in He.
  unfold shallow in Hshallow. rewrite forallb_forall in Hshallow.
  specialize (Hshallow _ He). simpl in Hshallow. simpl.
  apply Nat.leb_le in Hshallow.
  destruct (limit <? depth e)%nat eqn:Hlt; [|reflexivity].
  apply Nat.ltb_lt in Hlt. lia.
Qed.

Lemma renders_rendered `{env : Env} (t : ast.Mod) :
  (forall e, descendant (ast.of_expr e) (ast.of_mod t) ->
             exists text, ast_unparse e = inr text) ->
  renders rendered t.
Proof.
  intros H e He. destruct (H e He) as (text & Htext).
  unfold rendered. now rewrite Htext.
Qed.

(** * The verdict and the parser gate *)

(** C1, as the code has it.  A run that reaches its verdict succeeds exactly
    when it stored no error-severity finding, and [main] then exits with 0
    on success and 1 otherwise; warnings and info findings are not
    consulted.  A run that an exception ends ([Path.exists()], [ast.parse]
    and the checks are called outside a [try]) reaches no verdict: [main]
    ends on the exception and the status of the process is 1, whatever the
    findings.  So status 0 implies that there is no error finding, but not
    the converse.  The run does reach its verdict when [Path.exists()]
    returns, [ast.parse] raises nothing but [SyntaxError] and [ast.unparse]
    renders the expressions of the tree (writing to standard output, which
    the model leaves out, taken to succeed). *)
Theorem verdict_law `{env : Env} (file : string) (strict_flag : bool) :
  (forall success self',
     validate (init file strict_flag) = Returned success self' ->
     success = (List.length (errors (issues self')) =? 0)%nat /\
     main file strict_flag = Returned (if success then 0 else 1)%Z self')
  /\
  (forall e self',
     validate (init file strict_flag) = Raised e self' ->
     main file strict_flag = Raised e self' /\
     exit_status (main file strict_flag) = 1%Z)
  /\
  (exit_status (main file strict_flag) = 0%Z ->
   errors (issues (state_of (main file strict_flag))) = [])
  /\
  (forall found,
     path_exists file = inr found ->
     (forall content e,
        read_file file = inr content -> ast_parse content file <> ParseRaised e) ->
     (forall content t,
        read_file file = inr content -> ast_parse content file = Parsed t ->
        forall x, descendant (ast.of_expr x) (ast.of_mod t) ->
                  exists text, ast_unparse x = inr text) ->
     exists success self',
       validate (init file strict_flag) = Returned success self').
Proof.
  assert (Hlaw : forall success self',
            validate (init file strict_flag) = Returned success self' ->
            success = (List.length (errors (issues self')) =? 0)%nat /\
            main file strict_flag = Returned (if success then 0 else 1)%Z self').
  { intros success self' Hrun. split.
    - rewrite <- no_error_count. now apply validate_verdict in Hrun.
    - unfold main, bind. now rewrite Hrun. }
  split; [exact Hlaw|]. split; [|split].
  - intros e self' Hrun.
    assert (Hmain : main file strict_flag = Raised e self')
      by (unfold main, bind; now rewrite Hrun).
    split; [exact Hmain|]. now rewrite Hmain.
  - destruct (validate (init file strict_flag)) as [success self' | e self'] eqn:Hrun.
    + destruct (Hlaw _ _ eq_refl) as [Hsuccess Hmain]. rewrite Hmain. simpl.
      destruct success; [|discriminate]. intros _.
      symmetry in Hsuccess. apply Nat.eqb_eq in Hsuccess.
      now apply length_zero_iff_nil.
    + unfold main, bind. rewrite Hrun. discriminate.
  - intros found Hexists Hparse Hrenders.
    destruct found.
    + destruct (read_file file) as [e | content] eqn:Hread.
      * eexists _, _. unfold validate, bind, get_self. simpl.
        rewrite Hexists, Hread. reflexivity.
      * destruct (ast_parse content file) as [t | e | e] eqn:Hp.
        -- pose proof (renders_rendered (Hrenders _ _ eq_refl Hp)) as Ht.
           rewrite (@validate_local env rendered t Ht (init file strict_flag) content)
             by assumption.
           destruct (@run_checks_total (rendering env rendered) rendered
                       (fun x => eq_refl) strict_flag t) as ([] & w & Hw & _).
           eexists _, _.
           apply (@validate_emits (rendering env rendered) (init file strict_flag)
                    content t w); simpl; auto.
        -- eexists _, _. unfold validate, bind, get_self. simpl.
           rewrite Hexists, Hread, Hp. reflexivity.
        -- now apply Hparse in Hp.
    + eexists _, _. unfold validate, bind, get_self. simpl.
      rewrite Hexists. reflexivity.
Qed.

Lemma verdict_law_witness :
  exists success self',
    @validate (file_env 1000 (Parsed scenario_C)) (init "server.py" false)
      = Returned success self' /\
    success = (List.length (errors (issues self')) =? 0)%nat /\
    @main (file_env 1000 (Parsed scenario_C)) "server.py" false
      = Returned (if success then 0 else 1)%Z self'.
Proof.
  destruct (@verdict_law (file_env 1000 (Parsed scenario_C)) "server.py" false)
    as (Hlaw & _ & _ & Hruns).
  destruct (Hruns true) as (success & self' & Hrun).
  - reflexivity.
  - intros content e _. discriminate.
  - intros content t _ [= <-] x Hx. exists (render x).
    now apply (@file_env_renders 1000 (Parsed scenario_C) scenario_C).
  - exists success, self'. split; [exact Hrun | apply Hlaw, Hrun].
Defined.

(** C1 as worded fails.  With a recursion limit of 1000 frames the run on
    [deep_file] holds no error finding, yet it is no success: the third
    check raises, [main] ends on the exception and the process exits with
    status 1, not 0. *)
Lemma verdict_counterexample :
  @main limited_env "server.py" true
  = Raised RecursionError (set_tree deep_file (init "server.py" true))
  /\
  errors (issues (state_of (@main limited_env "server.py" true))) = []
  /\
  exit_status (@main limited_env "server.py" true) = 1%Z.
Proof. repeat split; vm_compute; reflexivity. Qed.

(** C2. When the text of the file does not parse, the run stores exactly one
    finding, of severity error, with the line and the message the parser
    reported; no tree is stored and no check runs; the verdict is failure
    and [main] exits with 1. *)
Theorem parser_gate `{env : Env} (file : string) (strict_flag : bool)
    (content : string) (e : SyntaxError) :
  path_exists file = inr true ->
  read_file file = inr content ->
  ast_parse content file = ParseSyntaxError e ->
  let self' :=
    {| filepath := file; strict := strict_flag;
       issues := [mk_issue "error" (se_lineno e)
                    ("Python syntax error: " ++ se_msg e) None];
       tree := None |} in
  validate (init file strict_flag) = Returned false self' /\
  main file strict_flag = Returned 1%Z self'.
Proof.
  intros Hexists Hread Hparse self'.
  assert (Hrun : validate (init file strict_flag) = Returned false self').
  { unfold validate, bind, get_self. simpl.
    now rewrite Hexists, Hread, Hparse. }
  split; [exact Hrun|]. unfold main, bind. now rewrite Hrun.
Qed.

Lemma parser_gate_witness :
  @validate (file_env 1000 (ParseSyntaxError unbalanced)) (init "server.py" true)
  = Returned false
      {| filepath := "server.py"; strict := true;
         issues := [mk_issue "error" (Some 1%Z)
                      "Python syntax error: invalid syntax" None];
         tree := None |}.
Proof.
  apply (@parser_gate (file_env 1000 (ParseSyntaxError unbalanced))
           "server.py" true "" unbalanced); reflexivity.
Defined.

(** * Strict mode *)

Section Strict.

Context {env : Env}.

Lemma si_ret {A} (a : A) : strict_invariant (ret a).
Proof. intros vn vs H. simpl. auto. Qed.

Lemma si_raise {A} (e : Exception) : strict_invariant (@raise A e).
Proof. intros vn vs H. simpl. auto. Qed.

Lemma si_lift {A} (r : Exception + A) : strict_invariant (lift r).
Proof. destruct r; [apply si_raise | apply si_ret]. Qed.

Lemma si_bind {A B} (m : M A) (k : A -> M B) :
  strict_invariant m -> (forall a, strict_invariant (k a)) ->
  strict_invariant (bind m k).
Proof.
  intros Hm Hk vn vs H. specialize (Hm vn vs H). unfold bind.
  destruct (m vn) as [a vn' | e vn'], (m vs) as [b vs' | e' vs']; simpl in Hm;
    try contradiction.
  - destruct Hm as [<- H']. now apply Hk.
  - exact Hm.
Qed.

Lemma si_when (b : bool) (m : M unit) :
  strict_invariant m -> strict_invariant (when b m).
Proof. destruct b; simpl; [auto | intros _; apply si_ret]. Qed.

Lemma si_append_issue (i : ValidationIssue) :
  is_info i = false -> strict_invariant (append_issue i).
Proof.
  intros Hi vn vs (Hf & Ht & Hn & Hs & Hissues). simpl.
  split; [reflexivity|]. unfold strict_pair. simpl.
  repeat split; auto.
  rewrite filter_app, Hissues. simpl. now rewrite Hi.
Qed.

Lemma si_add_error l msg sg : strict_invariant (add_error l msg sg).
Proof. now apply si_append_issue. Qed.

Lemma si_add_warning l msg sg : strict_invariant (add_warning l msg sg).
Proof. now apply si_append_issue. Qed.

(** The one place where the two runs part: the strict one stores the info
    finding, the other stores nothing. *)
Lemma si_add_info l msg sg : strict_invariant (add_info l msg sg).
Proof.
  intros vn vs (Hf & Ht & Hn & Hs & Hissues).
  unfold add_info, bind, get_self. rewrite Hn, Hs. simpl.
  split; [reflexivity|]. unfold strict_pair. simpl.
  repeat split; auto.
  rewrite filter_app, Hissues. simpl. now rewrite app_nil_r.
Qed.

Lemma si_for_each {A B} (body : A -> B -> M A) (l : list B) :
  (forall acc x, strict_invariant (body acc x)) ->
  forall acc, strict_invariant (for_each l body acc).
Proof.
  intros Hbody. induction l as [|x l IH]; intros acc; simpl.
  - apply si_ret.
  - apply si_bind; auto.
Qed.

Lemma si_get_decorator_name (d : ast.expr) : strict_invariant (get_decorator_name d).
Proof.
  induction d; simpl; try apply si_ret; auto.
  apply si_bind; [apply si_lift | intros; apply si_ret].
Qed.

Lemma si_comprehension {A B} (f : A -> M B) (l : list A) :
  (forall x, strict_invariant (f x)) -> strict_invariant (comprehension f l).
Proof.
  intros Hf. induction l as [|x l IH]; simpl.
  - apply si_ret.
  - apply si_bind; [apply Hf|]. intros y.
    apply si_bind; [apply IH|]. intros ys. apply si_ret.
Qed.

End Strict.

Ltac si_step :=
  match goal with
  | |- strict_invariant (ret _) => apply si_ret
  | |- strict_invariant (bind _ _) => apply si_bind; [|intros]
  | |- strict_invariant (when _ _) => apply si_when
  | |- strict_invariant (add_error _ _ _) => apply si_add_error
  | |- strict_invariant (add_warning _ _ _) => apply si_add_warning
  | |- strict_invariant (add_info _ _ _) => apply si_add_info
  | |- strict_invariant (lift _) => apply si_lift
  | |- strict_invariant (comprehension get_decorator_name _) =>
      apply si_comprehension, si_get_decorator_name
  | |- strict_invariant (get_decorator_name _) => apply si_get_decorator_name
  | |- strict_invariant (for_each _ _ _) => apply si_for_each; intros
  | |- strict_invariant (if ?b then _ else _) => destruct b
  | |- strict_invariant (match ?x with _ => _ end) => destruct x
  | |- strict_invariant (match ?x with _ => _ end _) => destruct x
  end.

Ltac si_auto := repeat (si_step; simpl).

Section StrictChecks.

Context {env : Env}.

Lemma si_check_imports t : strict_invariant (check_imports t).
Proof. unfold check_imports, check_imports_visit. si_auto. Qed.

Lemma si_check_server_init t : strict_invariant (check_server_init t).
Proof. unfold check_server_init, check_server_init_visit. si_auto. Qed.

Lemma si_check_decorators t : strict_invariant (check_decorators t).
Proof.
  unfold check_decorators, count_decorated, check_decorators_visit,
    check_tool_function, check_resource_function, check_prompt_function.
  si_auto.
Qed.

Lemma si_check_type_hints t : strict_invariant (check_type_hints t).
Proof. unfold check_type_hints, check_type_hints_visit. si_auto. Qed.

Lemma si_check_async_patterns t : strict_invariant (check_async_patterns t).
Proof. unfold check_async_patterns, check_async_patterns_visit. si_auto. Qed.

Lemma si_check_context_usage t : strict_invariant (check_context_usage t).
Proof.
  unfold check_context_usage, check_context_usage_visit, context_param_visit.
  si_auto.
Qed.

Lemma si_check_best_practices t : strict_invariant (check_best_practices t).
Proof. unfold check_best_practices, check_best_practices_visit. si_auto. Qed.

Lemma error_not_info (i : ValidationIssue) : is_error i = true -> is_info i = false.
Proof.
  unfold is_error, is_info. intros H. apply String.eqb_eq in H. now rewrite H.
Qed.

Lemma existsb_error_filter (l : list ValidationIssue) :
  existsb is_error (filter (fun i => negb (is_info i)) l) = existsb is_error l.
Proof.
  induction l as [|i l IH]; simpl; [reflexivity|].
  destruct (is_info i) eqn:Hi; simpl.
  - rewrite IH. destruct (is_error i) eqn:He; [|reflexivity].
    apply error_not_info in He. congruence.
  - now rewrite IH.
Qed.

Lemma si_verdict :
  strict_invariant
    (bind get_self (fun self' => ret (negb (existsb is_error (issues self'))))).
Proof.
  intros vn vs H. unfold bind, get_self, ret. simpl. split; [|exact H].
  destruct H as (_ & _ & _ & _ & ->). now rewrite existsb_error_filter.
Qed.

Lemma bind_get_self {A} (k : FastMCPValidator -> M A) self :
  bind get_self k self = k self self.
Proof. reflexivity. Qed.

Lemma si_validate : strict_invariant validate.
Proof.
  assert (Hstop : forall l msg sg,
            strict_invariant (bind (add_error l msg sg) (fun _ => ret false))).
  { intros. apply si_bind; [apply si_add_error | intros; apply si_ret]. }
  intros vn vs H. pose proof H as (Hf & _).
  unfold validate. rewrite !bind_get_self. rewrite Hf.
  destruct (path_exists (filepath vs)) as [e | []]; cbn [negb];
    [now apply si_raise | | now apply Hstop].
  destruct (read_file (filepath vs)) as [e | content]; [now apply Hstop|].
  destruct (ast_parse content (filepath vs)) as [t | e | e];
    [| now apply Hstop | now apply si_raise].
  assert (Htree : strict_invariant (fun self => Returned tt (set_tree t self))).
  { intros v v' (? & ? & ? & ? & ?). simpl. unfold strict_pair. simpl.
    repeat split; auto. }
  revert vn vs H Hf.
  assert (Hrest : strict_invariant
    (bind (fun self => Returned tt (set_tree t self)) (fun _ =>
     bind (check_imports t) (fun _ =>
     bind (check_server_init t) (fun _ =>
     bind (check_decorators t) (fun _ =>
     bind (check_type_hints t) (fun _ =>
     bind (check_async_patterns t) (fun _ =>
     bind (check_context_usage t) (fun _ =>
     bind (check_best_practices t) (fun _ =>
     bind get_self (fun self' =>
       ret (negb (existsb is_error (issues self')))))))))))))).
  { repeat first
      [ exact Htree | apply si_check_imports | apply si_check_server_init
      | apply si_check_decorators | apply si_check_type_hints
      | apply si_check_async_patterns | apply si_check_context_usage
      | apply si_check_best_practices | apply si_verdict
      | apply si_bind; [|intros] ]. }
  intros vn vs H _. exact (Hrest vn vs H).
Qed.

End StrictChecks.

(** C7. For every file, the findings of the run without the strict flag are
    the findings of the strict run with the info ones removed, in the same
    order; they hold no info finding at all; both runs reach the same
    verdict, or both stop on the same exception. *)
Theorem strict_mode_monotone `{env : Env} (file : string) :
  match validate (init file false), validate (init file true) with
  | Returned success plain, Returned success' strict_one =>
      success = success' /\
      issues plain = filter (fun i => negb (is_info i)) (issues strict_one) /\
      Forall (fun i => is_info i = false) (issues plain) /\
      (forall i, List.In i (issues strict_one) ->
                 List.In i (issues plain) \/ is_info i = true)
  | Raised e plain, Raised e' strict_one =>
      e = e' /\
      issues plain = filter (fun i => negb (is_info i)) (issues strict_one)
  | _, _ => False
  end.
Proof.
  assert (H : strict_pair (init file false) (init file true)).
  { unfold strict_pair. simpl. auto. }
  apply si_validate in H.
  destruct (validate (init file false)) as [a vn | e vn],
    (validate (init file true)) as [b vs | e' vs]; simpl in H; try contradiction.
  - destruct H as (-> & _ & _ & _ & _ & Hissues). split; [reflexivity|].
    split; [exact Hissues|]. split.
    + rewrite Hissues. apply Forall_forall. intros i Hi.
      apply filter_In in Hi as [_ Hi]. now apply negb_true_iff in Hi.
    + intros i Hi. rewrite Hissues. destruct (is_info i) eqn:Hinfo; [now right|].
      left. apply filter_In. now rewrite Hinfo.
  - destruct H as (-> & _ & _ & _ & _ & Hissues). auto.
Qed.

(** * Asynchronous definitions *)

Section Async.

Context {env : Env}.

Lemma check_decorators_skips counts node :
  is_FunctionDef node = false -> check_decorators_visit counts node = ret counts.
Proof.
  destruct counts as [[tool_count resource_count] prompt_count].
  destruct node as [| [] | | | | | | |]; simpl; try reflexivity; discriminate.
Qed.

Lemma check_type_hints_skips acc node :
  is_FunctionDef node = false -> check_type_hints_visit acc node = ret acc.
Proof.
  destruct acc.
  destruct node as [| [] | | | | | | |]; simpl; try reflexivity; discriminate.
Qed.

Lemma check_async_patterns_skips acc node :
  is_FunctionDef node = false -> check_async_patterns_visit acc node = ret acc.
Proof.
  destruct acc.
  destruct node as [| [] | | | | | | |]; simpl; try reflexivity; discriminate.
Qed.

Lemma check_context_usage_skips acc node :
  is_FunctionDef node = false -> check_context_usage_visit acc node = ret acc.
Proof.
  destruct acc.
  destruct node as [| [] | | | | | | |]; simpl; try reflexivity; discriminate.
Qed.

Lemma async_is_not_FunctionDef node :
  negb (is_AsyncFunctionDef node) = false -> is_FunctionDef node = false.
Proof. destruct node as [| [] | | | | | | |]; simpl; congruence. Qed.

End Async.

(** C10. A node of class [AsyncFunctionDef] leaves the loop variables and
    the findings of the four loops over function definitions as they were,
    whatever its decorators, parameters, annotations and body: it is not
    counted as tool, resource or prompt, and the docstring, URI, return
    type, type hint, await and context parameter checks say nothing about
    it.  Each of these loops over a tree is the same loop over the tree's
    nodes with the asynchronous definitions left out; on a tree whose
    function definitions are all asynchronous the counts are zero and the
    loops store nothing. *)
Theorem async_definitions_skipped `{env : Env} :
  (forall name a body decorator_list returns lineno counts,
     let node :=
       ast.of_stmt (ast.AsyncFunctionDef name a body decorator_list returns lineno) in
     check_decorators_visit counts node = ret counts /\
     check_type_hints_visit tt node = ret tt /\
     check_async_patterns_visit tt node = ret tt /\
     check_context_usage_visit tt node = ret tt)
  /\
  (forall t self,
     let others :=
       filter (fun n => negb (is_AsyncFunctionDef n)) (ast.walk (ast.of_mod t)) in
     count_decorated t self = for_each others check_decorators_visit (0, 0, 0) self /\
     check_type_hints t self = for_each others check_type_hints_visit tt self /\
     check_async_patterns t self = for_each others check_async_patterns_visit tt self /\
     check_context_usage t self = for_each others check_context_usage_visit tt self)
  /\
  (forall t self,
     filter is_FunctionDef (ast.walk (ast.of_mod t)) = [] ->
     count_decorated t self = Returned (0, 0, 0) self /\
     check_type_hints t self = Returned tt self /\
     check_async_patterns t self = Returned tt self /\
     check_context_usage t self = Returned tt self).
Proof.
  split; [|split].
  - intros. subst node. repeat split.
    now destruct counts as [[? ?] ?].
  - intros t self others. subst others.
    unfold count_decorated, check_type_hints, check_async_patterns,
      check_context_usage.
    repeat split; apply for_each_filter; intros acc x Hx;
      apply async_is_not_FunctionDef in Hx.
    + now apply check_decorators_skips.
    + now apply check_type_hints_skips.
    + now apply check_async_patterns_skips.
    + now apply check_context_usage_skips.
  - intros t self Hnone.
    unfold count_decorated, check_type_hints, check_async_patterns,
      check_context_usage.
    rewrite (for_each_filter is_FunctionDef check_decorators_visit
               check_decorators_skips),
      (for_each_filter is_FunctionDef check_type_hints_visit
         check_type_hints_skips),
      (for_each_filter is_FunctionDef check_async_patterns_visit
         check_async_patterns_skips),
      (for_each_filter is_FunctionDef check_context_usage_visit
         check_context_usage_skips).
    rewrite Hnone. repeat split.
Qed.

Lemma async_definitions_skipped_witness :
  @count_decorated (total_env (Parsed async_context_file)) async_context_file
    (init "server.py" true)
  = Returned (0, 0, 0) (init "server.py" true) /\
  @check_type_hints (total_env (Parsed async_context_file)) async_context_file
    (init "server.py" true)
  = Returned tt (init "server.py" true) /\
  @check_async_patterns (total_env (Parsed async_context_file)) async_context_file
    (init "server.py" true)
  = Returned tt (init "server.py" true) /\
  @check_context_usage (total_env (Parsed async_context_file)) async_context_file
    (init "server.py" true)
  = Returned tt (init "server.py" true).
Proof.
  apply (@async_definitions_skipped (total_env (Parsed async_context_file))).
  vm_compute. reflexivity.
Defined.

(** * The entry-point guard *)

Section MainBlock.

Lemma main_block_loop (l : list ast.AST) (acc : bool) self :
  for_each l check_best_practices_visit acc self
  = Returned (acc || existsb is_main_block l) self.
Proof.
  revert acc. induction l as [|x l IH]; intros acc; simpl.
  - now rewrite orb_false_r.
  - unfold bind, check_best_practices_visit.
    destruct (is_main_block x); simpl; unfold ret; rewrite IH; simpl.
    + now rewrite !orb_true_r.
    + reflexivity.
Qed.

Lemma check_best_practices_run t self :
  check_best_practices t self
  = if existsb is_main_block (ast.walk (ast.of_mod t)) then Returned tt self
    else if strict self
         then Returned tt (set_issues (issues self ++ [main_block_finding])%list self)
         else Returned tt self.
Proof.
  unfold check_best_practices, bind. rewrite main_block_loop. simpl.
  destruct (existsb is_main_block _); simpl; [reflexivity|].
  unfold add_info, bind, get_self. now destruct (strict self).
Qed.

End MainBlock.

(** C9, as the code has it.  The rule stores its info finding, and only in
    strict mode, exactly when no [If] node anywhere in the tree, at any
    depth, has as its test a comparison whose left operand is the name
    [__name__]; what [__name__] is compared with is not looked at. *)
Theorem main_block_rule (t : ast.Mod) (self : FastMCPValidator) :
  ((exists n, descendant n (ast.of_mod t) /\ is_main_block n = true) ->
   check_best_practices t self = Returned tt self)
  /\
  ((forall n, descendant n (ast.of_mod t) -> is_main_block n = false) ->
   check_best_practices t self
   = Returned tt
       (if strict self
        then set_issues (issues self ++ [main_block_finding])%list self
        else self)).
Proof.
  rewrite check_best_practices_run. split.
  - intros (n & Hn & Hmain).
    replace (existsb is_main_block (ast.walk (ast.of_mod t))) with true;
      [reflexivity|].
    symmetry. apply existsb_exists. exists n. split; [|exact Hmain].
    now apply walk_spec.
  - intros Hnone.
    replace (existsb is_main_block (ast.walk (ast.of_mod t))) with false.
    + now destruct (strict self).
    + symmetry. apply not_true_iff_false. intros H.
      apply existsb_exists in H as (n & Hn & Hmain).
      apply walk_spec in Hn. rewrite (Hnone n Hn) in Hmain. discriminate.
Qed.

Lemma main_block_rule_witness :
  check_best_practices nested_guard_file
    (init "server.py" true)
  = Returned tt (init "server.py" true)
  /\
  check_best_practices (ast.Module [])
    (init "server.py" true)
  = Returned tt
      (set_issues [main_block_finding] (init "server.py" true)).
Proof.
  split.
  - apply (main_block_rule nested_guard_file (init "server.py" true)).
    exists (ast.of_stmt (name_guard "__main__")). split; [|reflexivity].
    apply walk_spec. vm_compute. tauto.
  - apply (main_block_rule (ast.Module []) (init "server.py" true)).
    intros n Hn. apply walk_spec in Hn. vm_compute in Hn.
    destruct Hn as [<- | []]. reflexivity.
Defined.

(** C9 as worded fails: neither file has a top-level conditional testing
    [__name__ == "__main__"], yet the strict run stores no info finding for
    either, because of the guard inside [start] in the first and of the test
    against "worker" in the second. *)
Lemma entry_point_guard_counterexample :
  (has_entry_point_guard nested_guard_file = false /\
   check_best_practices nested_guard_file
     (init "server.py" true)
   = Returned tt (init "server.py" true))
  /\
  (has_entry_point_guard other_sentinel_file = false /\
   check_best_practices other_sentinel_file
     (init "server.py" true)
   = Returned tt (init "server.py" true)).
Proof. repeat split. Qed.

(** * The handler inventory *)

Section Inventory.

Context {env : Env}.
Variable u : ast.expr -> string.
Hypothesis Hu : forall e, ast_unparse e = inr (u e).
Variable s : bool.

Lemma count_snoc (p : ast.AST -> bool) (l : list ast.AST) (x : ast.AST) :
  count p (l ++ [x]) = count p l + (if p x then 1 else 0).
Proof.
  unfold count. rewrite filter_app, length_app. simpl.
  now destruct (p x).
Qed.

Lemma get_decorator_name_run (d : ast.expr) (self : FastMCPValidator) :
  get_decorator_name d self = Returned (decorator_name u d) self.
Proof.
  induction d; simpl; try reflexivity.
  - unfold bind. rewrite Hu. reflexivity.
  - exact IHd.
Qed.

Lemma check_decorators_visit_counts counts node :
  wp s (check_decorators_visit counts node)
    (fun counts' _ =>
       counts' =
       (fst (fst counts) + (if has_decorator u "mcp.tool" node then 1 else 0),
        snd (fst counts) + (if has_decorator u "mcp.resource" node then 1 else 0),
        snd counts + (if has_decorator u "mcp.prompt" node then 1 else 0))).
Proof.
  destruct counts as [[tool_count resource_count] prompt_count].
  unfold check_decorators_visit, check_tool_function, check_resource_function,
    check_prompt_function.
  destruct (is_FunctionDef node) eqn:Hnode.
  - destruct node as [| [] | | | | | | |]; try discriminate.
    unfold has_decorator.
    repeat (first [wp_step Hu | wp_loop]; cbn beta iota);
      repeat match goal with
             | H : mem _ _ = _ |- _ => rewrite H
             end; try exact I; simpl; now rewrite ?Nat.add_0_r.
  - replace (has_decorator u "mcp.tool" node) with false;
      [replace (has_decorator u "mcp.resource" node) with false;
       [replace (has_decorator u "mcp.prompt" node) with false|]|];
      try (destruct node as [| [] | | | | | | |]; simpl; try reflexivity; discriminate).
    destruct node as [| [] | | | | | | |]; try discriminate;
      apply wp_ret; simpl; now rewrite ?Nat.add_0_r.
Qed.

Lemma count_decorated_inventory t :
  wp s (count_decorated t)
    (fun counts _ => counts = inventory u (ast.walk (ast.of_mod t))).
Proof.
  unfold count_decorated.
  apply wp_for_each with (Inv := fun done counts _ => counts = inventory u done).
  - reflexivity.
  - intros done x rest counts w _ ->.
    eapply wp_conseq; [apply check_decorators_visit_counts|].
    intros counts' w' ->. unfold inventory. simpl. now rewrite !count_snoc.
  - auto.
Qed.

End Inventory.




(** * A check that raises *)

(** C4, as the code has it.  Nothing between the checks catches an
    exception: when the checks before [check] return and [check] raises [e],
    [validate] raises [e] and leaves the validator as [check] left it, so no
    finding is stored for the failure and no later check runs; [main] ends
    on the same exception, before [sys.exit]. *)
Theorem rule_failure_propagates `{env : Env} (file : string) (strict_flag : bool)
    (content : string) (t : ast.Mod)
    (before after : list (ast.Mod -> M unit)) (check : ast.Mod -> M unit)
    (e : Exception) (self1 self2 : FastMCPValidator) :
  path_exists file = inr true ->
  read_file file = inr content ->
  ast_parse content file = Parsed t ->
  all_checks = (before ++ check :: after)%list ->
  for_each before (fun _ c => c t) tt (set_tree t (init file strict_flag))
    = Returned tt self1 ->
  check t self1 = Raised e self2 ->
  validate (init file strict_flag) = Raised e self2 /\
  main file strict_flag = Raised e self2.
Proof.
  intros Hexists Hread Hparse Hsplit Hbefore Hraise.
  assert (Hrun : validate (init file strict_flag) = Raised e self2).
  { rewrite (@validate_parsed _ (init file strict_flag) content t) by assumption.
    unfold bind at 1. unfold run_checks. rewrite Hsplit, for_each_app.
    unfold bind at 1. rewrite Hbefore. simpl. unfold bind at 1.
    now rewrite Hraise. }
  split; [exact Hrun|]. unfold main, bind. now rewrite Hrun.
Qed.

Lemma rule_failure_propagates_witness :
  @validate limited_env (init "server.py" true)
  = Raised RecursionError (set_tree deep_file (init "server.py" true))
  /\
  @main limited_env "server.py" true
  = Raised RecursionError (set_tree deep_file (init "server.py" true)).
Proof.
  apply (@rule_failure_propagates
           limited_env "server.py" true ""
           deep_file
           [check_imports; check_server_init]
           [@check_type_hints limited_env; @check_async_patterns limited_env;
            @check_context_usage limited_env; check_best_practices]
           (@check_decorators limited_env) RecursionError
           (set_tree deep_file (init "server.py" true))
           (set_tree deep_file (init "server.py" true)));
    vm_compute; reflexivity.
Defined.

(** C4 as worded fails.  With a recursion limit of 1000 frames,
    [ast.unparse] raises on the decorator of [deep]; the third check raises,
    [validate] raises with it, and the validator holds no finding: neither
    an error naming the check, nor the info finding the last check stores
    when it is run on this tree. *)
Lemma rule_failure_counterexample :
  @check_decorators limited_env
    deep_file
    (set_tree deep_file (init "server.py" true))
  = Raised RecursionError
      (set_tree deep_file (init "server.py" true))
  /\
  @validate limited_env (init "server.py" true)
  = Raised RecursionError
      (set_tree deep_file (init "server.py" true))
  /\
  issues (set_tree deep_file (init "server.py" true)) = []
  /\
  check_best_practices deep_file
    (set_tree deep_file (init "server.py" true))
  = Returned tt
      (set_issues [main_block_finding]
         (set_tree deep_file (init "server.py" true))).
Proof. repeat split; vm_compute; reflexivity. Qed.

(** * Await in a synchronous handler *)

Lemma errors_app (w1 w2 : list ValidationIssue) :
  errors (w1 ++ w2) = (errors w1 ++ errors w2)%list.
Proof. apply filter_app. Qed.

Ltac errors_done :=
  cbv beta in *;
  repeat rewrite errors_app;
  repeat match goal with
         | H : errors _ = [] |- _ => rewrite H
         end;
  reflexivity.

(** Loops that store no error. *)
Ltac wp_loop_clean :=
  match goal with
  | |- wp _ (for_each _ _ _) _ =>
      apply wp_for_each with (Inv := fun _ _ w => errors w = []);
      [reflexivity | intros | intros]
  end.

Ltac wp_clean Hu := repeat (first [wp_step Hu | wp_loop_clean]; cbn beta iota).

Section Await.

Context {env : Env}.
Variable u : ast.expr -> string.
Hypothesis Hu : forall e, ast_unparse e = inr (u e).
Variable s : bool.

Lemma wp_ext {A} (m m' : M A) Q :
  (forall self, m self = m' self) -> wp s m' Q -> wp s m Q.
Proof.
  intros Hext (a & w & Hm & HQ). exists a, w. split; [|exact HQ].
  intros self Hs. rewrite Hext. now apply Hm.
Qed.

Lemma wp_for_each_one {A B} (body : A -> B -> M A) (x : B) (acc : A) Q :
  wp s (body acc x) Q -> wp s (for_each [x] body acc) Q.
Proof.
  intros H. simpl. apply wp_bind. eapply wp_conseq; [exact H|].
  intros a w HQ. apply wp_ret. now rewrite app_nil_r.
Qed.

(** The type-hint check stores warnings only. *)
Lemma check_type_hints_clean t :
  wp s (check_type_hints t) (fun _ w => errors w = []).
Proof.
  unfold check_type_hints, check_type_hints_visit.
  wp_clean Hu; try errors_done.
Qed.

Lemma check_best_practices_clean t :
  wp s (check_best_practices t) (fun _ w => errors w = []).
Proof.
  unfold check_best_practices, check_best_practices_visit.
  wp_clean Hu; try errors_done. destruct s; errors_done.
Qed.

Lemma existsb_snoc {A} (p : A -> bool) (l : list A) (x : A) :
  existsb p (l ++ [x]) = existsb p l || p x.
Proof. rewrite existsb_app. simpl. now rewrite orb_false_r. Qed.

Lemma existsb_false_In {A} (p : A -> bool) (l : list A) (x : A) :
  existsb p l = false -> List.In x l -> p x = false.
Proof.
  intros Hl Hx. apply not_true_iff_false. intros Hp.
  assert (existsb p l = true) by (apply existsb_exists; eauto). congruence.
Qed.

Lemma check_imports_clean t :
  existsb is_fastmcp_import (ast.walk (ast.of_mod t)) = true ->
  wp s (check_imports t) (fun _ w => errors w = []).
Proof.
  intros Himport. unfold check_imports. apply wp_bind.
  apply wp_for_each with
    (Inv := fun done has w => has = existsb is_fastmcp_import done /\ errors w = []).
  - now split.
  - intros done x rest has w _ [-> Hw]. rewrite existsb_snoc.
    unfold check_imports_visit.
    wp_clean Hu; (split; [|errors_done]); simpl;
      rewrite ?orb_false_r, ?orb_true_r; try reflexivity;
      repeat match goal with
             | H : (_ =? _) = _ |- _ => rewrite H
             end; rewrite ?orb_false_r, ?orb_true_r; reflexivity.
  - intros has w [-> Hw]. rewrite Himport. simpl. apply wp_ret. errors_done.
Qed.

Lemma check_server_init_clean t :
  existsb is_server_init (ast.walk (ast.of_mod t)) = true ->
  existsb is_unnamed_server_init (ast.walk (ast.of_mod t)) = false ->
  wp s (check_server_init t) (fun _ w => errors w = []).
Proof.
  intros Hinit Hnamed. unfold check_server_init. apply wp_bind.
  apply wp_for_each with
    (Inv := fun done has w => has = existsb is_server_init done /\ errors w = []).
  - now split.
  - intros done x rest has w Hwalk [-> Hw]. rewrite existsb_snoc.
    assert (Hx : is_unnamed_server_init x = false).
    { apply (existsb_false_In _ _ _ Hnamed). rewrite Hwalk.
      apply in_or_app. right. now left. }
    unfold check_server_init_visit.
    wp_clean Hu; (split; [|try errors_done]); simpl in *;
      rewrite ?orb_false_r, ?orb_true_r; try reflexivity;
      repeat match goal with
             | H : (_ =? _) = _ |- _ => rewrite H in *
             end; rewrite ?orb_false_r, ?orb_true_r; try reflexivity;
      try congruence.
  - intros has w [-> Hw]. rewrite Hinit. simpl. apply wp_ret. errors_done.
Qed.

Lemma wp_and_if {A} (m : M A) (P : Prop) (Q : A -> list ValidationIssue -> Prop) :
  wp s m (fun _ _ => True) -> (P -> wp s m Q) -> wp s m (fun a w => P -> Q a w).
Proof.
  intros (a & w & Hm & _) HP. exists a, w. split; [exact Hm|].
  intros p. destruct (HP p) as (a' & w' & Hm' & HQ).
  destruct (emits_inj Hm Hm') as [-> ->]. exact HQ.
Qed.

Lemma check_async_patterns_visit_total acc node :
  wp s (check_async_patterns_visit acc node) (fun _ _ => True).
Proof. unfold check_async_patterns_visit. wp_total Hu. Qed.

Section Handler.

Variables (name : string) (a : ast.arguments) (body : list ast.stmt)
  (decorator_list : list ast.expr) (returns : option ast.expr) (lineno : Z).

Let fn : ast.stmt := ast.FunctionDef name a body decorator_list returns lineno.

(** What the await check stores for a decorated handler that awaits. *)
Lemma check_async_patterns_visit_at :
  handler_decorated u decorator_list = true ->
  has_await (ast.of_stmt fn) = true ->
  wp s (check_async_patterns_visit tt (ast.of_stmt fn))
    (fun _ w => w = [await_finding name lineno]).
Proof.
  intros Hhandler Hawait. unfold check_async_patterns_visit, fn in *.
  apply wp_bind, (wp_decorators _ Hu). cbn beta.
  unfold handler_decorated in Hhandler. rewrite Hhandler. cbn [negb].
  rewrite Hawait. simpl. now apply wp_add_error.
Qed.

Lemma check_async_patterns_finds t :
  List.In (ast.of_stmt fn) (ast.walk (ast.of_mod t)) ->
  handler_decorated u decorator_list = true ->
  has_await (ast.of_stmt fn) = true ->
  wp s (check_async_patterns t)
    (fun _ w => List.In (await_finding name lineno) w).
Proof.
  intros Hin Hhandler Hawait. unfold check_async_patterns.
  apply wp_for_each with
    (Inv := fun done _ w =>
       List.In (ast.of_stmt fn) done -> List.In (await_finding name lineno) w).
  - intros [].
  - intros done x rest [] w _ HI.
    eapply wp_conseq.
    + apply wp_and_if with (P := x = ast.of_stmt fn).
      * apply check_async_patterns_visit_total.
      * intros ->. now apply check_async_patterns_visit_at.
    + intros [] w' Hpost Hx. apply in_or_app.
      apply in_app_or in Hx as [Hx | [Hx | []]]; [left; auto|].
      right. rewrite (Hpost Hx). now left.
  - intros acc w HI. now apply HI.
Qed.

Lemma check_async_patterns_exact t :
  filter is_FunctionDef (ast.walk (ast.of_mod t)) = [ast.of_stmt fn] ->
  handler_decorated u decorator_list = true ->
  has_await (ast.of_stmt fn) = true ->
  wp s (check_async_patterns t) (fun _ w => w = [await_finding name lineno]).
Proof.
  intros Honly Hhandler Hawait. unfold check_async_patterns.
  eapply wp_ext.
  - intros self. apply (for_each_filter is_FunctionDef).
    intros acc x Hx. now apply check_async_patterns_skips.
  - rewrite Honly. now apply wp_for_each_one, check_async_patterns_visit_at.
Qed.

Lemma check_resource_function_clean :
  existsb is_bare_resource_call decorator_list = false ->
  wp s (check_resource_function name decorator_list lineno)
    (fun _ w => errors w = []).
Proof.
  intros Huri. unfold check_resource_function.
  apply wp_for_each with (Inv := fun _ _ w => errors w = []);
    [reflexivity | | auto].
  intros done x rest acc w Hl Hw.
  assert (Hx : is_bare_resource_call x = false).
  { apply (existsb_false_In _ _ _ Huri). rewrite Hl.
    apply in_or_app. right. now left. }
  wp_clean Hu; try errors_done.
  simpl in Hx. destruct args; simpl in *.
  - rewrite andb_true_r in *. congruence.
  - rewrite andb_false_r in *. discriminate.
Qed.

Lemma check_decorators_visit_clean counts :
  existsb is_bare_resource_call decorator_list = false ->
  wp s (check_decorators_visit counts (ast.of_stmt fn)) (fun _ w => errors w = []).
Proof.
  intros Huri. destruct counts as [[tool_count resource_count] prompt_count].
  unfold check_decorators_visit, fn, check_tool_function, check_prompt_function.
  repeat (first
    [ match goal with
      | |- wp _ (check_resource_function _ _ _) _ =>
          eapply wp_conseq; [apply (check_resource_function_clean Huri) | intros]
      end
    | wp_step Hu ]; cbn beta iota); try errors_done.
Qed.

Lemma check_decorators_clean t :
  filter is_FunctionDef (ast.walk (ast.of_mod t)) = [ast.of_stmt fn] ->
  existsb is_bare_resource_call decorator_list = false ->
  wp s (check_decorators t) (fun _ w => errors w = []).
Proof.
  intros Honly Huri. unfold check_decorators. apply wp_bind.
  unfold count_decorated. eapply wp_ext.
  - intros self. apply (for_each_filter is_FunctionDef).
    intros acc x Hx. now apply check_decorators_skips.
  - rewrite Honly. apply wp_for_each_one.
    eapply wp_conseq; [apply (check_decorators_visit_clean _ Huri)|].
    intros [[tool_count resource_count] prompt_count] w Hw. cbn beta iota.
    wp_clean Hu; try errors_done. destruct s; errors_done.
Qed.

Lemma context_params_clean :
  forallb (fun p => implb (is_context_param p) (has_context_hint u p)) (ast.args a)
    = true ->
  wp s (for_each (ast.args a) context_param_visit (false, false))
    (fun flags w => w = [] /\ (fst flags = true -> snd flags = true)).
Proof.
  intros Htyped.
  apply wp_for_each with
    (Inv := fun _ flags w => w = [] /\ (fst flags = true -> snd flags = true));
    [split; [reflexivity | discriminate] | | auto].
  intros done p rest [has hint] w Hl [-> Hflags].
  assert (Hp : implb (is_context_param p) (has_context_hint u p) = true).
  { rewrite forallb_forall in Htyped. apply Htyped. rewrite Hl.
    apply in_or_app. right. now left. }
  unfold context_param_visit, is_context_param, has_context_hint in *.
  wp_clean Hu; simpl in *; (split; [reflexivity|]); auto;
    repeat match goal with
           | H : mem _ _ = _ |- _ => rewrite H in *
           | H : ast.annotation _ = _ |- _ => rewrite H in *
           | H : contains _ _ = _ |- _ => rewrite H in *
           end; simpl in *; congruence.
Qed.

Lemma check_context_usage_visit_clean :
  forallb (fun p => implb (is_context_param p) (has_context_hint u p)) (ast.args a)
    = true ->
  wp s (check_context_usage_visit tt (ast.of_stmt fn)) (fun _ w => errors w = []).
Proof.
  intros Htyped. unfold check_context_usage_visit, fn.
  apply wp_bind, (wp_decorators _ Hu). cbn beta.
  destruct (negb (existsb (startswith "mcp.") (map (decorator_name u) decorator_list)));
    [now apply wp_ret|].
  apply wp_bind. eapply wp_conseq; [apply (context_params_clean Htyped)|].
  intros [has hint] w [-> Hflags]. simpl in Hflags. cbn beta iota.
  destruct has; simpl.
  - rewrite (Hflags eq_refl). simpl. wp_clean Hu. reflexivity.
  - wp_clean Hu. reflexivity.
Qed.

Lemma check_context_usage_clean t :
  filter is_FunctionDef (ast.walk (ast.of_mod t)) = [ast.of_stmt fn] ->
  forallb (fun p => implb (is_context_param p) (has_context_hint u p)) (ast.args a)
    = true ->
  wp s (check_context_usage t) (fun _ w => errors w = []).
Proof.
  intros Honly Htyped. unfold check_context_usage. eapply wp_ext.
  - intros self. apply (for_each_filter is_FunctionDef).
    intros acc x Hx. now apply check_context_usage_skips.
  - rewrite Honly. now apply wp_for_each_one, check_context_usage_visit_clean.
Qed.

End Handler.

End Await.

Lemma wp_conj (s : bool) {A} (m : M A) (Q1 Q2 : A -> list ValidationIssue -> Prop) :
  wp s m Q1 -> wp s m Q2 -> wp s m (fun a w => Q1 a w /\ Q2 a w).
Proof.
  intros (a & w & Hm & H1) (a' & w' & Hm' & H2).
  destruct (emits_inj Hm Hm') as [<- <-]. exists a, w. auto.
Qed.

Lemma has_await_spec (node : ast.AST) :
  has_await node = true
  <-> exists value, descendant (ast.of_expr (ast.Await value)) node.
Proof.
  unfold has_await. rewrite existsb_exists. split.
  - intros (x & Hx & Hawait). apply walk_spec in Hx.
    destruct x as [| | [] | | | | | |]; try discriminate. eauto.
  - intros (value & Hd). exists (ast.of_expr (ast.Await value)).
    split; [now apply walk_spec | reflexivity].
Qed.

(** The await error in an environment that renders every expression. *)
Lemma await_error_rendered `{env : Env} (u : ast.expr -> string)
    (file : string) (strict_flag : bool) (content : string) (t : ast.Mod)
    (name : string) (a : ast.arguments) (body : list ast.stmt)
    (decorator_list : list ast.expr) (returns : option ast.expr) (lineno : Z) :
  let fn := ast.FunctionDef name a body decorator_list returns lineno in
  (forall e, ast_unparse e = inr (u e)) ->
  path_exists file = inr true ->
  read_file file = inr content ->
  ast_parse content file = Parsed t ->
  defines t fn ->
  handler_decorated u decorator_list = true ->
  (exists value, descendant (ast.of_expr (ast.Await value)) (ast.of_stmt fn)) ->
  exists self',
    validate (init file strict_flag) = Returned false self' /\
    main file strict_flag = Returned 1%Z self' /\
    List.In (await_finding name lineno) (issues self') /\
    (otherwise_sound u t fn ->
     errors (issues self') = [await_finding name lineno]).
Proof.
  intros fn Hu Hexists Hread Hparse Hdef Hhandler Hawait.
  apply has_await_spec in Hawait. apply walk_spec in Hdef.
  assert (Hrun : wp strict_flag (run_checks t)
            (fun _ w => List.In (await_finding name lineno) w /\
                        (otherwise_sound u t fn ->
                         errors w = [await_finding name lineno]))).
  { eapply wp_run_checks with
      (Q1 := fun _ w => otherwise_sound u t fn -> errors w = [])
      (Q2 := fun _ w => otherwise_sound u t fn -> errors w = [])
      (Q3 := fun _ w => otherwise_sound u t fn -> errors w = [])
      (Q4 := fun _ w => errors w = [])
      (Q5 := fun _ w => List.In (await_finding name lineno) w /\
                        (otherwise_sound u t fn -> w = [await_finding name lineno]))
      (Q6 := fun _ w => otherwise_sound u t fn -> errors w = [])
      (Q7 := fun _ w => errors w = []).
    - apply wp_and_if; [apply check_imports_total|].
      intros (Himport & _). now apply check_imports_clean.
    - apply wp_and_if; [apply check_server_init_total|].
      intros (_ & Hinit & Hnamed & _). now apply check_server_init_clean.
    - apply wp_and_if; [eapply check_decorators_total, Hu|].
      intros (_ & _ & _ & Honly & Huri & _).
      eapply check_decorators_clean; eassumption.
    - eapply check_type_hints_clean, Hu.
    - apply wp_conj.
      + eapply check_async_patterns_finds; eassumption.
      + apply wp_and_if; [eapply check_async_patterns_total, Hu|].
        intros (_ & _ & _ & Honly & _).
        eapply check_async_patterns_exact; eassumption.
    - apply wp_and_if; [eapply check_context_usage_total, Hu|].
      intros (_ & _ & _ & Honly & _ & Htyped).
      eapply check_context_usage_clean; eassumption.
    - apply check_best_practices_clean.
    - intros w1 w2 w3 w4 w5 w6 w7 H1 H2 H3 H4 [Hin H5] H6 H7. split.
      + do 4 (apply in_or_app; right). apply in_or_app. left. exact Hin.
      + intros Hsound. rewrite !errors_app.
        rewrite (H1 Hsound), (H2 Hsound), (H3 Hsound), H4, (H5 Hsound),
          (H6 Hsound), H7.
        reflexivity. }
  destruct Hrun as ([] & w & Hemits & Hin & Honly).
  pose proof (@validate_emits _ (init file strict_flag) content t w
                Hexists Hread Hparse Hemits) as Hvalidate.
  change (issues (init file strict_flag) ++ w)%list with w in Hvalidate.
  assert (Herror : existsb is_error w = true).
  { apply existsb_exists. exists (await_finding name lineno). now split. }
  rewrite Herror in Hvalidate. cbn [negb] in Hvalidate.
  eexists. split; [exact Hvalidate|]. split; [|split].
  - unfold main, bind. now rewrite Hvalidate.
  - exact Hin.
  - exact Honly.
Qed.

(** C6, as the code has it.  In a file that parses and whose expressions
    [ast.unparse] renders (as [u]), take a synchronous function definition
    with a decorator whose resolved name starts with "mcp." and with an
    [Await] node anywhere below it.  Then the run returns the verdict
    failure, [main] exits with 1, and the findings hold the error for that
    function, at its line and naming it.  When nothing else in the file can
    draw an error (Scenario C), this is the one error finding of the run.
    The prefix "mcp." is the code's test for a handler: a function
    registered on a server object of another name is not looked at. *)
Theorem await_without_async `{env : Env} (u : ast.expr -> string)
    (file : string) (strict_flag : bool) (content : string) (t : ast.Mod)
    (name : string) (a : ast.arguments) (body : list ast.stmt)
    (decorator_list : list ast.expr) (returns : option ast.expr) (lineno : Z) :
  let fn := ast.FunctionDef name a body decorator_list returns lineno in
  path_exists file = inr true ->
  read_file file = inr content ->
  ast_parse content file = Parsed t ->
  renders u t ->
  defines t fn ->
  handler_decorated u decorator_list = true ->
  (exists value, descendant (ast.of_expr (ast.Await value)) (ast.of_stmt fn)) ->
  exists self',
    validate (init file strict_flag) = Returned false self' /\
    main file strict_flag = Returned 1%Z self' /\
    List.In (await_finding name lineno) (issues self') /\
    (otherwise_sound u t fn ->
     errors (issues self') = [await_finding name lineno]).
Proof.
  intros fn Hexists Hread Hparse Ht Hdef Hhandler Hawait.
  rewrite (@validate_local env u t Ht (init file strict_flag) content)
    by assumption.
  rewrite (@main_local env u t Ht file strict_flag content) by assumption.
  apply (@await_error_rendered (rendering env u) u file strict_flag content t
           name a body decorator_list returns lineno);
    solve [assumption | intros e; reflexivity].
Qed.

Lemma await_without_async_witness :
  exists self',
    @validate (file_env 1000 (Parsed scenario_C)) (init "server.py" false)
      = Returned false self' /\
    @main (file_env 1000 (Parsed scenario_C)) "server.py" false
      = Returned 1%Z self' /\
    errors (issues self') = [await_finding "fetch" 6].
Proof.
  destruct (@await_without_async (file_env 1000 (Parsed scenario_C)) render
              "server.py" false "" scenario_C "fetch"
              (one_argument (ast.mk_arg "url" (Some str_type)))
              [docstring "Fetch a page.";
               ast.Return (Some (ast.Await
                 (ast.Call (dotted "client" "get") [ast.Name "url" ast.Load] [])))]
              [ast.Call (dotted "mcp" "tool") [] []] (Some str_type) 6%Z)
    as (self' & Hrun & Hexit & _ & Honly).
  - reflexivity.
  - reflexivity.
  - reflexivity.
  - apply file_env_renders. vm_compute. reflexivity.
  - apply walk_spec. vm_compute. tauto.
  - reflexivity.
  - eexists. apply walk_spec. vm_compute. tauto.
  - exists self'. repeat split; [exact Hrun | exact Hexit |].
    apply Honly. vm_compute. repeat split.
Defined.

(** C6 as worded fails in two ways.  The handler [fetch] registered as
    [@server.tool()] resolves to "server.tool", which holds the word "tool",
    and awaits in a plain [def]; yet no check looks at it: the run stores
    the warning that nothing is defined and no error, and [main] exits with
    0.  And with a recursion limit of 1000 frames, the handler [fetch] of
    Scenario C behind the deeply decorated [deep] is never reached: the
    third check raises and the run ends without a finding. *)
Lemma await_unreported_counterexample :
  (forall self,
     @get_decorator_name (total_env (Parsed served_await_file))
       (ast.Call (dotted "server" "tool") [] []) self
     = Returned "server.tool" self) /\
  contains "tool" "server.tool" = true /\
  has_await (ast.of_stmt fetch_served) = true /\
  @validate (total_env (Parsed served_await_file)) (init "server.py" false)
  = Returned true
      (set_issues [no_handlers_finding]
         (set_tree served_await_file (init "server.py" false))) /\
  @main (total_env (Parsed served_await_file)) "server.py" false
  = Returned 0%Z
      (set_issues [no_handlers_finding]
         (set_tree served_await_file (init "server.py" false))) /\
  has_await (ast.of_stmt fetch) = true /\
  @validate (file_env 1000 (Parsed deep_await_file)) (init "server.py" false)
  = Raised RecursionError (set_tree deep_await_file (init "server.py" false)) /\
  issues (set_tree deep_await_file (init "server.py" false)) = [].
Proof. repeat split; vm_compute; reflexivity. Qed.

(** * Asynchronous handlers on the sample files *)

(** C3. On the Scenario B file the run exits with 0, but it does store a
    finding, with or without the strict flag: the handler is an
    [AsyncFunctionDef] node, the inventory loop matches [FunctionDef] nodes
    only, so its three counts stay at zero and the summary is the warning
    that nothing is defined.  With [def] in place of [async def] the tool is
    counted and the plain run stores nothing. *)
Theorem scenario_B_handler_not_counted :
  @count_decorated (total_env (Parsed scenario_B)) scenario_B (init "server.py" false)
  = Returned (0, 0, 0) (init "server.py" false)
  /\
  @main (total_env (Parsed scenario_B)) "server.py" false
  = Returned 0%Z
      (set_issues [no_handlers_finding] (set_tree scenario_B (init "server.py" false)))
  /\
  @main (total_env (Parsed scenario_B)) "server.py" true
  = Returned 0%Z
      (set_issues [no_handlers_finding] (set_tree scenario_B (init "server.py" true)))
  /\
  @count_decorated (total_env (Parsed scenario_B_sync)) scenario_B_sync
    (init "server.py" false)
  = Returned (1, 0, 0) (init "server.py" false)
  /\
  @main (total_env (Parsed scenario_B_sync)) "server.py" false
  = Returned 0%Z (set_tree scenario_B_sync (init "server.py" false)).
Proof. repeat split; vm_compute; reflexivity. Qed.

(** C8. An asynchronous handler whose [ctx] parameter has no annotation
    draws no finding from the context check, and the run stores no error at
    all; the same handler written with [def] draws both the error for the
    missing type hint and the warning for not being asynchronous. *)
Theorem async_context_parameter_unchecked :
  @check_context_usage (total_env (Parsed async_context_file)) async_context_file
    (init "server.py" true)
  = Returned tt (init "server.py" true)
  /\
  @main (total_env (Parsed async_context_file)) "server.py" true
  = Returned 0%Z
      (set_issues [no_handlers_finding]
         (set_tree async_context_file (init "server.py" true)))
  /\
  @check_context_usage (total_env (Parsed sync_context_file)) sync_context_file
    (init "server.py" true)
  = Returned tt
      (set_issues [context_hint_finding "report" 6; context_async_finding "report" 6]
         (init "server.py" true)).
Proof. repeat split; vm_compute; reflexivity. Qed.

(** * What each check stores *)

Lemma flat_map_snoc {A B} (f : A -> list B) (l : list A) (x : A) :
  flat_map f (l ++ [x]) = (flat_map f l ++ f x)%list.
Proof. rewrite flat_map_app. simpl. now rewrite app_nil_r. Qed.

Lemma flat_map_if {A B} (p : A -> bool) (g : A -> B) (l : list A) :
  flat_map (fun x => if p x then [g x] else []) l = map g (filter p l).
Proof.
  induction l as [|x l IH]; simpl; [reflexivity|].
  destruct (p x); simpl; now rewrite IH.
Qed.

Lemma wp_run (self : FastMCPValidator) {A} (m : M A)
    (Q : A -> list ValidationIssue -> Prop) :
  wp (strict self) m Q ->
  exists a w, m self = Returned a (set_issues (issues self ++ w)%list self) /\ Q a w.
Proof. intros (a & w & Hm & HQ). exists a, w. split; [now apply Hm | exact HQ]. Qed.

(** A loop whose body stores [out x] and updates the loop variables by
    [step]. *)
Lemma wp_for_each_flat (s : bool) {A B} (body : A -> B -> M A)
    (step : A -> B -> A) (out : B -> list ValidationIssue) (l : list B) (acc0 : A) :
  (forall acc x, List.In x l ->
     wp s (body acc x) (fun acc' w => acc' = step acc x /\ w = out x)) ->
  wp s (for_each l body acc0)
    (fun acc w => acc = fold_left step l acc0 /\ w = flat_map out l).
Proof.
  intros Hbody.
  apply wp_for_each with
    (Inv := fun done acc w => acc = fold_left step done acc0 /\ w = flat_map out done).
  - now split.
  - intros done x rest acc w Hl [-> ->].
    eapply wp_conseq.
    + apply Hbody. rewrite Hl. apply in_or_app. right. now left.
    + intros acc' w' [-> ->]. rewrite fold_left_app, flat_map_snoc. now split.
  - auto.
Qed.

Lemma fold_left_orb {B} (p : B -> bool) (l : list B) (acc : bool) :
  fold_left (fun has x => p x || has) l acc = acc || existsb p l.
Proof.
  revert acc. induction l as [|x l IH]; intros acc; simpl.
  - now rewrite orb_false_r.
  - rewrite IH. destruct (p x), acc; reflexivity.
Qed.

Lemma fold_left_unit {B} (l : list B) (acc : unit) :
  fold_left (fun (_ : unit) (_ : B) => tt) l acc = tt.
Proof. destruct (fold_left _ l acc). reflexivity. Qed.

Lemma existsb_descendant (p : ast.AST -> bool) (t : ast.AST) :
  existsb p (ast.walk t) = true <-> exists n, descendant n t /\ p n = true.
Proof.
  rewrite existsb_exists. split; intros (n & Hn & Hp); exists n;
    (split; [now apply walk_spec | exact Hp]).
Qed.

Lemma existsb_no_descendant (p : ast.AST -> bool) (t : ast.AST) :
  existsb p (ast.walk t) = false <-> forall n, descendant n t -> p n = false.
Proof.
  split.
  - intros H n Hn. apply (existsb_false_In _ _ _ H). now apply walk_spec.
  - intros H. apply not_true_iff_false. intros Ht.
    apply existsb_descendant in Ht as (n & Hn & Hp). rewrite (H n Hn) in Hp.
    discriminate.
Qed.

Section ImportsAndInit.

Variable s : bool.

Lemma check_imports_visit_findings has node :
  wp s (check_imports_visit has node)
    (fun has' w => has' = is_fastmcp_import node || has /\ w = import_findings node).
Proof.
  unfold check_imports_visit, import_findings, is_fastmcp_import.
  repeat (wp_step I; cbn beta iota);
    repeat match goal with
           | H : (_ =? _) = _ |- _ => rewrite H
           | H : negb _ = _ |- _ => rewrite H
           end; simpl; auto.
Qed.

Lemma check_imports_findings t :
  wp s (check_imports t)
    (fun _ w =>
       w = (flat_map import_findings (ast.walk (ast.of_mod t))
              ++ if existsb is_fastmcp_import (ast.walk (ast.of_mod t))
                 then [] else [missing_import_finding])%list).
Proof.
  unfold check_imports. apply wp_bind.
  eapply wp_conseq.
  - apply wp_for_each_flat with
      (step := fun has x => is_fastmcp_import x || has) (out := import_findings).
    intros. apply check_imports_visit_findings.
  - intros has w [-> ->]. cbn beta. rewrite fold_left_orb. simpl.
    destruct (existsb is_fastmcp_import _); simpl.
    + apply wp_ret. reflexivity.
    + now apply wp_add_error.
Qed.

Lemma check_server_init_visit_findings has node :
  wp s (check_server_init_visit has node)
    (fun has' w => has' = is_server_init node || has /\ w = init_findings node).
Proof.
  unfold check_server_init_visit, init_findings, is_server_init.
  repeat (wp_step I; cbn beta iota);
    repeat match goal with
           | H : (_ =? _) = _ |- _ => rewrite H
           end; simpl; auto; try discriminate;
    destruct args; simpl in *; try discriminate; auto.
Qed.

Lemma check_server_init_findings t :
  wp s (check_server_init t)
    (fun _ w =>
       w = (flat_map init_findings (ast.walk (ast.of_mod t))
              ++ if existsb is_server_init (ast.walk (ast.of_mod t))
                 then [] else [missing_init_finding])%list).
Proof.
  unfold check_server_init. apply wp_bind.
  eapply wp_conseq.
  - apply wp_for_each_flat with
      (step := fun has x => is_server_init x || has) (out := init_findings).
    intros. apply check_server_init_visit_findings.
  - intros has w [-> ->]. cbn beta. rewrite fold_left_orb. simpl.
    destruct (existsb is_server_init _); simpl.
    + apply wp_ret. reflexivity.
    + now apply wp_add_error.
Qed.

End ImportsAndInit.

Lemma import_findings_none (l : list ast.AST) :
  existsb is_fastmcp_import l = false -> flat_map import_findings l = [].
Proof.
  induction l as [|x l IH]; simpl; [reflexivity|].
  intros H. apply orb_false_elim in H as [Hx Hl]. rewrite (IH Hl), app_nil_r.
  destruct x as [| [] | | | | | | |]; try reflexivity.
  simpl in *. destruct module; [|reflexivity]. now rewrite Hx.
Qed.

Lemma import_findings_warnings (l : list ast.AST) :
  errors (flat_map import_findings l) = [].
Proof.
  induction l as [|x l IH]; simpl; [reflexivity|].
  rewrite errors_app, IH, app_nil_r.
  destruct x as [| [] | | | | | | |]; try reflexivity.
  simpl. destruct module; [|reflexivity].
  now destruct ((s =? "fastmcp") && negb (mem "FastMCP" (map ast.name names))).
Qed.

Lemma init_findings_none (l : list ast.AST) :
  existsb is_unnamed_server_init l = false -> flat_map init_findings l = [].
Proof.
  induction l as [|x l IH]; simpl; [reflexivity|].
  intros H. apply orb_false_elim in H as [Hx Hl]. rewrite (IH Hl), app_nil_r.
  destruct x as [| [] | | | | | | |]; try reflexivity.
  simpl in *. destruct value; try reflexivity. destruct value; try reflexivity.
  destruct args; [|reflexivity]. now rewrite Hx.
Qed.

Lemma unnamed_is_init (l : list ast.AST) :
  existsb is_server_init l = false -> existsb is_unnamed_server_init l = false.
Proof.
  induction l as [|x l IH]; simpl; [reflexivity|].
  intros H. apply orb_false_elim in H as [Hx Hl]. rewrite (IH Hl), orb_false_r.
  destruct x as [| [] | | | | | | |]; try reflexivity.
  simpl in *. destruct value; try reflexivity. destruct value; try reflexivity.
  now destruct args.
Qed.

Lemma init_findings_count (l : list ast.AST) :
  List.length (flat_map init_findings l) = count is_unnamed_server_init l.
Proof.
  unfold count. induction l as [|x l IH]; simpl; [reflexivity|].
  rewrite length_app, IH.
  destruct x as [| [] | | | | | | |]; try reflexivity.
  simpl. destruct value; try reflexivity. destruct value; try reflexivity.
  destruct args; [|reflexivity]. now destruct (id =? "FastMCP").
Qed.

(** X1. [check_imports] looks for [from fastmcp import ...] at any depth of
    the tree.  Where there is none (a plain [import fastmcp] is none) it
    stores the error for the missing import and nothing else.  Where there
    is one it stores no error: only, in walk order, one warning for each
    such statement that does not import the name [FastMCP]. *)
Theorem import_check (t : ast.Mod) (self : FastMCPValidator) :
  ((forall n, descendant n (ast.of_mod t) -> is_fastmcp_import n = false) ->
   check_imports t self
   = Returned tt (set_issues (issues self ++ [missing_import_finding])%list self))
  /\
  ((exists n, descendant n (ast.of_mod t) /\ is_fastmcp_import n = true) ->
   check_imports t self
   = Returned tt
       (set_issues
          (issues self ++ flat_map import_findings (ast.walk (ast.of_mod t)))%list
          self) /\
   errors (flat_map import_findings (ast.walk (ast.of_mod t))) = []).
Proof.
  destruct (wp_run self (check_imports_findings (strict self) t))
    as ([] & w & Hrun & ->).
  rewrite Hrun. split.
  - intros Hnone. apply existsb_no_descendant in Hnone.
    now rewrite Hnone, (import_findings_none _ Hnone).
  - intros Hsome. apply existsb_descendant in Hsome. rewrite Hsome, app_nil_r.
    split; [reflexivity | apply import_findings_warnings].
Qed.

Lemma import_check_witness :
  check_imports qualified_file (init "server.py" false)
  = Returned tt (set_issues [missing_import_finding] (init "server.py" false))
  /\
  check_imports unnamed_file (init "server.py" false)
  = Returned tt
      (set_issues [class_not_imported_finding 1] (init "server.py" false)).
Proof.
  split.
  - apply (import_check qualified_file (init "server.py" false)).
    apply existsb_no_descendant. vm_compute. reflexivity.
  - apply (import_check unnamed_file (init "server.py" false)).
    apply existsb_descendant. vm_compute. reflexivity.
Defined.

(** X2. [check_server_init] looks for an assignment whose value is a call
    of the bare name [FastMCP], at any depth.  Where there is none (a call
    of [fastmcp.FastMCP] is none) it stores the error for the missing
    initialization and nothing else.  Where there is one it stores, in walk
    order, one error for each such call without a positional argument, and
    nothing when every call has one. *)
Theorem server_init_check (t : ast.Mod) (self : FastMCPValidator) :
  ((forall n, descendant n (ast.of_mod t) -> is_server_init n = false) ->
   check_server_init t self
   = Returned tt (set_issues (issues self ++ [missing_init_finding])%list self))
  /\
  ((exists n, descendant n (ast.of_mod t) /\ is_server_init n = true) ->
   check_server_init t self
   = Returned tt
       (set_issues
          (issues self ++ flat_map init_findings (ast.walk (ast.of_mod t)))%list
          self) /\
   List.length (flat_map init_findings (ast.walk (ast.of_mod t)))
   = count is_unnamed_server_init (ast.walk (ast.of_mod t)) /\
   ((forall n, descendant n (ast.of_mod t) -> is_unnamed_server_init n = false) ->
    check_server_init t self = Returned tt self)).
Proof.
  destruct (wp_run self (check_server_init_findings (strict self) t))
    as ([] & w & Hrun & ->).
  rewrite Hrun. split.
  - intros Hnone. apply existsb_no_descendant in Hnone.
    now rewrite Hnone, (init_findings_none _ (unnamed_is_init _ Hnone)).
  - intros Hsome. apply existsb_descendant in Hsome. rewrite Hsome, app_nil_r.
    split; [reflexivity|]. split; [apply init_findings_count|].
    intros Hnamed. apply existsb_no_descendant in Hnamed.
    now rewrite (init_findings_none _ Hnamed), set_issues_same.
Qed.

Lemma server_init_check_witness :
  check_server_init qualified_file (init "server.py" false)
  = Returned tt (set_issues [missing_init_finding] (init "server.py" false))
  /\
  check_server_init unnamed_file (init "server.py" false)
  = Returned tt (set_issues [unnamed_init_finding 3] (init "server.py" false))
  /\
  check_server_init scenario_C (init "server.py" false)
  = Returned tt (init "server.py" false).
Proof.
  split; [|split].
  - apply (server_init_check qualified_file (init "server.py" false)).
    apply existsb_no_descendant. vm_compute. reflexivity.
  - apply (server_init_check unnamed_file (init "server.py" false)).
    apply existsb_descendant. vm_compute. reflexivity.
  - apply (server_init_check scenario_C (init "server.py" false)).
    + apply existsb_descendant. vm_compute. reflexivity.
    + apply existsb_no_descendant. vm_compute. reflexivity.
Defined.

Section HandlerFindings.

Context {env : Env}.
Variable u : ast.expr -> string.
Hypothesis Hu : forall e, ast_unparse e = inr (u e).
Variable s : bool.

Lemma check_type_hints_visit_findings acc node :
  wp s (check_type_hints_visit acc node)
    (fun acc' w => acc' = tt /\ w = type_hint_findings u node).
Proof.
  destruct acc. unfold check_type_hints_visit, type_hint_findings.
  destruct node as [| [] | | | | | | |]; try (apply wp_ret; now split).
  destruct decorator_list as [|d decorators]; [apply wp_ret; now split|].
  apply wp_bind, (wp_decorators _ Hu). cbn beta.
  unfold handler_decorated.
  destruct (existsb (startswith "mcp.") (map (decorator_name u) (d :: decorators)));
    cbn [negb]; [|apply wp_ret; now split].
  apply wp_bind. eapply wp_conseq.
  - apply wp_for_each_flat with
      (step := fun (_ : unit) (_ : ast.arg) => tt)
      (out := fun p => if lacks_hint p then [param_hint_finding name lineno p] else []).
    intros [] p _. unfold lacks_hint.
    repeat (wp_step Hu; cbn beta iota);
      repeat match goal with
             | H : (_ =? _) = _ |- _ => rewrite H
             | H : ast.annotation _ = _ |- _ => rewrite H
             end; simpl; auto.
  - intros [] w [_ ->]. cbn beta. rewrite flat_map_if.
    destruct returns.
    + apply wp_ret. split; [reflexivity|]. now rewrite !app_nil_r.
    + apply wp_add_warning. split; [reflexivity|]. now rewrite app_nil_l.
Qed.

Lemma check_type_hints_findings t :
  wp s (check_type_hints t)
    (fun _ w => w = flat_map (type_hint_findings u) (ast.walk (ast.of_mod t))).
Proof.
  unfold check_type_hints. eapply wp_conseq.
  - apply wp_for_each_flat with
      (step := fun (_ : unit) (_ : ast.AST) => tt) (out := type_hint_findings u).
    intros. apply check_type_hints_visit_findings.
  - now intros [] w [_ ->].
Qed.

Lemma check_async_patterns_visit_findings acc node :
  wp s (check_async_patterns_visit acc node)
    (fun acc' w => acc' = tt /\ w = await_findings u node).
Proof.
  destruct acc. unfold check_async_patterns_visit, await_findings.
  destruct node as [| [] | | | | | | |]; try (apply wp_ret; now split).
  apply wp_bind, (wp_decorators _ Hu). cbn beta.
  unfold handler_decorated.
  destruct (existsb (startswith "mcp.") (map (decorator_name u) decorator_list));
    cbn [negb andb]; [|apply wp_ret; now split].
  destruct (has_await _); simpl.
  - apply wp_add_error. now split.
  - apply wp_ret. now split.
Qed.

Lemma check_async_patterns_findings t :
  wp s (check_async_patterns t)
    (fun _ w => w = flat_map (await_findings u) (ast.walk (ast.of_mod t))).
Proof.
  unfold check_async_patterns. eapply wp_conseq.
  - apply wp_for_each_flat with
      (step := fun (_ : unit) (_ : ast.AST) => tt) (out := await_findings u).
    intros. apply check_async_patterns_visit_findings.
  - now intros [] w [_ ->].
Qed.

Lemma context_param_visit_flags flags p :
  wp s (context_param_visit flags p)
    (fun flags' w =>
       flags' = (fst flags || is_context_param p,
                 snd flags || (is_context_param p && has_context_hint u p))
       /\ w = []).
Proof.
  destruct flags as [has hint].
  unfold context_param_visit, is_context_param, has_context_hint.
  repeat (wp_step Hu; cbn beta iota);
    repeat match goal with
           | H : mem _ _ = _ |- _ => rewrite H
           | H : contains _ _ = _ |- _ => rewrite H
           end; simpl; rewrite ?orb_true_r, ?orb_false_r; auto.
Qed.

Lemma fold_left_flags (f g : ast.arg -> bool) (l : list ast.arg) (flags : bool * bool) :
  fold_left (fun fl p => (fst fl || f p, snd fl || g p)) l flags
  = (fst flags || existsb f l, snd flags || existsb g l).
Proof.
  revert flags. induction l as [|p l IH]; intros [a b]; simpl.
  - now rewrite !orb_false_r.
  - rewrite IH. simpl. now rewrite !orb_assoc.
Qed.

Lemma check_context_usage_visit_findings acc node :
  wp s (check_context_usage_visit acc node)
    (fun acc' w => acc' = tt /\ w = context_findings u node).
Proof.
  destruct acc. unfold check_context_usage_visit, context_findings.
  destruct node as [| [] | | | | | | |]; try (apply wp_ret; now split).
  apply wp_bind, (wp_decorators _ Hu). cbn beta.
  unfold handler_decorated.
  destruct (existsb (startswith "mcp.") (map (decorator_name u) decorator_list));
    cbn [negb andb]; [|apply wp_ret; now split].
  apply wp_bind. eapply wp_conseq.
  - apply wp_for_each_flat with
      (step := fun fl p =>
         (fst fl || is_context_param p,
          snd fl || (is_context_param p && has_context_hint u p)))
      (out := fun _ : ast.arg => @nil ValidationIssue).
    intros. apply context_param_visit_flags.
  - intros flags w [-> ->]. rewrite fold_left_flags. simpl.
    replace (flat_map (fun _ : ast.arg => @nil ValidationIssue) (ast.args args))
      with (@nil ValidationIssue) by (induction (ast.args args); auto).
    destruct (existsb is_context_param (ast.args args)); simpl.
    + destruct (existsb _ (ast.args args)); simpl;
        repeat (wp_step Hu; cbn beta iota); try discriminate; now split.
    + repeat (wp_step Hu; cbn beta iota); try discriminate; now split.
Qed.

Lemma check_context_usage_findings t :
  wp s (check_context_usage t)
    (fun _ w => w = flat_map (context_findings u) (ast.walk (ast.of_mod t))).
Proof.
  unfold check_context_usage. eapply wp_conseq.
  - apply wp_for_each_flat with
      (step := fun (_ : unit) (_ : ast.AST) => tt) (out := context_findings u).
    intros. apply check_context_usage_visit_findings.
  - now intros [] w [_ ->].
Qed.

End HandlerFindings.

Section Resource.

Variable s : bool.

Lemma check_resource_function_findings name decorator_list lineno :
  wp s (check_resource_function name decorator_list lineno)
    (fun _ w =>
       w = map (fun _ => missing_uri_finding name lineno)
             (filter is_bare_resource_call decorator_list)).
Proof.
  unfold check_resource_function. eapply wp_conseq.
  - apply wp_for_each_flat with
      (step := fun (_ : unit) (_ : ast.expr) => tt)
      (out := fun d => if is_bare_resource_call d
                       then [missing_uri_finding name lineno] else []).
    intros [] d _. unfold is_bare_resource_call.
    repeat (wp_step I; cbn beta iota); try (now split);
      match goal with
      | |- context [match ?a with [] => _ | _ :: _ => _ end] => destruct a
      end; simpl in *; rewrite ?andb_true_r, ?andb_false_r in *;
      repeat match goal with
             | H : (_ =? _) = _ |- _ => rewrite H
             end; try discriminate; now split.
  - intros [] w [_ ->]. now rewrite flat_map_if.
Qed.

End Resource.

(** X3. [check_type_hints] stores, for every synchronous function
    definition with a decorator name starting with "mcp.", in walk order,
    one warning for each parameter of [args.args] other than [self] that
    has no annotation, then one warning when the return annotation is
    missing; for every other node it stores nothing.  All its findings are
    warnings, so this check never turns the verdict. *)
Theorem type_hint_check `{env : Env} (u : ast.expr -> string) (t : ast.Mod)
    (self : FastMCPValidator) :
  (forall e, ast_unparse e = inr (u e)) ->
  check_type_hints t self
  = Returned tt
      (set_issues
         (issues self ++ flat_map (type_hint_findings u) (ast.walk (ast.of_mod t)))%list
         self) /\
  Forall (fun i => severity i = "warning")
    (flat_map (type_hint_findings u) (ast.walk (ast.of_mod t))).
Proof.
  intros Hu.
  destruct (wp_run self (@check_type_hints_findings _ u Hu (strict self) t))
    as ([] & w & Hrun & ->).
  split; [exact Hrun|].
  apply Forall_flat_map, Forall_forall. intros node _.
  unfold type_hint_findings.
  destruct node as [| [] | | | | | | |]; try constructor.
  destruct (handler_decorated u decorator_list); [|constructor].
  apply Forall_app. split.
  - apply Forall_map, Forall_forall. reflexivity.
  - destruct returns; repeat constructor.
Qed.

Lemma type_hint_check_witness :
  @check_type_hints (total_env (Parsed lookup_file)) lookup_file (init "server.py" false)
  = Returned tt
      (set_issues
         [param_hint_finding "lookup" 6 (ast.mk_arg "key" None);
          param_hint_finding "lookup" 6 (ast.mk_arg "context" None);
          return_hint_finding "lookup" 6]
         (init "server.py" false)).
Proof.
  apply (@type_hint_check (total_env (Parsed lookup_file)) render lookup_file
           (init "server.py" false)).
  intros e. reflexivity.
Defined.

(** X4. [check_async_patterns] stores exactly one error for each
    synchronous function definition that has a decorator name starting with
    "mcp." and an [Await] node below it, in walk order, and nothing for any
    other node. *)
Theorem await_check `{env : Env} (u : ast.expr -> string) (t : ast.Mod)
    (self : FastMCPValidator) :
  (forall e, ast_unparse e = inr (u e)) ->
  check_async_patterns t self
  = Returned tt
      (set_issues
         (issues self ++ flat_map (await_findings u) (ast.walk (ast.of_mod t)))%list
         self) /\
  List.length (flat_map (await_findings u) (ast.walk (ast.of_mod t)))
  = count (fun node =>
             match node with
             | ast.of_stmt (ast.FunctionDef _ _ _ decorator_list _ _) =>
                 handler_decorated u decorator_list && has_await node
             | _ => false
             end)
      (ast.walk (ast.of_mod t)).
Proof.
  intros Hu.
  destruct (wp_run self (@check_async_patterns_findings _ u Hu (strict self) t))
    as ([] & w & Hrun & ->).
  split; [exact Hrun|]. clear Hrun.
  unfold count. induction (ast.walk (ast.of_mod t)) as [|node l IH];
    simpl; [reflexivity|].
  rewrite length_app, IH. unfold await_findings.
  destruct node as [| fn | | | | | | |]; try reflexivity.
  destruct fn; try reflexivity.
  destruct (handler_decorated u decorator_list && has_await _); reflexivity.
Qed.

Lemma await_check_witness :
  @check_async_patterns (total_env (Parsed lookup_file)) lookup_file
    (init "server.py" false)
  = Returned tt (set_issues [await_finding "lookup" 6] (init "server.py" false)).
Proof.
  apply (@await_check (total_env (Parsed lookup_file)) render lookup_file
           (init "server.py" false)).
  intros e. reflexivity.
Defined.

(** X5. [check_context_usage] looks at the parameters of [args.args] of
    every synchronous function definition with a decorator name starting
    with "mcp.".  When one of them is named [ctx] or [context] it always
    stores the warning that the function is not asynchronous, preceded by
    the error for the missing type hint unless some parameter so named has
    an annotation whose rendered text contains "Context": one annotated
    context parameter silences the error for all of them.  Keyword-only and
    positional-only parameters are not looked at. *)
Theorem context_check `{env : Env} (u : ast.expr -> string) (t : ast.Mod)
    (self : FastMCPValidator) :
  (forall e, ast_unparse e = inr (u e)) ->
  check_context_usage t self
  = Returned tt
      (set_issues
         (issues self ++ flat_map (context_findings u) (ast.walk (ast.of_mod t)))%list
         self) /\
  (forall name a body decorator_list returns lineno p,
     handler_decorated u decorator_list = true ->
     List.In p (ast.args a) ->
     is_context_param p = true -> has_context_hint u p = true ->
     context_findings u
       (ast.of_stmt (ast.FunctionDef name a body decorator_list returns lineno))
     = [context_async_finding name lineno]).
Proof.
  intros Hu. split.
  - destruct (wp_run self (@check_context_usage_findings _ u Hu (strict self) t))
      as ([] & w & Hrun & ->).
    exact Hrun.
  - intros name a body decorator_list returns lineno p Hdec Hin Hctx Hhint.
    unfold context_findings. rewrite Hdec.
    assert (H1 : existsb is_context_param (ast.args a) = true)
      by (apply existsb_exists; eauto).
    assert (H2 : existsb (fun p => is_context_param p && has_context_hint u p)
                   (ast.args a) = true).
    { apply existsb_exists. exists p. split; [assumption|].
      now rewrite Hctx, Hhint. }
    now rewrite H1, H2.
Qed.

Lemma context_check_witness :
  @check_context_usage (total_env (Parsed lookup_file)) lookup_file
    (init "server.py" false)
  = Returned tt (set_issues [context_async_finding "lookup" 6] (init "server.py" false))
  /\ context_findings render (ast.of_stmt lookup) = [context_async_finding "lookup" 6].
Proof.
  destruct (@context_check (total_env (Parsed lookup_file)) render lookup_file
              (init "server.py" false) (fun e => eq_refl)) as [Hrun Hone].
  split.
  - exact Hrun.
  - apply (Hone "lookup" _ _ _ _ 6%Z
             (ast.mk_arg "ctx" (Some (ast.Name "Context" ast.Load))));
      [reflexivity | simpl; tauto | reflexivity | reflexivity].
Defined.

(** X6. [check_resource_function] stores one error for each decorator of
    the function that is a call of some [x.resource] without a positional
    argument, whatever [x] is and whatever keyword arguments the call has;
    a decorator that is not a call, such as a bare [@mcp.resource], draws
    nothing. *)
Theorem resource_uri_check (name : string) (decorator_list : list ast.expr)
    (lineno : Z) (self : FastMCPValidator) :
  check_resource_function name decorator_list lineno self
  = Returned tt
      (set_issues
         (issues self
            ++ map (fun _ => missing_uri_finding name lineno)
                 (filter is_bare_resource_call decorator_list))%list
         self).
Proof.
  destruct (wp_run self
              (check_resource_function_findings (strict self) name decorator_list
                 lineno))
    as ([] & w & Hrun & ->).
  exact Hrun.
Qed.

(** * Findings are only ever appended *)

Section AppendOnly.

Context {env : Env}.

Lemma extends_refl self : extends self self.
Proof.
  repeat split. exists []. split; [now rewrite app_nil_r | constructor].
Qed.

Lemma extends_trans self1 self2 self3 :
  extends self1 self2 -> extends self2 self3 -> extends self1 self3.
Proof.
  intros (Hf & Hs & w & Hw & HF) (Hf' & Hs' & w' & Hw' & HF').
  split; [congruence|]. split; [congruence|].
  exists (w ++ w')%list. split.
  - now rewrite Hw', Hw, app_assoc.
  - apply Forall_app. split; [exact HF|].
    rewrite Hs in HF'. exact HF'.
Qed.

Lemma ao_ret {A} (a : A) : append_only (ret a).
Proof. intros self. apply extends_refl. Qed.

Lemma ao_raise {A} (e : Exception) : append_only (@raise A e).
Proof. intros self. apply extends_refl. Qed.

Lemma ao_lift {A} (r : Exception + A) : append_only (lift r).
Proof. destruct r; [apply ao_raise | apply ao_ret]. Qed.

Lemma ao_bind {A B} (m : M A) (k : A -> M B) :
  append_only m -> (forall a, append_only (k a)) -> append_only (bind m k).
Proof.
  intros Hm Hk self. specialize (Hm self). unfold bind.
  destruct (m self) as [a self1 | e self1]; simpl in *; [|exact Hm].
  eapply extends_trans; [exact Hm | apply Hk].
Qed.

Lemma ao_when (b : bool) (m : M unit) : append_only m -> append_only (when b m).
Proof. destruct b; simpl; [auto | intros _; apply ao_ret]. Qed.

Lemma ao_append_issue (i : ValidationIssue) :
  valid_severity i = true -> is_info i = false -> append_only (append_issue i).
Proof.
  intros Hv Hi self. simpl. repeat split. exists [i]. split; [reflexivity|].
  repeat constructor; [exact Hv | congruence].
Qed.

Lemma ao_add_error l msg sg : append_only (add_error l msg sg).
Proof. now apply ao_append_issue. Qed.

Lemma ao_add_warning l msg sg : append_only (add_warning l msg sg).
Proof. now apply ao_append_issue. Qed.

Lemma ao_add_info l msg sg : append_only (add_info l msg sg).
Proof.
  intros self. unfold add_info, bind, get_self, when.
  destruct (strict self) eqn:Hs; simpl; [|apply extends_refl].
  repeat split. eexists. split; [reflexivity|].
  repeat constructor. simpl. auto.
Qed.

Lemma ao_for_each {A B} (body : A -> B -> M A) (l : list B) :
  (forall acc x, append_only (body acc x)) ->
  forall acc, append_only (for_each l body acc).
Proof.
  intros Hbody. induction l as [|x l IH]; intros acc; simpl.
  - apply ao_ret.
  - apply ao_bind; auto.
Qed.

Lemma ao_get_decorator_name (d : ast.expr) : append_only (get_decorator_name d).
Proof.
  induction d; simpl; try apply ao_ret; auto.
  apply ao_bind; [apply ao_lift | intros; apply ao_ret].
Qed.

Lemma ao_comprehension {A B} (f : A -> M B) (l : list A) :
  (forall x, append_only (f x)) -> append_only (comprehension f l).
Proof.
  intros Hf. induction l as [|x l IH]; simpl.
  - apply ao_ret.
  - apply ao_bind; [apply Hf|]. intros y.
    apply ao_bind; [apply IH|]. intros ys. apply ao_ret.
Qed.

End AppendOnly.

Ltac ao_step :=
  match goal with
  | |- append_only (ret _) => apply ao_ret
  | |- append_only (bind _ _) => apply ao_bind; [|intros]
  | |- append_only (when _ _) => apply ao_when
  | |- append_only (add_error _ _ _) => apply ao_add_error
  | |- append_only (add_warning _ _ _) => apply ao_add_warning
  | |- append_only (add_info _ _ _) => apply ao_add_info
  | |- append_only (lift _) => apply ao_lift
  | |- append_only (comprehension get_decorator_name _) =>
      apply ao_comprehension, ao_get_decorator_name
  | |- append_only (get_decorator_name _) => apply ao_get_decorator_name
  | |- append_only (for_each _ _ _) => apply ao_for_each; intros
  | |- append_only (if ?b then _ else _) => destruct b
  | |- append_only (match ?x with _ => _ end) => destruct x
  | |- append_only (match ?x with _ => _ end _) => destruct x
  end.

Ltac ao_auto := repeat (ao_step; simpl).

Section AppendOnlyChecks.

Context {env : Env}.

Lemma ao_check_imports t : append_only (check_imports t).
Proof. unfold check_imports, check_imports_visit. ao_auto. Qed.

Lemma ao_check_server_init t : append_only (check_server_init t).
Proof. unfold check_server_init, check_server_init_visit. ao_auto. Qed.

Lemma ao_check_decorators t : append_only (check_decorators t).
Proof.
  unfold check_decorators, count_decorated, check_decorators_visit,
    check_tool_function, check_resource_function, check_prompt_function.
  ao_auto.
Qed.

Lemma ao_check_type_hints t : append_only (check_type_hints t).
Proof. unfold check_type_hints, check_type_hints_visit. ao_auto. Qed.

Lemma ao_check_async_patterns t : append_only (check_async_patterns t).
Proof. unfold check_async_patterns, check_async_patterns_visit. ao_auto. Qed.

Lemma ao_check_context_usage t : append_only (check_context_usage t).
Proof.
  unfold check_context_usage, check_context_usage_visit, context_param_visit.
  ao_auto.
Qed.

Lemma ao_check_best_practices t : append_only (check_best_practices t).
Proof. unfold check_best_practices, check_best_practices_visit. ao_auto. Qed.

Lemma ao_validate : append_only validate.
Proof.
  assert (Hstop : forall l msg sg,
            append_only (bind (add_error l msg sg) (fun _ => ret false))).
  { intros. apply ao_bind; [apply ao_add_error | intros; apply ao_ret]. }
  intros self. unfold validate. rewrite bind_get_self.
  destruct (path_exists (filepath self)) as [e | []]; cbn [negb];
    [now apply ao_raise | | now apply Hstop].
  destruct (read_file (filepath self)) as [e | content]; [now apply Hstop|].
  destruct (ast_parse content (filepath self)) as [t | e | e];
    [| now apply Hstop | now apply ao_raise].
  assert (Htree : append_only (fun self => Returned tt (set_tree t self))).
  { intros v. simpl. apply (extends_refl v). }
  revert self.
  change (append_only
    (bind (fun self => Returned tt (set_tree t self)) (fun _ =>
     bind (check_imports t) (fun _ =>
     bind (check_server_init t) (fun _ =>
     bind (check_decorators t) (fun _ =>
     bind (check_type_hints t) (fun _ =>
     bind (check_async_patterns t) (fun _ =>
     bind (check_context_usage t) (fun _ =>
     bind (check_best_practices t) (fun _ =>
     bind get_self (fun self' =>
       ret (negb (existsb is_error (issues self')))))))))))))).
  repeat first
    [ exact Htree | apply ao_check_imports | apply ao_check_server_init
    | apply ao_check_decorators | apply ao_check_type_hints
    | apply ao_check_async_patterns | apply ao_check_context_usage
    | apply ao_check_best_practices
    | apply ao_ret
    | apply ao_bind; [|intros] ].
Qed.

End AppendOnlyChecks.

(** X7. Whatever the environment does, and whether [validate] returns or
    raises, it leaves the path and the strict flag of the validator alone
    and only appends to its findings: those present before the call are
    still there, first and in order; every finding added has severity
    "error", "warning" or "info", and an info finding is added only under
    the strict flag. *)
Theorem validate_appends `{env : Env} (self : FastMCPValidator) :
  let self' := state_of (validate self) in
  filepath self' = filepath self /\
  strict self' = strict self /\
  exists added,
    issues self' = (issues self ++ added)%list /\
    Forall (fun i => valid_severity i = true) added /\
    (strict self = false -> Forall (fun i => is_info i = false) added).
Proof.
  destruct (ao_validate self) as (Hf & Hs & w & Hw & HF).
  simpl. split; [exact Hf|]. split; [exact Hs|]. exists w. split; [exact Hw|].
  split.
  - eapply Forall_impl; [|exact HF]. now intros i [Hv _].
  - intros Hplain. eapply Forall_impl; [|exact HF]. intros i [_ Hi].
    destruct (is_info i); [|reflexivity]. rewrite Hi in Hplain by reflexivity.
    discriminate.
Qed.

(** * The summary of the inventory *)

Section Summary.

Context {env : Env}.
Variable u : ast.expr -> string.
Hypothesis Hu : forall e, ast_unparse e = inr (u e).
Variable s : bool.

Ltac located_done :=
  repeat first
    [ apply Forall_nil
    | apply Forall_cons; [unfold located; simpl; discriminate|]
    | apply Forall_map, Forall_forall; intros; unfold located; simpl; discriminate
    | apply Forall_app; split ].

Lemma check_decorators_visit_located counts node :
  wp s (check_decorators_visit counts node)
    (fun _ w =>
       Forall located w /\
       (has_decorator u "mcp.tool" node = false ->
        has_decorator u "mcp.resource" node = false ->
        has_decorator u "mcp.prompt" node = false -> w = [])).
Proof.
  destruct counts as [[tool_count resource_count] prompt_count].
  unfold check_decorators_visit.
  destruct node as [| [] | | | | | | |];
    try (apply wp_ret; split; [constructor | reflexivity]).
  unfold has_decorator, check_tool_function, check_prompt_function.
  repeat (first
    [ match goal with
      | |- wp _ (check_resource_function _ _ _) _ =>
          eapply wp_conseq;
          [apply check_resource_function_findings | intros ? ? ->]
      end
    | wp_step Hu ]; cbn beta iota);
    (split; [located_done | intros; first [congruence | reflexivity]]).
Qed.

Lemma inventory_snoc (l : list ast.AST) (x : ast.AST) :
  inventory u (l ++ [x]) = (0, 0, 0) ->
  inventory u l = (0, 0, 0) /\
  has_decorator u "mcp.tool" x = false /\
  has_decorator u "mcp.resource" x = false /\
  has_decorator u "mcp.prompt" x = false.
Proof.
  unfold inventory. rewrite !count_snoc. intros [= H1 H2 H3].
  destruct (has_decorator u "mcp.tool" x), (has_decorator u "mcp.resource" x),
    (has_decorator u "mcp.prompt" x); try lia.
  repeat split; f_equal; try lia. f_equal; lia.
Qed.

Lemma count_decorated_summary t :
  wp s (count_decorated t)
    (fun counts w =>
       counts = inventory u (ast.walk (ast.of_mod t)) /\
       Forall located w /\
       (inventory u (ast.walk (ast.of_mod t)) = (0, 0, 0) -> w = [])).
Proof.
  unfold count_decorated.
  apply wp_for_each with
    (Inv := fun done counts w =>
       counts = inventory u done /\ Forall located w /\
       (inventory u done = (0, 0, 0) -> w = [])).
  - repeat split; constructor.
  - intros done x rest counts w _ (-> & Hloc & Hzero).
    eapply wp_conseq.
    + apply wp_conj;
        [eapply check_decorators_visit_counts, Hu | apply check_decorators_visit_located].
    + intros counts' w' [-> [Hloc' Hzero']]. split; [|split].
      * unfold inventory. simpl. now rewrite !count_snoc.
      * apply Forall_app. now split.
      * intros H. apply inventory_snoc in H as (H0 & Ht & Hr & Hp).
        now rewrite (Hzero H0), (Hzero' Ht Hr Hp).
  - auto.
Qed.

Lemma check_decorators_summary t :
  wp s (check_decorators t)
    (fun _ w =>
       (inventory u (ast.walk (ast.of_mod t)) = (0, 0, 0) ->
        w = [no_handlers_finding]) /\
       (inventory u (ast.walk (ast.of_mod t)) <> (0, 0, 0) ->
        exists w0,
          Forall located w0 /\
          w = (w0 ++ if s then [found_finding (inventory u (ast.walk (ast.of_mod t)))]
                     else [])%list)).
Proof.
  unfold check_decorators. apply wp_bind.
  eapply wp_conseq; [apply count_decorated_summary|].
  intros counts w (-> & Hloc & Hzero). cbn beta.
  destruct (inventory u (ast.walk (ast.of_mod t))) as [[tools resources] prompts] eqn:Hinv.
  cbn iota beta.
  destruct ((tools =? 0)%nat && (resources =? 0)%nat && (prompts =? 0)%nat) eqn:Hall.
  - apply andb_prop in Hall as [Hall Hp]. apply andb_prop in Hall as [Ht Hr].
    apply Nat.eqb_eq in Ht, Hr, Hp. subst.
    apply wp_add_warning. split.
    + intros _. now rewrite (Hzero eq_refl).
    + intros H. now contradiction H.
  - apply wp_add_info. split.
    + intros [= -> -> ->]. discriminate.
    + intros _. exists w. split; [exact Hloc | reflexivity].
Qed.

End Summary.

(** X8. [check_decorators] ends on one of two summaries.  When no
    synchronous function definition has a decorator resolving to exactly
    "mcp.tool", "mcp.resource" or "mcp.prompt", the warning that nothing is
    defined is all the check stores.  Otherwise that warning is not stored:
    the check stores the findings of the counted functions, each with a
    line number, followed under the strict flag by the info finding that
    spells out the three counts. *)
Theorem decorator_summary `{env : Env} (u : ast.expr -> string) (t : ast.Mod)
    (self : FastMCPValidator) :
  (forall e, ast_unparse e = inr (u e)) ->
  let counts := inventory u (ast.walk (ast.of_mod t)) in
  (counts = (0, 0, 0) ->
   check_decorators t self
   = Returned tt (set_issues (issues self ++ [no_handlers_finding])%list self))
  /\
  (counts <> (0, 0, 0) ->
   exists w0,
     check_decorators t self
     = Returned tt
         (set_issues
            (issues self ++ w0 ++ if strict self then [found_finding counts] else [])%list
            self) /\
     Forall (fun i => line i <> None) w0 /\
     ~ List.In no_handlers_finding w0).
Proof.
  intros Hu counts.
  destruct (wp_run self (@check_decorators_summary _ u Hu (strict self) t))
    as ([] & w & Hrun & Hzero & Hsome).
  split.
  - intros H. now rewrite Hrun, (Hzero H).
  - intros H. destruct (Hsome H) as (w0 & Hloc & ->).
    exists w0. split; [exact Hrun|]. split; [exact Hloc|].
    intros Hin. rewrite Forall_forall in Hloc. now apply (Hloc _ Hin).
Qed.

Lemma decorator_summary_witness :
  @check_decorators (total_env (Parsed qualified_file)) qualified_file
    (init "server.py" true)
  = Returned tt (set_issues [no_handlers_finding] (init "server.py" true))
  /\
  exists w0,
    @check_decorators (total_env (Parsed lookup_file)) lookup_file
      (init "server.py" true)
    = Returned tt
        (set_issues (w0 ++ [found_finding (0, 1, 0)]) (init "server.py" true)).
Proof.
  split.
  - apply (@decorator_summary (total_env (Parsed qualified_file)) render
             qualified_file (init "server.py" true)).
    + intros e. reflexivity.
    + vm_compute. reflexivity.
  - destruct (@decorator_summary (total_env (Parsed lookup_file)) render
                lookup_file (init "server.py" true) (fun e => eq_refl))
      as [_ Hsome].
    destruct Hsome as (w0 & Hrun & _); [vm_compute; discriminate|].
    exists w0. exact Hrun.
Defined.

(** * The report *)

Section Report.

Lemma valid_severity_cases (i : ValidationIssue) :
  valid_severity i = true ->
  (severity i =? "error") = true \/ (severity i =? "warning") = true
  \/ (severity i =? "info") = true.
Proof.
  unfold valid_severity, mem. simpl. rewrite orb_false_r.
  intros H. apply orb_prop in H as [H | H]; [now left|].
  apply orb_prop in H as [H | H]; auto.
Qed.

Lemma severity_partition (l : list ValidationIssue) :
  Forall (fun i => valid_severity i = true) l ->
  List.length (filter (fun i => severity i =? "error") l)
  + List.length (filter (fun i => severity i =? "warning") l)
  + List.length (filter (fun i => severity i =? "info") l)
  = List.length l.
Proof.
  induction 1 as [|i l Hi _ IH]; simpl; [reflexivity|].
  apply valid_severity_cases in Hi as [H | [H | H]];
    apply String.eqb_eq in H; rewrite H; simpl; lia.
Qed.

Lemma print_group_issue label group i :
  List.In i group ->
  List.In ("  [" ++ location i ++ "] " ++ message i) (print_group label group).
Proof.
  intros Hi. unfold print_group. destruct group as [|j group]; [destruct Hi|].
  right. apply in_or_app. left. apply in_flat_map. exists i.
  split; [exact Hi | now left].
Qed.

End Report.

(** X9. [print_results] drops nothing.  For a validator whose findings all
    have one of the three severities (as every run leaves it) and that has
    at least one, the line of every finding, with its location and message,
    is among the texts printed, and the last text is the summary, whose
    three counts add up to the number of findings and whose first count is
    the number of error findings.  The location reads General for a finding
    without a line, and also for line 0. *)
Theorem report_is_complete (self : FastMCPValidator) :
  Forall (fun i => valid_severity i = true) (issues self) ->
  issues self <> [] ->
  (forall i, List.In i (issues self) ->
     List.In ("  [" ++ location i ++ "] " ++ message i) (print_results self)) /\
  (exists n_errors n_warnings n_infos,
     last (print_results self) "" = summary_line n_errors n_warnings n_infos /\
     n_errors + n_warnings + n_infos = List.length (issues self) /\
     n_errors = List.length (errors (issues self))) /\
  (forall i, List.In i (issues self) ->
     line i = None \/ line i = Some 0%Z -> location i = "General").
Proof.
  intros Hvalid Hsome. unfold print_results.
  destruct (issues self) as [|i0 rest] eqn:Hissues; [now contradiction Hsome|].
  rewrite <- Hissues in *. clear Hsome. split; [|split].
  - intros i Hi. rewrite Forall_forall in Hvalid.
    destruct (valid_severity_cases i (Hvalid i Hi)) as [H | [H | H]].
    + apply in_or_app. left. apply print_group_issue, filter_In. now split.
    + apply in_or_app. right. apply in_or_app. left.
      apply print_group_issue, filter_In. now split.
    + apply in_or_app. right. apply in_or_app. right. apply in_or_app. left.
      apply print_group_issue, filter_In. now split.
  - eexists _, _, _. split; [|split].
    + rewrite !app_assoc. apply last_last.
    + now apply severity_partition.
    + reflexivity.
  - intros i _ [H | H]; unfold location; now rewrite H.
Qed.

Lemma report_is_complete_witness :
  List.In "  [Line 6] Function 'fetch' uses await but is not async"
    (print_results (set_issues [await_finding "fetch" 6; main_block_finding]
                      (init "server.py" true)))
  /\
  exists n_errors n_warnings n_infos,
    last (print_results (set_issues [await_finding "fetch" 6; main_block_finding]
                           (init "server.py" true))) ""
    = summary_line n_errors n_warnings n_infos /\
    n_errors + n_warnings + n_infos = 2.
Proof.
  destruct (report_is_complete
              (set_issues [await_finding "fetch" 6; main_block_finding]
                 (init "server.py" true)))
    as (Hlines & (e & w & i & Hlast & Hsum & _) & _).
  - repeat constructor.
  - discriminate.
  - split.
    + apply (Hlines (await_finding "fetch" 6)). now left.
    + exists e, w, i. split; [exact Hlast | exact Hsum].
Defined.

(** * Reach of the await test *)

(** X10. [has_await] holds of a node exactly when an [Await] node is that
    node or lies below it at any depth, so it holds of every node around
    one of which it holds: an [await] inside a nested function, even a
    nested [async def] where it is legitimate, counts against the enclosing
    synchronous handler. *)
Theorem await_reach (node : ast.AST) :
  (has_await node = true
   <-> exists value, descendant (ast.of_expr (ast.Await value)) node)
  /\
  (forall inside, descendant inside node -> has_await inside = true ->
                  has_await node = true).
Proof.
  split; [apply has_await_spec|].
  intros inside Hinside Hawait.
  apply has_await_spec in Hawait as (value & Hvalue).
  apply has_await_spec. exists value. eapply descendant_trans; eassumption.
Qed.

Lemma await_reach_witness : has_await (ast.of_stmt outer) = true.
Proof.
  apply (await_reach (ast.of_stmt outer)) with (inside := ast.of_stmt inner).
  - apply walk_spec. vm_compute. tauto.
  - reflexivity.
Defined.

(** * Runs that stop before the parser *)

(** X11. A path that does not exist, or a file that cannot be read, ends
    the run before the parser is called: the validator holds the one error
    finding for it (with the path, or with the text of the exception), no
    tree is stored, the verdict is failure and [main] exits with 1. *)
Theorem unavailable_file `{env : Env} (file : string) (strict_flag : bool) :
  (path_exists file = inr false ->
   validate (init file strict_flag)
   = Returned false
       (set_issues [missing_file_finding file] (init file strict_flag)) /\
   main file strict_flag
   = Returned 1%Z (set_issues [missing_file_finding file] (init file strict_flag)))
  /\
  (forall e, path_exists file = inr true -> read_file file = inl e ->
   validate (init file strict_flag)
   = Returned false (set_issues [unreadable_finding e] (init file strict_flag)) /\
   main file strict_flag
   = Returned 1%Z (set_issues [unreadable_finding e] (init file strict_flag))).
Proof.
  split.
  - intros Hmissing.
    assert (Hrun : validate (init file strict_flag)
                   = Returned false
                       (set_issues [missing_file_finding file] (init file strict_flag))).
    { unfold validate, bind, get_self. simpl. now rewrite Hmissing. }
    split; [exact Hrun|]. unfold main, bind. now rewrite Hrun.
  - intros e Hexists Hread.
    assert (Hrun : validate (init file strict_flag)
                   = Returned false
                       (set_issues [unreadable_finding e] (init file strict_flag))).
    { unfold validate, bind, get_self. simpl. now rewrite Hexists, Hread. }
    split; [exact Hrun|]. unfold main, bind. now rewrite Hrun.
Qed.

Lemma unavailable_file_witness :
  @main absent_env "server.py" false
  = Returned 1%Z
      (set_issues [missing_file_finding "server.py"] (init "server.py" false))
  /\
  @main unreadable_env "server.py" false
  = Returned 1%Z
      (set_issues [unreadable_finding PermissionError] (init "server.py" false)).
Proof.
  split.
  - destruct (@unavailable_file absent_env "server.py" false) as [Hmissing _].
    apply Hmissing. reflexivity.
  - destruct (@unavailable_file unreadable_env "server.py" false) as [_ Hread].
    apply (Hread PermissionError); reflexivity.
Defined.

(** * The run, check by check *)

Section Composition.

Context {env : Env}.
Variable u : ast.expr -> string.
Hypothesis Hu : forall e, ast_unparse e = inr (u e).

Lemma wp_alone (s : bool) (check : ast.Mod -> M unit) (t : ast.Mod) :
  wp s (check t) (fun _ _ => True) ->
  wp s (check t) (fun _ w => w = alone check t s).
Proof.
  intros ([] & w & Hm & _). exists tt, w. split; [exact Hm|].
  unfold alone. now rewrite (Hm (init "" s) eq_refl).
Qed.

Lemma run_checks_alone (s : bool) t :
  wp s (run_checks t)
    (fun _ w =>
       w = (alone check_imports t s ++ alone check_server_init t s
              ++ alone check_decorators t s ++ alone check_type_hints t s
              ++ alone check_async_patterns t s ++ alone check_context_usage t s
              ++ alone check_best_practices t s)%list).
Proof.
  eapply wp_run_checks.
  - apply wp_alone, check_imports_total.
  - apply wp_alone, check_server_init_total.
  - apply wp_alone. eapply check_decorators_total, Hu.
  - apply wp_alone. eapply check_type_hints_total, Hu.
  - apply wp_alone. eapply check_async_patterns_total, Hu.
  - apply wp_alone. eapply check_context_usage_total, Hu.
  - apply wp_alone, check_best_practices_total.
  - intros w1 w2 w3 w4 w5 w6 w7 H1 H2 H3 H4 H5 H6 H7. cbv beta in *.
    now subst.
Qed.

End Composition.

(** X12. The checks do not see each other's findings.  For a file that
    parses, [ast.unparse] rendering every expression, the findings of the
    run are the findings each check stores when run alone on a fresh
    validator with the same strict flag, one check after the other in the
    order of the calls; the verdict is failure exactly when one of them is
    an error. *)
Theorem run_is_concatenation `{env : Env} (u : ast.expr -> string)
    (file : string) (strict_flag : bool) (content : string) (t : ast.Mod) :
  (forall e, ast_unparse e = inr (u e)) ->
  path_exists file = inr true ->
  read_file file = inr content ->
  ast_parse content file = Parsed t ->
  let findings :=
    (alone check_imports t strict_flag ++ alone check_server_init t strict_flag
       ++ alone check_decorators t strict_flag ++ alone check_type_hints t strict_flag
       ++ alone check_async_patterns t strict_flag
       ++ alone check_context_usage t strict_flag
       ++ alone check_best_practices t strict_flag)%list in
  validate (init file strict_flag)
  = Returned (negb (existsb is_error findings))
      (set_issues findings (set_tree t (init file strict_flag))).
Proof.
  intros Hu Hexists Hread Hparse findings.
  destruct (@run_checks_alone _ u Hu strict_flag t) as ([] & w & Hemits & Hw).
  fold findings in Hw. subst w.
  exact (@validate_emits _ (init file strict_flag) content t findings
           Hexists Hread Hparse Hemits).
Qed.

Lemma run_is_concatenation_witness :
  @validate (total_env (Parsed lookup_file)) (init "server.py" false)
  = Returned false
      (set_issues
         [missing_uri_finding "lookup" 6;
          param_hint_finding "lookup" 6 (ast.mk_arg "key" None);
          param_hint_finding "lookup" 6 (ast.mk_arg "context" None);
          return_hint_finding "lookup" 6;
          await_finding "lookup" 6;
          context_async_finding "lookup" 6]
         (set_tree lookup_file (init "server.py" false))).
Proof.
  apply (@run_is_concatenation (total_env (Parsed lookup_file)) render
           "server.py" false "" lookup_file); reflexivity.
Defined.

(** X13. [validate] does not clear the findings of an earlier run: called a
    second time on the same validator, for a file that parses and with
    [ast.unparse] rendering every expression, it returns the same verdict
    and leaves every finding of the first run stored twice. *)
Theorem second_run_doubles `{env : Env} (u : ast.expr -> string)
    (file : string) (strict_flag : bool) (content : string) (t : ast.Mod)
    (success : bool) (self1 : FastMCPValidator) :
  (forall e, ast_unparse e = inr (u e)) ->
  path_exists file = inr true ->
  read_file file = inr content ->
  ast_parse content file = Parsed t ->
  validate (init file strict_flag) = Returned success self1 ->
  validate self1
  = Returned success (set_issues (issues self1 ++ issues self1)%list self1).
Proof.
  intros Hu Hexists Hread Hparse Hfirst.
  destruct (@run_checks_total _ u Hu strict_flag t) as ([] & w & Hemits & _).
  pose proof (@validate_emits _ (init file strict_flag) content t w
                Hexists Hread Hparse Hemits) as H1.
  rewrite H1 in Hfirst. injection Hfirst as <- <-. cbn [issues init app].
  pose proof (@validate_emits _
                (set_issues w (set_tree t (init file strict_flag))) content t w
                Hexists Hread Hparse Hemits) as H2.
  rewrite H2. simpl. rewrite existsb_app. now destruct (existsb is_error w).
Qed.

Lemma second_run_doubles_witness :
  @validate (total_env (Parsed scenario_C))
    (set_issues [await_finding "fetch" 6] (set_tree scenario_C (init "server.py" false)))
  = Returned false
      (set_issues [await_finding "fetch" 6; await_finding "fetch" 6]
         (set_tree scenario_C (init "server.py" false))).
Proof.
  apply (@second_run_doubles (total_env (Parsed scenario_C)) render
           "server.py" false "" scenario_C false
           (set_issues [await_finding "fetch" 6]
              (set_tree scenario_C (init "server.py" false))));
    reflexivity.
Defined.

Lemma bind_run {A B} (m : M A) (k : A -> M B) (self self1 : FastMCPValidator) (a : A) :
  m self = Returned a self1 -> bind m k self = k a self1.
Proof. intros H. unfold bind. now rewrite H. Qed.

(** The checks after the first two, with the verdict. *)
Lemma ao_later_checks `{env : Env} (t : ast.Mod) :
  append_only
    (bind (check_decorators t) (fun _ =>
     bind (check_type_hints t) (fun _ =>
     bind (check_async_patterns t) (fun _ =>
     bind (check_context_usage t) (fun _ =>
     bind (check_best_practices t) (fun _ =>
     bind get_self (fun self' =>
       ret (negb (existsb is_error (issues self')))))))))).
Proof.
  repeat first
    [ apply ao_check_decorators | apply ao_check_type_hints
    | apply ao_check_async_patterns | apply ao_check_context_usage
    | apply ao_check_best_practices
    | apply ao_ret
    | (intros v; apply (extends_refl v))
    | apply ao_bind; [|intros] ].
Qed.

(** Without the import and the initialization, the stored findings begin
    with the two errors, however the run ends. *)
Lemma two_errors_first `{env : Env} (file : string) (strict_flag : bool)
    (content : string) (t : ast.Mod) :
  path_exists file = inr true ->
  read_file file = inr content ->
  ast_parse content file = Parsed t ->
  (forall n, descendant n (ast.of_mod t) -> is_fastmcp_import n = false) ->
  (forall n, descendant n (ast.of_mod t) -> is_server_init n = false) ->
  exists rest,
    issues (state_of (validate (init file strict_flag)))
    = missing_import_finding :: missing_init_finding :: rest.
Proof.
  intros Hexists Hread Hparse Himport Hinit.
  apply existsb_no_descendant in Himport, Hinit.
  unfold validate. rewrite bind_get_self.
  cbn [filepath init]. rewrite Hexists, Hread, Hparse. cbn [negb].
  rewrite (@bind_run _ _ _ _ (init file strict_flag)
             (set_tree t (init file strict_flag)) tt eq_refl).
  destruct (wp_run (set_tree t (init file strict_flag))
              (check_imports_findings strict_flag t)) as ([] & w1 & Hrun1 & ->).
  rewrite Himport, (import_findings_none _ Himport) in Hrun1.
  rewrite (@bind_run _ _ _ _ _ _ _ Hrun1).
  match type of Hrun1 with _ = Returned tt ?v => set (self1 := v) in * end.
  destruct (wp_run self1 (check_server_init_findings strict_flag t))
    as ([] & w2 & Hrun2 & ->).
  rewrite Hinit, (init_findings_none _ (unnamed_is_init _ Hinit)) in Hrun2.
  rewrite (@bind_run _ _ _ _ _ _ _ Hrun2).
  match type of Hrun2 with _ = Returned tt ?v => set (self2 := v) in * end.
  destruct (ao_later_checks t self2) as (_ & _ & rest & Hissues & _).
  exists rest. rewrite Hissues. reflexivity.
Qed.

(** X14. A file that parses but has neither a [from fastmcp import ...]
    nor an assignment of a [FastMCP(...)] call at any depth never passes,
    in any environment.  However the run ends, the findings stored begin
    with the error for the missing import and the error for the missing
    initialization; [validate] does not return [True] and the status of the
    process is 1.  When [ast.unparse] renders the expressions of the file,
    [validate] returns [False] and [main] exits with 1. *)
Theorem nothing_of_fastmcp `{env : Env} (file : string) (strict_flag : bool)
    (content : string) (t : ast.Mod) :
  path_exists file = inr true ->
  read_file file = inr content ->
  ast_parse content file = Parsed t ->
  (forall n, descendant n (ast.of_mod t) -> is_fastmcp_import n = false) ->
  (forall n, descendant n (ast.of_mod t) -> is_server_init n = false) ->
  (exists rest,
     issues (state_of (validate (init file strict_flag)))
     = missing_import_finding :: missing_init_finding :: rest) /\
  (forall self', validate (init file strict_flag) <> Returned true self') /\
  exit_status (main file strict_flag) = 1%Z /\
  (forall u, renders u t ->
     exists self',
       validate (init file strict_flag) = Returned false self' /\
       main file strict_flag = Returned 1%Z self').
Proof.
  intros Hexists Hread Hparse Himport Hinit.
  destruct (@two_errors_first _ file strict_flag content t Hexists Hread Hparse
              Himport Hinit)
    as (rest & Hfirst).
  assert (Hnever : forall success self',
            validate (init file strict_flag) = Returned success self' ->
            success = false).
  { intros success self' Hrun. rewrite Hrun in Hfirst. simpl in Hfirst.
    apply validate_verdict in Hrun. rewrite Hrun, Hfirst. reflexivity. }
  split; [now exists rest|]. split; [|split].
  - intros self' Hrun. now apply Hnever in Hrun.
  - unfold main, bind.
    destruct (validate (init file strict_flag)) as [success self' | e self'] eqn:Hrun;
      [|reflexivity].
    now rewrite (Hnever _ _ eq_refl).
  - intros u Ht.
    assert (Hreturns : exists success self',
              validate (init file strict_flag) = Returned success self').
    { rewrite (@validate_local env u t Ht (init file strict_flag) content)
        by assumption.
      destruct (@run_checks_total (rendering env u) u (fun x => eq_refl)
                  strict_flag t) as ([] & w & Hw & _).
      eexists _, _.
      apply (@validate_emits (rendering env u) (init file strict_flag)
               content t w); simpl; auto. }
    destruct Hreturns as (success & self' & Hrun).
    pose proof (Hnever _ _ Hrun) as ->.
    exists self'. split; [exact Hrun|]. unfold main, bind. now rewrite Hrun.
Qed.

Lemma nothing_of_fastmcp_witness :
  (exists rest,
     issues (state_of (@validate (file_env 1000 (Parsed qualified_file))
                         (init "server.py" false)))
     = missing_import_finding :: missing_init_finding :: rest) /\
  exit_status (@main (file_env 1000 (Parsed qualified_file)) "server.py" false)
  = 1%Z /\
  exists self',
    @validate (file_env 1000 (Parsed qualified_file)) (init "server.py" false)
    = Returned false self'.
Proof.
  destruct (@nothing_of_fastmcp (file_env 1000 (Parsed qualified_file))
              "server.py" false "" qualified_file eq_refl eq_refl eq_refl)
    as (Hfirst & _ & Hstatus & Hrenders).
  - apply existsb_no_descendant. vm_compute. reflexivity.
  - apply existsb_no_descendant. vm_compute. reflexivity.
  - split; [exact Hfirst|]. split; [exact Hstatus|].
    destruct (Hrenders render) as (self' & Hrun & _).
    + apply file_env_renders. vm_compute. reflexivity.
    + now exists self'.
Defined.
